(** * AgroPrediccion backend: the demand-forecasting engine

    A shallow embedding of [services/predictor.py] (Prophet variant),
    [services/predictor_sarima.py] (SARIMA variant),
    [services/firebase_service.py] and the routes of [app/routes.py] that
    read the store, with the properties of the forecasting engine stated
    and proved over it.

    Modelling conventions.
    - Python exceptions are values of [result]: [Raise msg] carries [str(e)].
    - Python/numpy floats are idealised as real numbers extended with
      [NaN] and the two infinities ([pyfloat]); rounding error, overflow and
      the sign of zero are not modelled.  Control flow that depends on
      [NaN] (Python's [max]/[min], numpy division by zero) is modelled.
    - The value of ['demanda'] in a stored document is a number or a string
      ([pyval]): the predictors read documents without checking them.
    - A pandas timestamp is a calendar day at midnight ([date]); time of
      day and time zone are not modelled.  The string
      ["<anio>-<mes>-01"] of a calendar month within the range of
      [Timestamp] parses to the first day of that month; what the parser
      makes of any other string is a parameter ([Pandas.Engine]), and so
      is the order in which a sort leaves rows of equal timestamps.
    - The statistical engines (Prophet's Stan fit, statsmodels' SARIMAX
      constructor and fit) are parameters: type classes [ProphetEngine]
      and [SarimaxEngine].
    - [self.model], the only field of [DemandPredictor], is threaded
      explicitly: every method takes the predictor and returns the new one. *)

From Stdlib Require Import Reals Lra ZArith String List Sorted.
From stdpp Require Import base gmap strings list fin_maps pretty.

Local Open Scope string_scope.

(** ** Exceptions *)

Inductive result (A : Type) : Type :=
| Ok (a : A)
| Raise (msg : string).
Arguments Ok {A} a.
Arguments Raise {A} msg.

#[global] Instance result_ret : MRet result := fun _ a => Ok a.

#[global] Instance result_bind : MBind result := fun _ _ k c =>
  match c with
  | Ok a => k a
  | Raise e => Raise e
  end.

(** Below, [x ← c; k] is the sequencing of [result]: an exception raised by
    [c] skips [k]; [mapM f l] is [[f(x) for x in l]] where [f] may raise
    (the first exception wins). *)

(** ** Floats *)

Inductive pyfloat : Type :=
| Fin (r : R)
| PInf
| NInf
| NaN.

(** The value stored under ['demanda'] in a document of the store: the
    upload route writes a float, but the store has no schema and the
    predictors do not check what they read, so a string can reach them. *)
Inductive pyval : Type :=
| Number (r : R)
| Text (s : string).

Module Float.
Local Open Scope R_scope.

(** Python's [a > b] and [a < b]; every comparison with [NaN] is [False]. *)
Definition gt (a b : pyfloat) : bool :=
  match a, b with
  | NaN, _ | _, NaN => false
  | Fin x, Fin y => if Rlt_dec y x then true else false
  | PInf, PInf => false
  | PInf, _ => true
  | _, NInf => match a with NInf => false | _ => true end
  | _, _ => false
  end.

Definition lt (a b : pyfloat) : bool := gt b a.

(** Python's builtin [max(a, b)]: keeps [a] unless [b > a]. *)
Definition max (a b : pyfloat) : pyfloat := if gt b a then b else a.

(** Python's builtin [min(a, b)]: keeps [a] unless [b < a]. *)
Definition min (a b : pyfloat) : pyfloat := if lt b a then b else a.

Definition opp (a : pyfloat) : pyfloat :=
  match a with
  | Fin x => Fin (- x)
  | PInf => NInf
  | NInf => PInf
  | NaN => NaN
  end.

Definition add (a b : pyfloat) : pyfloat :=
  match a, b with
  | NaN, _ | _, NaN => NaN
  | Fin x, Fin y => Fin (x + y)
  | PInf, NInf | NInf, PInf => NaN
  | PInf, _ | _, PInf => PInf
  | NInf, _ | _, NInf => NInf
  end.

Definition sub (a b : pyfloat) : pyfloat := add a (opp b).

(** The infinity with the sign of [x], [NaN] for zero. *)
Definition signed_inf (x : R) : pyfloat :=
  if Rlt_dec 0 x then PInf else if Rlt_dec x 0 then NInf else NaN.

Definition mul (a b : pyfloat) : pyfloat :=
  match a, b with
  | NaN, _ | _, NaN => NaN
  | Fin x, Fin y => Fin (x * y)
  | Fin x, PInf | PInf, Fin x => signed_inf x
  | Fin x, NInf | NInf, Fin x => signed_inf (- x)
  | PInf, PInf | NInf, NInf => PInf
  | PInf, NInf | NInf, PInf => NaN
  end.

(** numpy's float64 division: a zero divisor gives an infinity or [NaN]
    (the warning is silenced by [warnings.filterwarnings('ignore')]). *)
Definition div (a b : pyfloat) : pyfloat :=
  match a, b with
  | NaN, _ | _, NaN => NaN
  | Fin x, Fin y => if Req_EM_T y 0 then signed_inf x else Fin (x / y)
  | Fin _, _ => Fin 0
  | _, PInf | _, NInf => NaN
  | PInf, Fin y => if Rlt_dec y 0 then NInf else PInf
  | NInf, Fin y => if Rlt_dec y 0 then PInf else NInf
  end.

(** Round half to even, to the nearest integer. *)
Definition rint (y : R) : Z :=
  let f := Int_part y in
  let d := y - IZR f in
  if Rlt_dec d (1 / 2) then f
  else if Rlt_dec (1 / 2) d then (f + 1)%Z
  else if Z.even f then f else (f + 1)%Z.

(** [round(x, 2)] on a finite value. *)
Definition round2 (x : R) : R := IZR (rint (x * 100)) / 100.

(** [round(x, 2)]: infinities and [NaN] are returned unchanged. *)
Definition round (x : pyfloat) : pyfloat :=
  match x with
  | Fin r => Fin (round2 r)
  | other => other
  end.

(** [x >= 0] as a proposition on the extended line. *)
Definition nonneg (x : pyfloat) : Prop :=
  match x with
  | Fin r => 0 <= r
  | PInf => True
  | NInf | NaN => False
  end.

(** The value has at most two decimals (or is the positive infinity, which
    [round] leaves alone). *)
Definition two_decimals (x : pyfloat) : Prop :=
  match x with
  | Fin r => exists k : Z, r = IZR k / 100
  | PInf => True
  | NInf | NaN => False
  end.

End Float.

(** ** Timestamps and the pandas operations the predictors use *)

(** A pandas timestamp at midnight. *)
Record date : Type := mkdate { year : Z; month : Z; day : Z }.

#[global] Instance date_eq_dec : EqDecision date.
Proof. solve_decision. Defined.

(** A demand record as read from the store:
    [{'producto': str, 'anio': int, 'mes': int, 'demanda': ...}]. *)
Record DemandRecord : Type := mkrecord {
  producto : string;
  anio : Z;
  mes : Z;
  demanda : pyval
}.

(** A prepared series: the rows [(ds, y)] of the Prophet data frame, or the
    items [(fecha, demanda)] of the SARIMA series. *)
Abbreviation series := (list (date * pyval)).

Module Pandas.
Local Open Scope Z_scope.

(** Months counted from year 0: consecutive months have consecutive
    ordinals. *)
Definition ordinal (d : date) : Z := year d * 12 + (month d - 1).

(** The first day of the month of ordinal [n]. *)
Definition of_ordinal (n : Z) : date := mkdate (n / 12) (n mod 12 + 1) 1.

(** [a <= b] and [a < b] on timestamps. *)
Definition le (a b : date) : bool :=
  (ordinal a <? ordinal b) || ((ordinal a =? ordinal b) && (day a <=? day b)).

Definition lt (a b : date) : bool := negb (le b a).

(** [pd.Timestamp.min] is 1677-09-21 00:12:43 and [pd.Timestamp.max] is
    2262-04-11 23:47:16: the first and the last midnight a nanosecond
    timestamp can hold. *)
Definition first_day : date := mkdate 1677 9 22.
Definition last_day : date := mkdate 2262 4 11.

Definition in_bounds (d : date) : bool := le first_day d && le d last_day.

Definition leap_year (y : Z) : bool :=
  (y mod 4 =? 0) && (negb (y mod 100 =? 0) || (y mod 400 =? 0)).

Definition days_in_month (y m : Z) : Z :=
  if m =? 2 then (if leap_year y then 29 else 28)
  else if (m =? 4) || (m =? 6) || (m =? 9) || (m =? 11) then 30
  else 31.

(** [s.zfill(2)]. *)
Definition zfill2 (s : string) : string :=
  if (String.length s <? 2)%nat then "0" +:+ s else s.

(** [str(anio) + '-' + str(mes).zfill(2) + '-01']. *)
Definition date_string (anio mes : Z) : string :=
  pretty anio +:+ "-" +:+ zfill2 (pretty mes) +:+ "-01".

(** The row names a calendar month whose first day is within the range of
    [Timestamp]: its string is the ISO date ["YYYY-MM-01"]. *)
Definition calendar (anio mes : Z) : bool :=
  (1 <=? mes) && (mes <=? 12) && in_bounds (mkdate anio mes 1).

(** What this development leaves open about pandas.
    - [parse_other]: [pd.to_datetime] on a column of date strings that are
      not all ISO dates within the range of [Timestamp] (a year of another
      length or out of range, a sign, a month that is not 01..12): an
      exception, or the timestamp read for each row, by position.
    - [tie_break]: the sorting algorithm ([kind='quicksort'], not stable)
      on a column of timestamps: the rank it gives row [i] among the rows
      that have the timestamp of row [i]. *)
Class Engine : Type := {
  parse_other : list string -> result (nat -> date);
  tie_break : list date -> nat -> Z
}.

(** [pd.to_datetime(anio.astype(str) + '-' + mes.astype(str).str.zfill(2)
    + '-01')] for the two columns. *)
Definition to_datetime `{Engine} (anio mes : list Z) : result (list date) :=
  let rows := zip anio mes in
  if forallb (fun row => calendar (fst row) (snd row)) rows then
    Ok (map (fun row => mkdate (fst row) (snd row) 1) rows)
  else
    at_row ← parse_other (map (fun row => date_string (fst row) (snd row)) rows);
    mret (map at_row (seq 0 (length rows))).

(** [d + pd.DateOffset(months=k)]: the same day of the month [k] months
    on, or the last day of that month when it is shorter. *)
Definition add_months (d : date) (k : Z) : result date :=
  let first := of_ordinal (ordinal d + k) in
  let e := mkdate (year first) (month first)
             (Z.min (day d) (days_in_month (year first) (month first))) in
  if in_bounds e then Ok e else Raise "Out of bounds nanosecond timestamp".

(** [pd.date_range(start=start, periods=periods, freq='MS')]: [periods]
    month starts from [start] on, or from the month after [start] when
    [start] is not a month start; none for [periods <= 0]. *)
Definition date_range (start : date) (periods : Z) : result (list date) :=
  let first := if day start =? 1 then ordinal start else ordinal start + 1 in
  mapM (fun i : nat =>
          let d := of_ordinal (first + Z.of_nat i) in
          if in_bounds d then Ok d else Raise "Out of bounds nanosecond timestamp")
       (seq 0 (Z.to_nat periods)).

(** [d.strftime('%Y-%m')]. *)
Definition strftime (d : date) : string :=
  pretty (year d) +:+ "-" +:+ zfill2 (pretty (month d)).

(** The order of two rows in a sort: by timestamp, then by rank. *)
Definition row_le {A} (x y : Z * (date * A)) : bool :=
  lt (fst (snd x)) (fst (snd y))
  || (le (fst (snd x)) (fst (snd y)) && (fst x <=? fst y)).

Fixpoint insert_sorted {A} (x : Z * (date * A)) (l : list (Z * (date * A)))
  : list (Z * (date * A)) :=
  match l with
  | [] => [x]
  | y :: l' => if row_le x y then x :: y :: l' else y :: insert_sorted x l'
  end.

(** [sort_values('ds')] / [sort_index()]: ascending by timestamp; rows of
    the same timestamp come in the order of their ranks. *)
Definition sort_by_date `{Engine} {A} (l : list (date * A)) : list (date * A) :=
  map snd
    (foldr insert_sorted [] (imap (fun i row => (tie_break (map fst l) i, row)) l)).

(** [sort_values()] on timestamps. *)
Definition sort_dates (l : list date) : list date :=
  map (fun x => fst (snd x)) (foldr insert_sorted [] (map (fun d => (0, (d, tt))) l)).

(** [values.max()] of a column of timestamps ([None] stands for NaT). *)
Definition max_date (l : list date) : option date :=
  match l with
  | [] => None
  | d :: l' => Some (foldl (fun m e => if lt m e then e else m) d l')
  end.

(** [df.tail(n)]: the last [n] rows; for a negative [n], all rows but the
    first [|n|]. *)
Definition tail {A} (n : Z) (l : list A) : list A :=
  if n <? 0 then drop (Z.to_nat (- n)) l
  else drop (length l - Z.to_nat n)%nat l.

(** [index[:n]]: the first [n] entries; for a negative [n], all but the
    last [|n|]. *)
Definition head_slice {A} (n : Z) (l : list A) : list A :=
  if n <? 0 then take (length l - Z.to_nat (- n))%nat l
  else take (Z.to_nat n) l.

(** [s.iloc[i]]. *)
Definition iloc {A} (l : list A) (i : nat) : result A :=
  match l !! i with
  | Some x => Ok x
  | None => Raise "single positional indexer is out-of-bounds"
  end.

Local Open Scope R_scope.

Definition Rsum (l : list R) : R := foldr Rplus 0 l.

(** The numbers of a column, as the arithmetic of a reduction sees them: a
    string in the column makes the reduction raise [TypeError]. *)
Definition numeric_values (col : list pyval) : result (list R) :=
  mapM (fun v => match v with
                 | Number r => Ok r
                 | Text _ => Raise "unsupported operand type(s) for -: 'float' and 'str'"
                 end) col.

(** [round(v, 2)] for a value of a column. *)
Definition round_value (v : pyval) : result R :=
  match v with
  | Number r => Ok (Float.round2 r)
  | Text _ => Raise "type str doesn't define __round__ method"
  end.

(** [s.mean()] of a float column without missing values. *)
Definition mean (l : list R) : pyfloat :=
  match l with
  | [] => NaN
  | _ => Fin (Rsum l / INR (length l))
  end.

(** The sample variance (ddof = 1) of at least two values. *)
Definition var (l : list R) : R :=
  let m := Rsum l / INR (length l) in
  Rsum (map (fun x => (x - m) * (x - m)) l) / (INR (length l) - 1).

(** [s.std()] of a float column without missing values. *)
Definition std (l : list R) : pyfloat :=
  match l with
  | [] | [_] => NaN
  | _ => Fin (sqrt (var l))
  end.

End Pandas.

(** ** The response of a forecast *)

Inductive Level : Type := Alta | Media | Baja.

(** One entry of ['predictions']. *)
Record Prediction : Type := mkprediction {
  p_fecha : string;
  p_anio : Z;
  p_mes : Z;
  prediccion : pyfloat;
  limite_inferior : pyfloat;
  limite_superior : pyfloat
}.

(** One entry of ['historical']. *)
Record HistoricalPoint : Type := mkhistorical {
  h_fecha : string;
  h_anio : Z;
  h_mes : Z;
  h_demanda : R
}.

(** The ['confidence'] dict; the key ['mae'] is absent in the Prophet
    variant. *)
Record Confidence : Type := mkconfidence {
  score : pyfloat;
  level : Level;
  mae : option R
}.

(** The dict returned by [train_and_predict]: ['success'] is [True] with the
    four result keys, or [False] with ['error']. *)
Inductive Response : Type :=
| Success (predictions : list Prediction) (historical : list HistoricalPoint)
          (confidence : Confidence) (total_data_points : nat)
| Failure (error : string).

Definition success (r : Response) : bool :=
  match r with
  | Success _ _ _ _ => true
  | Failure _ => false
  end.

Definition insufficient_history : string :=
  "Se requieren al menos 12 meses de datos históricos".

Definition prediction_error (e : string) : string :=
  "Error en predicción: " +:+ e.

(** The [except Exception as e] clause of [train_and_predict]. *)
Definition catch_all (r : result Response) : Response :=
  match r with
  | Ok resp => resp
  | Raise e => Failure (prediction_error e)
  end.

(** ** The Prophet library, as far as the predictor uses it *)

Module ProphetLib.

Record forecast_row : Type := mkrow {
  ds : date;
  yhat : pyfloat;
  yhat_lower : pyfloat;
  yhat_upper : pyfloat
}.

(** A [Prophet] object: its settings, and what [fit] stores in it. *)
Record Prophet : Type := mkprophet {
  seasonality_mode : string;
  yearly_seasonality : bool;
  weekly_seasonality : bool;
  daily_seasonality : bool;
  changepoint_prior_scale : R;
  history_dates : option (list date);
  params : option (date -> pyfloat * pyfloat * pyfloat)
}.

(** The Stan optimisation behind [Prophet.fit]: from the settings and the
    history to a fitted model, which gives [(yhat, yhat_lower, yhat_upper)]
    at a date, or an exception. *)
Class ProphetEngine : Type :=
  stan_fit : Prophet -> series -> result (date -> pyfloat * pyfloat * pyfloat).

(** [Prophet(seasonality_mode=.., yearly_seasonality=.., ..)]. *)
Definition new (mode : string) (yearly weekly daily : bool) (cps : R) : Prophet :=
  mkprophet mode yearly weekly daily cps None None.

(** [m.fit(df)]; [history_dates] are the distinct timestamps, ascending. *)
Definition fit `{ProphetEngine} (m : Prophet) (df : series) : result Prophet :=
  match history_dates m with
  | Some _ =>
      Raise "Prophet object can only be fit once. Instantiate a new object."
  | None =>
      if (length df <? 2)%nat then Raise "Dataframe has less than 2 non-NaN rows."
      else
        p ← stan_fit m df;
        mret (mkprophet (seasonality_mode m) (yearly_seasonality m)
                (weekly_seasonality m) (daily_seasonality m)
                (changepoint_prior_scale m)
                (Some (Pandas.sort_dates (remove_dups (map fst df))))
                (Some p))
  end.

(** [m.make_future_dataframe(periods=periods, freq='MS')]: the history
    dates followed by the month starts after the last of them. *)
Definition make_future_dataframe (m : Prophet) (periods : Z) : result (list date) :=
  match history_dates m with
  | None => Raise "Model has not been fit."
  | Some hd =>
      match Pandas.max_date hd with
      | None => Raise "NaTType does not support date_range"
      | Some last_date =>
          dates ← Pandas.date_range last_date (periods + 1);
          let dates := filter (fun d => Pandas.lt last_date d = true) dates in
          let dates := Pandas.head_slice periods dates in
          mret (hd ++ dates)%list
      end
  end.

(** [m.predict(future)]: one row per row of [future], in ascending order of
    [ds] (the order [make_future_dataframe] already gives). *)
Definition predict (m : Prophet) (future : list date) : result (list forecast_row) :=
  match params m with
  | None => Raise "Model has not been fit."
  | Some p =>
      match future with
      | [] => Raise "Dataframe has no rows."
      | _ => mret (map (fun d => let '(y, lo, hi) := p d in mkrow d y lo hi) future)
      end
  end.

End ProphetLib.

(** ** services/predictor.py *)

Module Predictor.
Import ProphetLib.

Record DemandPredictor : Type := mkpredictor { model : option Prophet }.

Definition __init__ : DemandPredictor := mkpredictor None.

Definition prepare_data `{Pandas.Engine} (data : list DemandRecord)
  : result (option series) :=
  match data with
  | [] => mret None
  | _ =>
      ds ← Pandas.to_datetime (map anio data) (map mes data);
      let df := zip ds (map demanda data) in
      mret (Some (Pandas.sort_by_date df))
  end.

Definition _format_historical (df : series) : result (list HistoricalPoint) :=
  mapM (fun row : date * pyval =>
          demanda ← Pandas.round_value (snd row);
          mret (mkhistorical (Pandas.strftime (fst row)) (year (fst row))
                  (month (fst row)) demanda)) df.

Definition _calculate_confidence (historical_df : series)
    (forecast_df : list forecast_row) : result Confidence :=
  y ← Pandas.numeric_values (map snd historical_df);
  let variability := Float.div (Pandas.std y) (Pandas.mean y) in
  let confidence :=
    Float.max (Fin 0)
      (Float.min (Fin 100) (Float.mul (Fin 100) (Float.sub (Fin 1) variability))) in
  mret (mkconfidence (Float.round confidence)
          (if Float.gt confidence (Fin 70) then Alta
           else if Float.gt confidence (Fin 40) then Media else Baja)
          None).

(** The entry of ['predictions'] built from a forecast row. *)
Definition format_prediction (row : forecast_row) : Prediction :=
  mkprediction (Pandas.strftime (ds row)) (year (ds row)) (month (ds row))
    (Float.round (Float.max (Fin 0) (yhat row)))
    (Float.round (Float.max (Fin 0) (yhat_lower row)))
    (Float.round (Float.max (Fin 0) (yhat_upper row))).

(** [self.model], read for a method call. *)
Definition get_model (self : DemandPredictor) : result Prophet :=
  match model self with
  | Some m => Ok m
  | None => Raise "'NoneType' object has no attribute 'fit'"
  end.

(** The statements after the history gate, inside the [try] block: the
    result or the exception, and the predictor as they leave it. *)
Definition fit_and_forecast `{ProphetEngine} (self : DemandPredictor) (df : series)
    (periods : Z) : result Response * DemandPredictor :=
  let self :=
    mkpredictor (Some (new "multiplicative" true false false (5 / 100)%R)) in
  match m ← get_model self; fit m df with
  | Raise e => (Raise e, self)
  | Ok m =>
      (* [fit] has updated the object [self.model] refers to *)
      let self := mkpredictor (Some m) in
      (m ← get_model self;
       future ← make_future_dataframe m periods;
       m ← get_model self;
       forecast ← predict m future;
       let predictions := Pandas.tail periods forecast in
       let results := map format_prediction predictions in
       confidence ← _calculate_confidence df forecast;
       historical ← _format_historical df;
       mret (Success results historical confidence (length df)),
       self)
  end.

(** The [try] block of [train_and_predict]. *)
Definition train_and_predict_try `{Pandas.Engine} `{ProphetEngine}
    (self : DemandPredictor) (historical_data : list DemandRecord) (periods : Z)
  : result Response * DemandPredictor :=
  match prepare_data historical_data with
  | Raise e => (Raise e, self)
  | Ok None => (Ok (Failure insufficient_history), self)
  | Ok (Some df) =>
      if (length df <? 12)%nat then (Ok (Failure insufficient_history), self)
      else fit_and_forecast self df periods
  end.

Definition train_and_predict `{Pandas.Engine} `{ProphetEngine}
    (self : DemandPredictor) (historical_data : list DemandRecord) (periods : Z)
  : Response * DemandPredictor :=
  let '(r, self) := train_and_predict_try self historical_data periods in
  (catch_all r, self).

(** The loop over [products_data.items()]; the predictor is the same object
    in every iteration. *)
Definition predict_multiple_products `{Pandas.Engine} `{ProphetEngine}
    (self : DemandPredictor) (products_data : gmap string (list DemandRecord))
    (periods : Z) : gmap string Response * DemandPredictor :=
  map_fold
    (fun product data (acc : gmap string Response * DemandPredictor) =>
       let '(prediction, self) := train_and_predict (snd acc) data periods in
       (<[product := prediction]> (fst acc), self))
    (∅, self) products_data.

End Predictor.

(** ** statsmodels and scikit-learn, as far as the predictor uses them *)

Module StatsModels.

(** A [SARIMAX] model object: the series and the settings it is built with. *)
Record SARIMAX : Type := mksarimax {
  endog : series;
  order : Z * Z * Z;
  seasonal_order : Z * Z * Z * Z;
  enforce_stationarity : bool;
  enforce_invertibility : bool
}.

(** The results object returned by [SARIMAX.fit]: [forecast(steps)],
    [get_forecast(steps).conf_int()] (rows of lower and upper bound) and
    [fittedvalues]; each may raise. *)
Record SARIMAXResults : Type := mkresults {
  forecast : Z -> result (list pyfloat);
  conf_int : Z -> result (list (pyfloat * pyfloat));
  fittedvalues : result (list pyfloat)
}.

(** statsmodels: the exception [SARIMAX.__init__] raises for a model, if
    any (it refuses a series it cannot read as numbers), and the
    maximum-likelihood fit behind [SARIMAX.fit(disp=False)]. *)
Class SarimaxEngine : Type := {
  sarimax_init : SARIMAX -> option string;
  sarimax_fit : SARIMAX -> result SARIMAXResults
}.

(** [SARIMAX(endog, order=.., seasonal_order=.., enforce_stationarity=..,
    enforce_invertibility=..)]. *)
Definition new `{SarimaxEngine} (endog : series) (order : Z * Z * Z)
    (seasonal_order : Z * Z * Z * Z) (enforce_stationarity enforce_invertibility : bool)
  : result SARIMAX :=
  let m := mksarimax endog order seasonal_order enforce_stationarity
             enforce_invertibility in
  match sarimax_init m with
  | Some e => Raise e
  | None => Ok m
  end.

Definition finite (x : pyfloat) : option R :=
  match x with
  | Fin r => Some r
  | _ => None
  end.

(** [sklearn.metrics.mean_absolute_error(y_true, y_pred)]: the inputs must
    have the same, non-zero, number of samples and hold finite values. *)
Definition mean_absolute_error (y_true : list pyval) (y_pred : list pyfloat) : result R :=
  if negb (length y_true =? length y_pred)%nat then
    Raise "Found input variables with inconsistent numbers of samples"
  else
    true_values ← Pandas.numeric_values y_true;
    match true_values with
    | [] => Raise "Found array with 0 sample(s) while a minimum of 1 is required."
    | _ =>
        match mapM finite y_pred with
        | None => Raise "Input contains NaN."
        | Some pred =>
            Ok (Pandas.Rsum (zip_with (fun t p => Rabs (p - t)) true_values pred)
                / INR (length true_values))%R
        end
    end.

End StatsModels.

(** ** services/predictor_sarima.py *)

Module PredictorSarima.
Import StatsModels.

Record DemandPredictor : Type := mkpredictor { model : option SARIMAX }.

Definition __init__ : DemandPredictor := mkpredictor None.

Definition prepare_data `{Pandas.Engine} (data : list DemandRecord)
  : result (option series) :=
  match data with
  | [] => mret None
  | _ =>
      fecha ← Pandas.to_datetime (map anio data) (map mes data);
      let df := zip fecha (map demanda data) in
      mret (Some (Pandas.sort_by_date df))
  end.

Definition _format_historical (ts : series) : result (list HistoricalPoint) :=
  mapM (fun item : date * pyval =>
          demanda ← Pandas.round_value (snd item);
          mret (mkhistorical (Pandas.strftime (fst item)) (year (fst item))
                  (month (fst item)) demanda)) ts.

(** The [try] block of [_calculate_confidence]. *)
Definition _calculate_confidence_try (ts : series) (model_fit : SARIMAXResults)
  : result Confidence :=
  predictions ← fittedvalues model_fit;
  mae ← mean_absolute_error (drop 1 (map snd ts)) (drop 1 predictions);
  values ← Pandas.numeric_values (map snd ts);
  let mean_demand := Pandas.mean values in
  let relative_error :=
    if Float.gt mean_demand (Fin 0) then Float.div (Fin mae) mean_demand else Fin 1 in
  let confidence :=
    Float.max (Fin 0)
      (Float.min (Fin 100) (Float.mul (Fin 100) (Float.sub (Fin 1) relative_error))) in
  mret (mkconfidence (Float.round confidence)
          (if Float.gt confidence (Fin 70) then Alta
           else if Float.gt confidence (Fin 40) then Media else Baja)
          (Some (Float.round2 mae))).

(** The value of the bare [except:] clause. *)
Definition default_confidence : Confidence := mkconfidence (Fin 50) Media (Some 0%R).

Definition _calculate_confidence (ts : series) (model_fit : SARIMAXResults) : Confidence :=
  match _calculate_confidence_try ts model_fit with
  | Ok c => c
  | Raise _ => default_confidence
  end.

(** [self.model], read for a method call. *)
Definition get_model (self : DemandPredictor) : result SARIMAX :=
  match model self with
  | Some m => Ok m
  | None => Raise "'NoneType' object has no attribute 'fit'"
  end.

(** [ts.index[-1]]. *)
Definition last_index (ts : series) : result date :=
  match last ts with
  | Some item => Ok (fst item)
  | None => Raise "index -1 is out of bounds for axis 0 with size 0"
  end.

(** The entry of ['predictions'] for position [i] and its date. *)
Definition format_prediction (forecast : list pyfloat)
    (conf_int : list (pyfloat * pyfloat)) (i : nat) (date : date) : result Prediction :=
  y ← Pandas.iloc forecast i;
  ci ← Pandas.iloc conf_int i;
  mret (mkprediction (Pandas.strftime date) (year date) (month date)
          (Float.round (Float.max (Fin 0) y))
          (Float.round (Float.max (Fin 0) (fst ci)))
          (Float.round (Float.max (Fin 0) (snd ci)))).

(** The statements after the history gate, inside the [try] block: the
    result or the exception, and the predictor as they leave it.  The
    assignment to [self.model] takes place once [SARIMAX(..)] has
    returned. *)
Definition fit_and_forecast `{SarimaxEngine} (self : DemandPredictor) (ts : series)
    (periods : Z) : result Response * DemandPredictor :=
  let order := (1, 1, 1)%Z in
  let seasonal_order := (1, 1, 1, 12)%Z in
  match new ts order seasonal_order false false with
  | Raise e => (Raise e, self)
  | Ok m =>
      let self := mkpredictor (Some m) in
      (m ← get_model self;
       model_fit ← sarimax_fit m;
       forecast ← forecast model_fit periods;
       conf_int ← conf_int model_fit periods;
       last_date ← last_index ts;
       start ← Pandas.add_months last_date 1;
       forecast_dates ← Pandas.date_range start periods;
       results ← mapM (fun '(i, date) => format_prediction forecast conf_int i date)
                      (zip (seq 0 (length forecast_dates)) forecast_dates);
       let confidence := _calculate_confidence ts model_fit in
       historical ← _format_historical ts;
       mret (Success results historical confidence (length ts)),
       self)
  end.

(** The [try] block of [train_and_predict]. *)
Definition train_and_predict_try `{Pandas.Engine} `{SarimaxEngine}
    (self : DemandPredictor) (historical_data : list DemandRecord) (periods : Z)
  : result Response * DemandPredictor :=
  match prepare_data historical_data with
  | Raise e => (Raise e, self)
  | Ok None => (Ok (Failure insufficient_history), self)
  | Ok (Some ts) =>
      if (length ts <? 12)%nat then (Ok (Failure insufficient_history), self)
      else fit_and_forecast self ts periods
  end.

Definition train_and_predict `{Pandas.Engine} `{SarimaxEngine}
    (self : DemandPredictor) (historical_data : list DemandRecord) (periods : Z)
  : Response * DemandPredictor :=
  let '(r, self) := train_and_predict_try self historical_data periods in
  (catch_all r, self).

(** The loop over [products_data.items()]; the predictor is the same object
    in every iteration. *)
Definition predict_multiple_products `{Pandas.Engine} `{SarimaxEngine}
    (self : DemandPredictor) (products_data : gmap string (list DemandRecord))
    (periods : Z) : gmap string Response * DemandPredictor :=
  map_fold
    (fun product data (acc : gmap string Response * DemandPredictor) =>
       let '(prediction, self) := train_and_predict (snd acc) data periods in
       (<[product := prediction]> (fst acc), self))
    (∅, self) products_data.

End PredictorSarima.

(** ** app/routes.py: the two prediction routes *)

Module Routes.
Import ProphetLib Predictor.

(** The two reads of [FirebaseService] the routes use (both return [[]]
    when the store raises). *)
Class Firebase : Type := {
  get_product_data : string -> list DemandRecord;
  get_all_products : list string
}.

(** Python's [str.upper]. *)
Class PyStr : Type := upper : string -> string.

(** [Config.FORECAST_PERIODS]. *)
Definition FORECAST_PERIODS : Z := 3.

(** The JSON bodies of the two routes. *)
Inductive Body : Type :=
| JsonError (error : string)
| JsonPrediction (producto : string) (prediccion : list Prediction)
                 (historico : list HistoricalPoint) (confianza : Confidence)
                 (total_meses_historicos : nat)
| JsonPredictions (predicciones : gmap string Response) (total_productos : nat).

Section routes.
Context `{Pandas.Engine} `{ProphetEngine} `{Firebase} `{PyStr}.

(** [GET /predict/<producto>]; [arg] is the query parameter [periods] when
    it is present and reads as an integer
    ([request.args.get('periods', Config.FORECAST_PERIODS, type=int)]).
    Returns the body, the status code and the module-level predictor. *)
Definition predict_product (predictor : DemandPredictor) (producto : string)
    (arg : option Z) : Body * Z * DemandPredictor :=
  let periods := default FORECAST_PERIODS arg in
  if ((periods <? 1) || (12 <? periods))%Z then
    (JsonError "Los períodos deben estar entre 1 y 12", 400%Z, predictor)
  else
    let producto_upper := upper producto in
    let historical_data := get_product_data producto_upper in
    match historical_data with
    | [] =>
        (JsonError ("No se encontraron datos para el producto: " +:+ producto),
         404%Z, predictor)
    | _ =>
        let '(result, predictor) := train_and_predict predictor historical_data periods in
        match result with
        | Success predictions historical confidence total_data_points =>
            (JsonPrediction producto_upper predictions historical confidence
               total_data_points, 200%Z, predictor)
        | Failure error => (JsonError error, 400%Z, predictor)
        end
    end.

(** [GET /predict-all]. *)
Definition predict_all_products (predictor : DemandPredictor) (arg : option Z)
  : Body * Z * DemandPredictor :=
  let periods := default FORECAST_PERIODS arg in
  let products := get_all_products in
  match products with
  | [] =>
      (JsonError "No hay productos disponibles. Sube datos primero.", 404%Z, predictor)
  | _ =>
      let '(results, predictor) :=
        foldl (fun (acc : gmap string Response * DemandPredictor) product =>
                 let historical_data := get_product_data product in
                 let '(prediction, self) :=
                   train_and_predict (snd acc) historical_data periods in
                 (<[product := prediction]> (fst acc), self))
              (∅, predictor) products in
      (JsonPredictions results (size results), 200%Z, predictor)
  end.

End routes.
End Routes.

(** ** services/firebase_service.py *)

Module FirebaseService.
Local Open Scope Z_scope.

(** The collection ['demandas']: its documents, in the order [stream()]
    yields them (that of their document ids).  The documents are those
    [save_demand_data] writes: the four keys of a record are present (the
    defaults of [x.get('anio', 0)] and the test ['producto' in data] serve
    documents of another origin); the key ['timestamp'] it adds, which is
    stored and returned with the document and which nothing reads, is left
    out. *)
Record Firestore : Type := mkstore { demandas : list DemandRecord }.

(** The backend: the exception [stream()] raises, if any; the one
    [commit()] raises for a batch of [n] writes, if any; and where the
    ids that [collection_ref.document()] generates place the documents of
    a batch among the stored ones. *)
Class Backend : Type := {
  stream_fault : option string;
  commit_fault : nat -> option string;
  placed : list DemandRecord -> list DemandRecord -> list DemandRecord;
  placed_all : forall stored batch, placed stored batch ≡ₚ stored ++ batch
}.

Definition stream `{Backend} (db : Firestore) : result (list DemandRecord) :=
  match stream_fault with
  | Some e => Raise e
  | None => Ok (demandas db)
  end.




(** The order of the keys [(x['anio'], x['mes'])]. *)
Definition key_le (x y : DemandRecord) : bool :=
  (anio x <? anio y) || ((anio x =? anio y) && (mes x <=? mes y)).

(** [data.sort(key=...)]: stable. *)
Fixpoint insert_by_key (x : DemandRecord) (l : list DemandRecord) : list DemandRecord :=
  match l with
  | [] => [x]
  | y :: l' => if key_le x y then x :: y :: l' else y :: insert_by_key x l'
  end.

Definition sort_by_key (l : list DemandRecord) : list DemandRecord :=
  foldr insert_by_key [] l.

Definition get_product_data `{Backend} (db : Firestore) (product : string)
  : list DemandRecord :=
  match stream db with
  | Ok docs => sort_by_key (filter (fun doc => producto doc = product) docs)
  | Raise _ => []
  end.

(** [sorted(...)] on strings. *)
Fixpoint insert_string (x : string) (l : list string) : list string :=
  match l with
  | [] => [x]
  | y :: l' => if String.leb x y then x :: y :: l' else y :: insert_string x l'
  end.

Definition sorted (l : list string) : list string := foldr insert_string [] l.

Definition get_all_products `{Backend} (db : Firestore) : list string :=
  match stream db with
  | Ok docs => sorted (remove_dups (map producto docs))
  | Raise _ => []
  end.


End FirebaseService.

(** ** app/routes.py: the routes over the stored data *)

Module DataRoutes.
Import FirebaseService.

(** The module-level [firebase] object, as the prediction routes see it. *)
Definition firebase `{Backend} (db : Firestore) : Routes.Firebase := {|
  Routes.get_product_data := FirebaseService.get_product_data db;
  Routes.get_all_products := FirebaseService.get_all_products db
|}.

(** The JSON bodies of these routes. *)
Inductive Body : Type :=
| JsonProducts (products : list string) (total : nat)
| JsonData (producto : string) (data : list DemandRecord) (total : nat)
| JsonMessage (message : string)
| JsonError (error : string).

Section routes.
Context `{Backend} `{Routes.PyStr}.

(** [GET /products]. *)
Definition get_products (db : Firestore) : Body * Z :=
  let products := get_all_products db in
  (JsonProducts products (length products), 200%Z).

(** [GET /data/<producto>]. *)
Definition get_product_data (db : Firestore) (producto : string) : Body * Z :=
  let producto_upper := Routes.upper producto in
  let data := FirebaseService.get_product_data db producto_upper in
  match data with
  | [] => (JsonError ("No se encontraron datos para: " +:+ producto), 404%Z)
  | _ => (JsonData producto_upper data (length data), 200%Z)
  end.


End routes.
End DataRoutes.

(** ** Vocabulary of the statements *)


(** The record names a calendar month, from October 1677 to April 2262:
    the months whose first day a pandas timestamp can hold. *)
Definition valid_month (r : DemandRecord) : Prop :=
  (1 <= mes r <= 12)%Z /\
  (1677 * 12 + 9 <= anio r * 12 + (mes r - 1) <= 2262 * 12 + 3)%Z.

(** The timestamp of a record with a valid month. *)
Definition month_start (r : DemandRecord) : date := mkdate (anio r) (mes r) 1.

(** The first day of the [k]-th calendar month after that of [d]. *)
Definition month_after (d : date) (k : Z) : date :=
  Pandas.of_ordinal (Pandas.ordinal d + k).

(** The [periods] months that follow the month of [last_date]. *)
Definition horizon (last_date : date) (periods : Z) : list date :=
  map (fun i : nat => month_after last_date (Z.of_nat i + 1)) (seq 0 (Z.to_nat periods)).

(** The calendar labels [(anio, mes)] of a list of predictions. *)
Definition labels (l : list Prediction) : list (Z * Z) :=
  map (fun p => (p_anio p, p_mes p)) l.

(** The series is in ascending order of its timestamps. *)
Definition ascending {A} (l : list (date * A)) : Prop :=
  StronglySorted (fun x y => Pandas.le (fst x) (fst y) = true) l.

(** The model object each variant builds in [train_and_predict]. *)
Definition prophet_model : ProphetLib.Prophet :=
  ProphetLib.new "multiplicative" true false false (5 / 100)%R.

Definition sarimax_model (ts : series) : StatsModels.SARIMAX :=
  StatsModels.mksarimax ts (1, 1, 1)%Z (1, 1, 1, 12)%Z false false.

(** The engine [E] with a fit whose [fittedvalues] raise [e]. *)
Definition with_failing_fittedvalues (E : StatsModels.SarimaxEngine) (e : string)
  : StatsModels.SarimaxEngine := {|
  StatsModels.sarimax_init := @StatsModels.sarimax_init E;
  StatsModels.sarimax_fit := fun m =>
    r ← @StatsModels.sarimax_fit E m;
    mret (StatsModels.mkresults (StatsModels.forecast r) (StatsModels.conf_int r) (Raise e))
|}.

(** [round(max(0, raw), 2)] spelled out on the extended reals: a finite
    value is clamped to a minimum of zero and rounded to two decimals, the
    positive infinity is kept, and Python's [max(0, x)] gives 0 for the
    negative infinity and for [NaN]. *)
Definition rounded_clamp (raw : pyfloat) : pyfloat :=
  match raw with
  | Fin r => Fin (Float.round2 (Rmax 0 r))
  | PInf => PInf
  | NInf | NaN => Fin 0
  end.

(** The three values of the entry [p] are the rounded clamps of the raw
    values [yhat], [lower] and [upper], each of its own; hence each is
    non-negative and has two decimals. *)
Definition clamped_and_rounded (yhat lower upper : pyfloat) (p : Prediction) : Prop :=
  (prediccion p = rounded_clamp yhat /\
   limite_inferior p = rounded_clamp lower /\
   limite_superior p = rounded_clamp upper) /\
  (Float.nonneg (prediccion p) /\ Float.nonneg (limite_inferior p) /\
   Float.nonneg (limite_superior p)) /\
  (Float.two_decimals (prediccion p) /\ Float.two_decimals (limite_inferior p) /\
   Float.two_decimals (limite_superior p)).

(** The level the scorers give to an unrounded confidence value [v]. *)
Definition level_of (v : R) : Level :=
  if Rlt_dec 70 v then Alta else if Rlt_dec 40 v then Media else Baja.

(** The value [confidence] of the dispersion scorer, before it is rounded,
    for the demands [y]: the clamp of [100 * (1 - std / mean)]. *)
Definition dispersion_confidence (y : list R) : pyfloat :=
  Float.max (Fin 0)
    (Float.min (Fin 100)
       (Float.mul (Fin 100)
          (Float.sub (Fin 1) (Float.div (Pandas.std y) (Pandas.mean y))))).

(** The value [confidence] of the error scorer, before it is rounded, for
    the mean absolute error [mae] and the demands [values]: the clamp of
    [100 * (1 - mae / mean)], the relative error being 1 when the mean is
    not positive. *)
Definition error_confidence (mae : R) (values : list R) : pyfloat :=
  Float.max (Fin 0)
    (Float.min (Fin 100)
       (Float.mul (Fin 100)
          (Float.sub (Fin 1)
             (if Float.gt (Pandas.mean values) (Fin 0)
              then Float.div (Fin mae) (Pandas.mean values) else Fin 1)))).

(** The confidence result [c] reports the confidence value [v]: [v] lies
    in [[0, 100]]; the score is [v] rounded to two decimals, also in
    [[0, 100]]; the level is the step function of [v], with 70 in the
    middle step and 40 in the lowest.  Read on the reported score, the
    steps hold away from the two boundaries. *)
Definition graded (v : R) (c : Confidence) : Prop :=
  (0 <= v <= 100)%R /\ score c = Fin (Float.round2 v) /\
  (0 <= Float.round2 v <= 100)%R /\
  ((70 < v)%R -> level c = Alta) /\
  ((40 < v <= 70)%R -> level c = Media) /\
  ((v <= 40)%R -> level c = Baja) /\
  ((70 < Float.round2 v)%R -> level c = Alta) /\
  ((40 < Float.round2 v < 70)%R -> level c = Media) /\
  ((Float.round2 v < 40)%R -> level c = Baja).

(** The entry of ['historical'] echoes an item of the prepared series: its
    labels are those of the item's date and its demand is the item's,
    rounded to two decimals. *)
Definition echoes (item : date * pyval) (h : HistoricalPoint) : Prop :=
  h_fecha h = Pandas.strftime (fst item) /\
  h_anio h = year (fst item) /\ h_mes h = month (fst item) /\
  exists r, snd item = Number r /\ h_demanda h = Float.round2 r.

(** The month [(anio, mes)] of [x] is not after that of [y]. *)
Definition not_after (x y : DemandRecord) : Prop :=
  (anio x < anio y \/ (anio x = anio y /\ mes x <= mes y))%Z.

(** The documents of a product among [docs], in the order of [docs]. *)
Definition of_product (product : string) (docs : list DemandRecord) : list DemandRecord :=
  filter (fun doc => producto doc = product) docs.

(** The documents of the month [(y, m)] among [docs], in the order of [docs]. *)
Definition of_month (y m : Z) (docs : list DemandRecord) : list DemandRecord :=
  filter (fun doc => anio doc = y /\ mes doc = m) docs.

(** The product names that occur in [docs]. *)
Definition names (docs : list DemandRecord) : gset string :=
  list_to_set (map producto docs).

(** ** Sample inputs and engines for the examples *)

Module Samples.
Import ProphetLib StatsModels.

(** pandas with a parser that accepts ISO dates only and a sort that keeps
    rows of the same timestamp in their order. *)
Definition pandas : Pandas.Engine := {|
  Pandas.parse_other := fun _ => Raise "Unknown datetime string format, unable to parse";
  Pandas.tie_break := fun _ i => Z.of_nat i
|}.

(** pandas with a parser that reads ["20-<mes>-01"] day first, as the 20th
    of month [mes] of 2001 (the rows being the twelve months in order), and
    a sort that turns rows of the same timestamp around. *)
Definition day_first : Pandas.Engine := {|
  Pandas.parse_other := fun _ => Ok (fun i => mkdate 2001 (Z.of_nat i + 1) 20);
  Pandas.tie_break := fun _ i => (- Z.of_nat i)%Z
|}.

(** Records of one product for the months 1, 2, ... of year [y]. *)
Definition monthly (product : string) (y : Z) (vals : list pyval) : list DemandRecord :=
  imap (fun i v => mkrecord product y (Z.of_nat i + 1) v) vals.

Definition numbers (l : list R) : list pyval := map Number l.

(** A fit that forecasts the same triple at every date. *)
Definition const_prophet (y lo hi : pyfloat) : ProphetEngine :=
  fun _ _ => Ok (fun _ => (y, lo, hi)).

Definition failing_prophet (e : string) : ProphetEngine := fun _ _ => Raise e.

(** A fit whose forecast repeats one value and one interval, with the given
    in-sample fitted values. *)
Definition const_results (y lo hi : pyfloat) (fitted : result (list pyfloat))
  : SARIMAXResults :=
  mkresults
    (fun steps => if (steps <? 1)%Z then Raise "Prediction must have `end` after `start`."
                  else Ok (replicate (Z.to_nat steps) y))
    (fun steps => if (steps <? 1)%Z then Raise "Prediction must have `end` after `start`."
                  else Ok (replicate (Z.to_nat steps) (lo, hi)))
    fitted.

(** [SARIMAX.__init__] on a series that holds a string: the column has
    dtype object, which statsmodels refuses. *)
Definition dtype_check (m : SARIMAX) : option string :=
  match Pandas.numeric_values (map snd (endog m)) with
  | Ok _ => None
  | Raise _ =>
      Some "Pandas data cast to numpy dtype of object. Check input data with np.asarray(data)."
  end.

Definition const_sarimax (y lo hi : pyfloat) (fitted : result (list pyfloat))
  : SarimaxEngine := {|
  sarimax_init := dtype_check;
  sarimax_fit := fun _ => Ok (const_results y lo hi fitted)
|}.

Definition failing_sarimax (e : string) : SarimaxEngine := {|
  sarimax_init := dtype_check;
  sarimax_fit := fun _ => Raise e
|}.

(** Twelve months of 2020 with a demand of 100 each. *)
Definition flat_year : list DemandRecord :=
  monthly "MAIZ" 2020 (numbers (replicate 12 100%R)).

(** Five months of 2023. *)
Definition five_months : list DemandRecord :=
  monthly "MAIZ" 2023 (numbers [10; 20; 30; 40; 50]%R).

(** Twelve months of the year written 20. *)
Definition short_year : list DemandRecord :=
  monthly "MAIZ" 20 (numbers (replicate 12 100%R)).

(** The prepared series of twelve months of 2020 with the given demands. *)
Definition year_2020 (vals : list pyval) : series :=
  imap (fun i v => (mkdate 2020 (Z.of_nat i + 1) 1, v)) vals.

(** Twelve demands with mean 3 and sample standard deviation 2. *)
Definition uneven_year : series :=
  year_2020 (numbers [6; 0; 6; 0; 5; 1; 3; 3; 3; 3; 3; 3]%R).

(** Twelve months whose demand was stored as the string ["100"]. *)
Definition text_year : list DemandRecord :=
  monthly "MAIZ" 2020 (replicate 12 (Text "100")).

(** A SARIMAX fit of twelve demands of 100 whose fitted values are all
    70.004: the mean absolute error is 29.996. *)
Definition near_70_fit : SARIMAXResults :=
  const_results (Fin 100) (Fin 90) (Fin 110)
    (Ok (replicate 12 (Fin (70004 / 1000)%R))).

(** A SARIMAX fit of twelve demands of 100 whose fitted values are all 70:
    the mean absolute error is 30. *)
Definition exactly_70_fit : SARIMAXResults :=
  const_results (Fin 100) (Fin 90) (Fin 110) (Ok (replicate 12 (Fin 70))).

(** A batch of two products: one with twelve months, one with five. *)
Definition two_products : gmap string (list DemandRecord) :=
  {[ "MAIZ" := flat_year; "TRIGO" := five_months ]}.

(** A store with the same two products. *)
Definition two_product_store : Routes.Firebase := {|
  Routes.get_product_data product :=
    if decide (product = "MAIZ") then flat_year
    else if decide (product = "TRIGO") then five_months else [];
  Routes.get_all_products := ["MAIZ"; "TRIGO"]
|}.

Definition ascii_only : Routes.PyStr := fun s => s.

End Samples.

(** ** Sample stores *)

Module StoreSamples.
Import FirebaseService.

(** A backend that never raises; the new documents come last. *)
Definition reliable : Backend := {|
  stream_fault := None;
  commit_fault := fun _ => None;
  placed := app;
  placed_all := fun stored batch => reflexivity (stored ++ batch)%list
|}.

(** A backend that cannot be reached. *)
Definition unreachable (e : string) : Backend := {|
  stream_fault := Some e;
  commit_fault := fun _ => Some e;
  placed := app;
  placed_all := fun stored batch => reflexivity (stored ++ batch)%list
|}.


Definition record (product : string) (y m : Z) (v : R) : DemandRecord :=
  mkrecord product y m (Number v).

(** Three documents of two products, out of order. *)
Definition small_store : Firestore :=
  mkstore [record "TRIGO" 2021 1 7; record "MAIZ" 2020 12 5; record "MAIZ" 2020 3 4].

(** Twelve months of 2020 for one product. *)
Definition year_store : Firestore := mkstore Samples.flat_year.

(** The twelve months of 2020 of one product, latest first, and a document
    of another product. *)
Definition mixed_store : Firestore :=
  mkstore (reverse Samples.flat_year ++ [record "TRIGO" 2021 1 7])%list.

(** A month uploaded twice, with two demands. *)
Definition repeated_store : Firestore :=
  mkstore [record "MAIZ" 2020 3 4; record "MAIZ" 2020 1 2; record "MAIZ" 2020 3 9].

End StoreSamples.

(** * Properties *)

(** Evaluation of a call on sample inputs: the control flow is computed,
    the arithmetic of the real numbers in the values is left as it is. *)
Ltac run :=
  lazy -[Float.round Float.round2 Float.rint Float.max Float.min Float.gt Float.lt
         Float.div Float.mul Float.sub Float.add Float.opp
         Rdiv Rmult Rplus Rminus Ropp Rinv IZR INR Rabs sqrt
         Pandas.std Pandas.mean Pandas.var Pandas.Rsum Pandas.strftime];
  reflexivity.

(** ** The library operations on examples *)

Example strftime_2024_03 : Pandas.strftime (mkdate 2024 3 1) = "2024-03".
Proof. reflexivity. Qed.

Example date_string_2024_03 : Pandas.date_string 2024 3 = "2024-03-01".
Proof. reflexivity. Qed.

Example date_range_wraps_year :
  Pandas.date_range (mkdate 2023 11 1) 3
  = Ok [mkdate 2023 11 1; mkdate 2023 12 1; mkdate 2024 1 1].
Proof. reflexivity. Qed.

Example date_range_rolls_forward :
  Pandas.date_range (mkdate 2002 1 20) 2 = Ok [mkdate 2002 2 1; mkdate 2002 3 1].
Proof. reflexivity. Qed.

Example date_range_negative : Pandas.date_range (mkdate 2023 11 1) (-1) = Ok [].
Proof. reflexivity. Qed.

Example add_months_clips_the_day :
  Pandas.add_months (mkdate 2020 1 31) 1 = Ok (mkdate 2020 2 29).
Proof. reflexivity. Qed.

Example tail_negative : Pandas.tail (-1) [1; 2; 3]%nat = [2; 3]%nat.
Proof. reflexivity. Qed.

(** ** Rounding and clamping *)

Section float_facts.
Local Open Scope R_scope.

Lemma rint_spec (y : R) :
  IZR (Float.rint y) - 1 / 2 <= y <= IZR (Float.rint y) + 1 / 2.
Proof.
  unfold Float.rint.
  destruct (base_Int_part y) as [Hlo Hhi].
  destruct (Rlt_dec (y - IZR (Int_part y)) (1 / 2)) as [Hd | Hd].
  - lra.
  - destruct (Rlt_dec (1 / 2) (y - IZR (Int_part y))) as [Hu | Hu].
    + rewrite plus_IZR. lra.
    + destruct (Z.even (Int_part y)); [| rewrite plus_IZR]; lra.
Qed.

Lemma rint_le (y : R) (k : Z) : y <= IZR k -> (Float.rint y <= k)%Z.
Proof.
  intros Hy. destruct (rint_spec y) as [Hlo _].
  assert (Hlt : IZR (Float.rint y) < IZR (k + 1)) by (rewrite plus_IZR; lra).
  apply lt_IZR in Hlt. lia.
Qed.

Lemma rint_ge (y : R) (k : Z) : IZR k <= y -> (k <= Float.rint y)%Z.
Proof.
  intros Hy. destruct (rint_spec y) as [_ Hhi].
  assert (Hlt : IZR (k - 1) < IZR (Float.rint y)) by (rewrite minus_IZR; lra).
  apply lt_IZR in Hlt. lia.
Qed.

Lemma rint_near (y : R) (k : Z) :
  IZR k - 1 / 2 < y < IZR k + 1 / 2 -> Float.rint y = k.
Proof.
  intros [Hlo Hhi]. destruct (rint_spec y) as [Hl Hh].
  assert (H1 : IZR (Float.rint y) < IZR (k + 1)) by (rewrite plus_IZR; lra).
  assert (H2 : IZR (k - 1) < IZR (Float.rint y)) by (rewrite minus_IZR; lra).
  apply lt_IZR in H1, H2. lia.
Qed.

Lemma round2_le_grid (c : R) (k : Z) :
  c <= IZR k / 100 -> Float.round2 c <= IZR k / 100.
Proof.
  intros Hc. unfold Float.round2.
  assert (Hk : (Float.rint (c * 100) <= k)%Z) by (apply rint_le; lra).
  apply IZR_le in Hk. lra.
Qed.

Lemma round2_ge_grid (c : R) (k : Z) :
  IZR k / 100 <= c -> IZR k / 100 <= Float.round2 c.
Proof.
  intros Hc. unfold Float.round2.
  assert (Hk : (k <= Float.rint (c * 100))%Z) by (apply rint_ge; lra).
  apply IZR_le in Hk. lra.
Qed.

Lemma round2_near (c : R) (k : Z) :
  IZR k - 1 / 2 < c * 100 < IZR k + 1 / 2 -> Float.round2 c = IZR k / 100.
Proof. intros Hc. unfold Float.round2. by rewrite (rint_near _ k). Qed.

Lemma round2_grid (k : Z) : Float.round2 (IZR k / 100) = IZR k / 100.
Proof. apply round2_near. lra. Qed.

(** [max(0, x)] is [x] when [x > 0] and [0] otherwise, also for [NaN]. *)
Lemma max0_nonneg (x : pyfloat) : Float.nonneg (Float.max (Fin 0) x).
Proof.
  destruct x as [r | | |]; unfold Float.max; simpl; try lra; trivial.
  destruct (Rlt_dec 0 r); simpl; lra.
Qed.

Lemma round_nonneg (x : pyfloat) : Float.nonneg x -> Float.nonneg (Float.round x).
Proof.
  destruct x as [r | | |]; simpl; trivial.
  intros Hr. pose proof (round2_ge_grid r 0) as H. lra.
Qed.

Lemma round_two_decimals (x : pyfloat) :
  Float.nonneg x -> Float.two_decimals (Float.round x).
Proof.
  destruct x as [r | | |]; simpl; trivial.
  intros _. by exists (Float.rint (r * 100)).
Qed.

Lemma clamped_output (raw : pyfloat) :
  let v := Float.round (Float.max (Fin 0) raw) in
  Float.nonneg v /\ Float.two_decimals v.
Proof.
  pose proof (max0_nonneg raw) as H. split.
  - by apply round_nonneg.
  - by apply round_two_decimals.
Qed.

(** [max(0, min(100, x))] is a finite value of [[0, 100]] for every [x],
    and the real clamp of [x] when [x] is finite. *)
Lemma clamp_range (x : pyfloat) :
  exists c, Float.max (Fin 0) (Float.min (Fin 100) x) = Fin c /\ 0 <= c <= 100.
Proof.
  destruct x as [r | | |]; unfold Float.max, Float.min, Float.lt; simpl.
  - destruct (Rlt_dec r 100); simpl.
    + destruct (Rlt_dec 0 r); simpl; eexists; split; try reflexivity; lra.
    + destruct (Rlt_dec 0 100); simpl; eexists; split; try reflexivity; lra.
  - destruct (Rlt_dec 0 100); simpl; eexists; split; try reflexivity; lra.
  - exists 0. split; [reflexivity | lra].
  - destruct (Rlt_dec 0 100); simpl; eexists; split; try reflexivity; lra.
Qed.

Lemma clamp_finite (r : R) :
  Float.max (Fin 0) (Float.min (Fin 100) (Fin r)) = Fin (Rmax 0 (Rmin 100 r)).
Proof.
  unfold Float.max, Float.min, Float.lt, Rmax, Rmin; simpl.
  destruct (Rlt_dec r 100), (Rle_dec 100 r); try lra; simpl.
  - destruct (Rlt_dec 0 r), (Rle_dec 0 r); try lra; try reflexivity.
    f_equal; lra.
  - destruct (Rlt_dec 0 100), (Rle_dec 0 100); try lra; reflexivity.
Qed.

Lemma round2_range (c : R) : 0 <= c <= 100 -> 0 <= Float.round2 c <= 100.
Proof.
  intros [Hlo Hhi].
  pose proof (round2_ge_grid c 0). pose proof (round2_le_grid c 10000). lra.
Qed.

Lemma gt_fin (a b : R) : Float.gt (Fin a) (Fin b) = true <-> b < a.
Proof. simpl. destruct (Rlt_dec b a); split; intros; try done. Qed.

(** [round(max(0, x), 2)] on the extended reals. *)
Lemma rounded_clamp_spec (raw : pyfloat) :
  Float.round (Float.max (Fin 0) raw) = rounded_clamp raw.
Proof.
  assert (H0 : Float.round2 0 = 0).
  { replace 0 with (IZR 0 / 100) at 1 by lra. rewrite round2_grid. lra. }
  destruct raw as [r | | |]; unfold Float.max; simpl; try done; try by rewrite H0.
  unfold Rmax. destruct (Rlt_dec 0 r), (Rle_dec 0 r); simpl; try done; try lra.
  do 2 f_equal. lra.
Qed.

End float_facts.

(** ** Sequencing of exceptions *)

Lemma bind_ok {A B} (c : result A) (k : A -> result B) (b : B) :
  (x ← c; k x) = Ok b <-> exists a, c = Ok a /\ k a = Ok b.
Proof.
  destruct c as [a | e]; simpl; split.
  - intros Hk. by exists a.
  - by intros (a' & [= ->] & Hk).
  - done.
  - by intros (a' & Habs & _).
Qed.

Lemma bind_raise {A B} (c : result A) (k : A -> result B) (e : string) :
  c = Raise e -> (x ← c; k x) = Raise e.
Proof. by intros ->. Qed.

Section result_facts.
Context {A B : Type}.

Lemma mapM_ok_Forall2 (f : A -> result B) (l : list A) (l' : list B) :
  mapM f l = Ok l' <-> Forall2 (fun x y => f x = Ok y) l l'.
Proof.
  revert l'. induction l as [| x l IH]; intros l'; simpl.
  - split.
    + intros [= <-]. constructor.
    + by intros ->%Forall2_nil_inv_l.
  - split.
    + intros (y & Hy & (ys & Hys & [= <-])%bind_ok)%bind_ok.
      constructor; [done | by apply IH].
    + intros (y & ys & Hy & Hys & ->)%Forall2_cons_inv_l.
      apply bind_ok. exists y. split; [done |].
      apply bind_ok. exists ys. split; [by apply IH | done].
Qed.

Lemma mapM_ok_length (f : A -> result B) (l : list A) (l' : list B) :
  mapM f l = Ok l' -> length l' = length l.
Proof. intros H%mapM_ok_Forall2. symmetry. by eapply Forall2_length. Qed.

Lemma mapM_ok_map (f : A -> result B) (g : A -> B) (l : list A) (l' : list B) :
  (forall x y, f x = Ok y -> y = g x) -> mapM f l = Ok l' -> l' = map g l.
Proof.
  intros Hg H%mapM_ok_Forall2.
  induction H as [| x y l l' Hxy _ IH]; simpl; [done |].
  by rewrite (Hg _ _ Hxy), IH.
Qed.

Lemma mapM_ok_Forall (f : A -> result B) (P : B -> Prop) (l : list A) (l' : list B) :
  (forall x y, f x = Ok y -> P y) -> mapM f l = Ok l' -> Forall P l'.
Proof.
  intros HP H%mapM_ok_Forall2.
  induction H as [| x y l l' Hxy _ IH]; constructor; eauto.
Qed.

End result_facts.

(** ** Timestamps, sorting and the latest date *)

Section date_facts.
Local Open Scope Z_scope.

Lemma ordinal_of_ordinal (n : Z) : Pandas.ordinal (Pandas.of_ordinal n) = n.
Proof.
  unfold Pandas.ordinal, Pandas.of_ordinal; simpl.
  pose proof (Z_div_mod_eq_full n 12). lia.
Qed.

Lemma day_of_ordinal (n : Z) : day (Pandas.of_ordinal n) = 1.
Proof. reflexivity. Qed.

Lemma month_of_ordinal (n : Z) : 1 <= month (Pandas.of_ordinal n) <= 12.
Proof. unfold Pandas.of_ordinal; simpl. pose proof (Z.mod_pos_bound n 12). lia. Qed.

(** A month start is determined by its ordinal. *)
Lemma of_ordinal_ordinal (d : date) :
  1 <= month d <= 12 -> day d = 1 -> Pandas.of_ordinal (Pandas.ordinal d) = d.
Proof.
  destruct d as [y m dd]. simpl. intros Hm ->.
  unfold Pandas.ordinal, Pandas.of_ordinal; simpl. f_equal.
  - replace (y * 12 + (m - 1)) with ((m - 1) + y * 12) by lia.
    rewrite Z.div_add by lia. rewrite Z.div_small; lia.
  - replace (y * 12 + (m - 1)) with ((m - 1) + y * 12) by lia.
    rewrite Z.mod_add by lia. rewrite Z.mod_small; lia.
Qed.

(** The successor ordinal is the next calendar month. *)
Lemma next_month_calendar (y m d : Z) :
  1 <= m <= 12 ->
  Pandas.of_ordinal (Pandas.ordinal (mkdate y m d) + 1)
  = if m =? 12 then mkdate (y + 1) 1 1 else mkdate y (m + 1) 1.
Proof.
  intros Hm. unfold Pandas.ordinal, Pandas.of_ordinal; simpl.
  destruct (Z.eqb_spec m 12) as [-> | Hne]; f_equal.
  - replace (y * 12 + (12 - 1) + 1) with ((y + 1) * 12) by lia.
    by rewrite Z.div_mul.
  - replace (y * 12 + (12 - 1) + 1) with ((y + 1) * 12) by lia.
    by rewrite Z.mod_mul.
  - replace (y * 12 + (m - 1) + 1) with (m + y * 12) by lia.
    rewrite Z.div_add by lia. rewrite Z.div_small; lia.
  - replace (y * 12 + (m - 1) + 1) with (m + y * 12) by lia.
    rewrite Z.mod_add by lia. rewrite Z.mod_small; lia.
Qed.

Lemma le_spec (a b : date) :
  Pandas.le a b = true
  <-> Pandas.ordinal a < Pandas.ordinal b
      \/ (Pandas.ordinal a = Pandas.ordinal b /\ day a <= day b).
Proof.
  unfold Pandas.le.
  rewrite orb_true_iff, andb_true_iff, Z.ltb_lt, Z.eqb_eq, Z.leb_le. tauto.
Qed.

Lemma lt_spec (a b : date) :
  Pandas.lt a b = true
  <-> Pandas.ordinal a < Pandas.ordinal b
      \/ (Pandas.ordinal a = Pandas.ordinal b /\ day a < day b).
Proof.
  unfold Pandas.lt. rewrite negb_true_iff, <- not_true_iff_false, le_spec. lia.
Qed.

Lemma le_refl (a : date) : Pandas.le a a = true.
Proof. apply le_spec. lia. Qed.

Lemma le_trans (a b c : date) :
  Pandas.le a b = true -> Pandas.le b c = true -> Pandas.le a c = true.
Proof. rewrite !le_spec. lia. Qed.

Lemma le_total (a b : date) : Pandas.le a b = false -> Pandas.le b a = true.
Proof. rewrite <- not_true_iff_false, !le_spec. lia. Qed.

(** Timestamps of the same month, or month starts, are ordered as their
    months. *)
Lemma le_ordinal (a b : date) :
  Pandas.le a b = true -> Pandas.ordinal a <= Pandas.ordinal b.
Proof. rewrite le_spec. lia. Qed.

Lemma calendar_spec (r : DemandRecord) :
  Pandas.calendar (anio r) (mes r) = true <-> valid_month r.
Proof.
  unfold Pandas.calendar, Pandas.in_bounds, valid_month.
  rewrite !andb_true_iff, !Z.leb_le, !le_spec.
  unfold Pandas.ordinal, Pandas.first_day, Pandas.last_day. simpl. lia.
Qed.

(** The timestamps of records with valid months: the first days of these
    months, whatever the parser does elsewhere. *)
Lemma to_datetime_valid `{Pandas.Engine} (data : list DemandRecord) :
  Forall valid_month data ->
  Pandas.to_datetime (map anio data) (map mes data) = Ok (map month_start data).
Proof.
  intros Hvalid. unfold Pandas.to_datetime.
  assert (Hrows : zip (map anio data) (map mes data)
                  = map (fun r => (anio r, mes r)) data).
  { clear Hvalid. induction data as [| r data IH]; simpl; [done | by rewrite IH]. }
  rewrite Hrows.
  assert (Hall : forallb (fun row => Pandas.calendar (fst row) (snd row))
                   (map (fun r => (anio r, mes r)) data) = true).
  { apply forallb_forall. intros row Hin.
    apply in_map_iff in Hin as (r & <- & Hr). simpl.
    apply calendar_spec. rewrite Forall_forall in Hvalid. apply Hvalid.
    by apply list_elem_of_In. }
  rewrite Hall. f_equal. by rewrite map_map.
Qed.

(** [pd.to_datetime] returns one timestamp for each row. *)
Lemma to_datetime_length `{Pandas.Engine} (data : list DemandRecord) (ds : list date) :
  Pandas.to_datetime (map anio data) (map mes data) = Ok ds -> length ds = length data.
Proof.
  unfold Pandas.to_datetime.
  assert (Hlen : length (zip (map anio data) (map mes data)) = length data).
  { rewrite length_zip, !length_map. lia. }
  destruct (forallb _ _).
  - intros [= <-]. by rewrite length_map.
  - intros (at_row & _ & [= <-])%bind_ok. by rewrite length_map, length_seq.
Qed.

(** One month after a month start. *)
Lemma add_months_ok (d e : date) (k : Z) :
  Pandas.add_months d k = Ok e -> day d = 1 ->
  e = Pandas.of_ordinal (Pandas.ordinal d + k).
Proof.
  unfold Pandas.add_months. cbv zeta. destruct (Pandas.in_bounds _); [| done].
  intros [= <-] ->. unfold Pandas.of_ordinal. cbn [year month]. f_equal.
  unfold Pandas.days_in_month.
  repeat match goal with |- context [if ?b then _ else _] => destruct b end; lia.
Qed.

(** After a timestamp that is not a month start, the day stays within the
    month and is not its first. *)
Lemma add_months_day (d e : date) (k : Z) :
  Pandas.add_months d k = Ok e -> 1 < day d ->
  Pandas.ordinal e = Pandas.ordinal d + k /\ 1 < day e.
Proof.
  unfold Pandas.add_months. cbv zeta. destruct (Pandas.in_bounds _); [| done].
  intros [= <-] Hd. split.
  - change (Pandas.ordinal (Pandas.of_ordinal (Pandas.ordinal d + k))
            = Pandas.ordinal d + k).
    apply ordinal_of_ordinal.
  - cbn [day]. unfold Pandas.days_in_month.
    repeat match goal with |- context [if ?b then _ else _] => destruct b end; lia.
Qed.

(** A successful [date_range] is the run of consecutive month starts from
    [start], or from the month after [start] when [start] is not one. *)
Lemma date_range_ok (start : date) (periods : Z) (dates : list date) :
  Pandas.date_range start periods = Ok dates ->
  dates = map (fun i : nat =>
                 Pandas.of_ordinal ((if day start =? 1 then Pandas.ordinal start
                                     else Pandas.ordinal start + 1) + Z.of_nat i))
              (seq 0 (Z.to_nat periods)).
Proof.
  unfold Pandas.date_range. intros Hmap.
  eapply mapM_ok_map; [| exact Hmap].
  intros i e. simpl. by destruct (Pandas.in_bounds _); intros [= <-].
Qed.

Section sorting.
Context {A : Type}.
Implicit Types (x : Z * (date * A)) (l : list (Z * (date * A))).

Lemma row_le_date x y : Pandas.row_le x y = true -> Pandas.le (fst (snd x)) (fst (snd y)) = true.
Proof.
  unfold Pandas.row_le. rewrite orb_true_iff, andb_true_iff.
  intros [Hlt | [Hle _]]; [| done].
  apply lt_spec in Hlt. apply le_spec. lia.
Qed.

Lemma row_le_total x y : Pandas.row_le x y = false -> Pandas.row_le y x = true.
Proof.
  unfold Pandas.row_le.
  rewrite orb_false_iff, andb_false_iff, orb_true_iff, andb_true_iff.
  rewrite <- !not_true_iff_false, !lt_spec, !le_spec, Z.leb_le. lia.
Qed.

Lemma row_le_trans x y z :
  Pandas.row_le x y = true -> Pandas.row_le y z = true -> Pandas.row_le x z = true.
Proof.
  unfold Pandas.row_le.
  rewrite !orb_true_iff, !andb_true_iff, !lt_spec, !le_spec, !Z.leb_le. lia.
Qed.

Lemma insert_sorted_perm x l : Pandas.insert_sorted x l ≡ₚ x :: l.
Proof.
  induction l as [| y l IH]; simpl; [done |].
  destruct (Pandas.row_le x y); [done |].
  rewrite IH. apply Permutation_swap.
Qed.

Lemma sort_rows_perm l : foldr Pandas.insert_sorted [] l ≡ₚ l.
Proof.
  induction l as [| x l IH]; simpl; [done |].
  by rewrite insert_sorted_perm, IH.
Qed.

Lemma insert_sorted_sorted x l :
  StronglySorted (fun a b => Pandas.row_le a b = true) l ->
  StronglySorted (fun a b => Pandas.row_le a b = true) (Pandas.insert_sorted x l).
Proof.
  induction 1 as [| y l Hl IH Hy]; simpl.
  - repeat constructor.
  - destruct (Pandas.row_le x y) eqn:Hxy.
    + constructor; [by constructor |].
      constructor; [done |].
      eapply Forall_impl; [exact Hy |]. intros z. by apply row_le_trans.
    + constructor; [done |].
      rewrite insert_sorted_perm. constructor; [by apply row_le_total | done].
Qed.

Lemma sort_rows_sorted l :
  StronglySorted (fun a b => Pandas.row_le a b = true) (foldr Pandas.insert_sorted [] l).
Proof.
  induction l as [| x l IH]; simpl; [constructor |].
  by apply insert_sorted_sorted.
Qed.

(** Sorted rows, without their ranks, are in ascending order. *)
Lemma sorted_rows_ascending l :
  StronglySorted (fun a b => Pandas.row_le a b = true) l -> ascending (map snd l).
Proof.
  induction 1 as [| y l Hl IH Hy]; simpl; [constructor |].
  constructor; [done |].
  apply Forall_fmap. eapply Forall_impl; [exact Hy |].
  intros z. apply row_le_date.
Qed.

End sorting.

Section sort_by_date.
Context `{Pandas.Engine} {A : Type}.
Implicit Types (l : list (date * A)).

Lemma ranked_rows (f : nat -> date * A -> Z) l :
  map snd (imap (fun i row => (f i row, row)) l) = l.
Proof.
  revert f. induction l as [| x l IH]; intros f; simpl; [done |].
  f_equal. apply (IH (fun i => f (S i))).
Qed.

Lemma sort_by_date_perm l : Pandas.sort_by_date l ≡ₚ l.
Proof.
  unfold Pandas.sort_by_date.
  change (map snd ?l') with (snd <$> l'). rewrite sort_rows_perm.
  apply (reflexive_eq _ _ (ranked_rows (fun i _ => Pandas.tie_break (map fst l) i) l)).
Qed.

Lemma sort_by_date_length l : length (Pandas.sort_by_date l) = length l.
Proof. by rewrite sort_by_date_perm. Qed.

Lemma sort_by_date_ascending l : ascending (Pandas.sort_by_date l).
Proof. apply sorted_rows_ascending, sort_rows_sorted. Qed.

End sort_by_date.

Lemma sort_dates_perm (l : list date) : Pandas.sort_dates l ≡ₚ l.
Proof.
  unfold Pandas.sort_dates.
  change (map ?f ?l') with (f <$> l'). rewrite sort_rows_perm.
  rewrite <- list_fmap_compose. by rewrite list_fmap_id.
Qed.

(** In an ascending series the last item carries the latest timestamp. *)
Lemma ascending_last {A} (l : list (date * A)) (x : date * A) :
  ascending l -> last l = Some x ->
  forall y, y ∈ l -> Pandas.le (fst y) (fst x) = true.
Proof.
  induction 1 as [| z l Hl IH Hz]; [done |].
  intros Hlast y Hy.
  destruct l as [| z' l'].
  - simpl in Hlast. injection Hlast as <-.
    apply list_elem_of_singleton in Hy as ->. apply le_refl.
  - change (last (z :: z' :: l')) with (last (z' :: l')) in Hlast.
    apply elem_of_cons in Hy as [-> | Hy]; [| by apply IH].
    rewrite Forall_forall in Hz. apply Hz.
    by apply last_Some_elem_of.
Qed.

End date_facts.

Section max_date_facts.
Local Open Scope Z_scope.

Lemma max_date_fold (m : date) (l : list date) :
  let r := foldl (fun m e => if Pandas.lt m e then e else m) m l in
  r ∈ m :: l /\ forall e, e ∈ m :: l -> Pandas.le e r = true.
Proof.
  revert m. induction l as [| x l IH]; intros m; simpl.
  - split; [apply list_elem_of_singleton; done |].
    intros e ->%list_elem_of_singleton. apply le_refl.
  - destruct (Pandas.lt m x) eqn:Hlt.
    + destruct (IH x) as [Hin Hmax]. split.
      * apply elem_of_cons. right. done.
      * intros e [-> | He]%elem_of_cons; [| by apply Hmax].
        specialize (Hmax x (list_elem_of_here _ _)).
        apply lt_spec in Hlt. eapply le_trans; [| exact Hmax].
        apply le_spec. lia.
    + destruct (IH m) as [Hin Hmax]. split.
      * apply elem_of_cons in Hin as [Heq | Hin].
        -- rewrite Heq. apply list_elem_of_here.
        -- by do 2 apply list_elem_of_further.
      * intros e [-> | [-> | He]%elem_of_cons]%elem_of_cons.
        -- apply Hmax. left.
        -- specialize (Hmax m (list_elem_of_here _ _)).
           eapply le_trans; [| exact Hmax].
           unfold Pandas.lt in Hlt. by apply negb_false_iff in Hlt.
        -- apply Hmax. by right.
Qed.

Lemma max_date_spec (l : list date) (d : date) :
  Pandas.max_date l = Some d ->
  d ∈ l /\ forall e, e ∈ l -> Pandas.le e d = true.
Proof.
  destruct l as [| m l]; [done |]. simpl. intros [= <-]. apply max_date_fold.
Qed.

Lemma max_date_is_Some (l : list date) : l <> [] -> is_Some (Pandas.max_date l).
Proof. destruct l; [done |]. by eexists. Qed.

End max_date_facts.

(** ** The series normalizer *)

Section prepare_data_facts.
Context `{Pandas.Engine}.

Lemma prepare_data_same (data : list DemandRecord) :
  PredictorSarima.prepare_data data = Predictor.prepare_data data.
Proof. reflexivity. Qed.

(** What the normalizer returns: the rows, one for each record, with the
    timestamps pandas read, sorted. *)
Lemma prepare_data_inv (data : list DemandRecord) (ts : series) :
  Predictor.prepare_data data = Ok (Some ts) ->
  data <> [] /\
  exists ds,
    Pandas.to_datetime (map anio data) (map mes data) = Ok ds /\
    length ds = length data /\
    ts = Pandas.sort_by_date (zip ds (map demanda data)).
Proof.
  unfold Predictor.prepare_data. destruct data as [| r data]; [done |].
  intros (ds & Hds & [= <-])%bind_ok. split; [done |].
  exists ds. split; [done |]. split; [| done]. by apply to_datetime_length.
Qed.

Lemma prepare_data_Some (data : list DemandRecord) (ts : series) :
  Predictor.prepare_data data = Ok (Some ts) ->
  length ts = length data /\ data <> [] /\ ascending ts.
Proof.
  intros (Hne & ds & _ & Hlen & ->)%prepare_data_inv. split; [| split].
  - rewrite sort_by_date_length, length_zip, length_map. lia.
  - done.
  - apply sort_by_date_ascending.
Qed.

Lemma prepare_data_None (data : list DemandRecord) :
  Predictor.prepare_data data = Ok None -> data = [].
Proof.
  unfold Predictor.prepare_data. destruct data as [| r data]; [done |].
  by intros (df & _ & [=])%bind_ok.
Qed.

Lemma zip_columns (data : list DemandRecord) :
  zip (map month_start data) (map demanda data)
  = map (fun r => (month_start r, demanda r)) data.
Proof. induction data as [| r data IH]; simpl; [done | by rewrite IH]. Qed.

(** On records with valid months the normalizer succeeds, and its rows are
    the first days of these months with the demands. *)
Lemma prepare_data_valid (data : list DemandRecord) :
  Forall valid_month data -> data <> [] ->
  exists ts,
    Predictor.prepare_data data = Ok (Some ts) /\ length ts = length data /\
    ts = Pandas.sort_by_date (map (fun r => (month_start r, demanda r)) data).
Proof.
  intros Hvalid Hne. eexists. split; [| split; [| reflexivity]].
  - unfold Predictor.prepare_data. destruct data as [| r data]; [done |].
    rewrite (to_datetime_valid _ Hvalid). cbn [mbind result_bind mret result_ret].
    by rewrite zip_columns.
  - by rewrite sort_by_date_length, length_map.
Qed.

End prepare_data_facts.

(** ** The history gate and the exception handler *)

Section prophet_gate.
Import ProphetLib Predictor.
Context `{Pandas.Engine} `{ProphetEngine}.
Implicit Types (self : DemandPredictor) (data : list DemandRecord) (periods : Z).

Lemma prophet_gate_closed self data periods :
  (length data < 12)%nat ->
  (exists e, train_and_predict self data periods = (Failure e, self)) /\
  (Forall valid_month data ->
   train_and_predict self data periods = (Failure insufficient_history, self)).
Proof.
  intros Hlen. unfold train_and_predict, train_and_predict_try.
  destruct (prepare_data data) as [[ts |] | e] eqn:Hprep.
  - apply prepare_data_Some in Hprep as (Hts & _ & _).
    destruct (Nat.ltb_spec (length ts) 12); [| lia]. eauto.
  - eauto.
  - split; [eauto |]. intros Hvalid.
    destruct data as [| r data]; [done |].
    destruct (prepare_data_valid (r :: data)) as (ts & Hts & _); [done.. |].
    congruence.
Qed.

(** The gate is on the number of points of the prepared series. *)
Lemma prophet_gate_short self data periods (ts : series) :
  prepare_data data = Ok (Some ts) -> (length ts < 12)%nat ->
  train_and_predict self data periods = (Failure insufficient_history, self).
Proof.
  intros Hprep Hlen. unfold train_and_predict, train_and_predict_try.
  rewrite Hprep. by destruct (Nat.ltb_spec (length ts) 12); [| lia].
Qed.

Lemma prophet_gate_open self data periods (ts : series) :
  prepare_data data = Ok (Some ts) -> (12 <= length ts)%nat ->
  train_and_predict self data periods
  = (catch_all (fst (fit_and_forecast self ts periods)),
     snd (fit_and_forecast self ts periods)).
Proof.
  intros Hprep Hlen. unfold train_and_predict, train_and_predict_try.
  rewrite Hprep. destruct (Nat.ltb_spec (length ts) 12); [lia |].
  by destruct (fit_and_forecast self ts periods).
Qed.

(** [self.model] is assigned before it is read: what follows the gate does
    not depend on the predictor it is called on. *)
Lemma prophet_fit_fresh self1 self2 (df : series) periods :
  fit_and_forecast self1 df periods = fit_and_forecast self2 df periods.
Proof. reflexivity. Qed.

Lemma prophet_fit_assigns self (df : series) periods :
  model (snd (fit_and_forecast self df periods)) <> None.
Proof.
  unfold fit_and_forecast. simpl.
  by destruct (fit _ df).
Qed.

Lemma prophet_result_stateless self1 self2 data periods :
  fst (train_and_predict self1 data periods) = fst (train_and_predict self2 data periods).
Proof.
  unfold train_and_predict, train_and_predict_try.
  destruct (prepare_data data) as [[ts |] | e]; try done.
  destruct (length ts <? 12)%nat; [done |].
  by rewrite (prophet_fit_fresh self1 self2).
Qed.

Lemma prophet_handler self data periods (e : string) :
  fst (train_and_predict_try self data periods) = Raise e ->
  fst (train_and_predict self data periods) = Failure (prediction_error e).
Proof.
  unfold train_and_predict.
  destruct (train_and_predict_try self data periods) as [r self']. simpl.
  by intros ->.
Qed.

End prophet_gate.

Section sarima_block.
Import StatsModels PredictorSarima.
Context `{SarimaxEngine}.
Implicit Types (self : DemandPredictor) (periods : Z).

(** When [SARIMAX(..)] raises, nothing is assigned and nothing else runs. *)
Lemma sarima_init_raise self (ts : series) periods (e : string) :
  sarimax_init (sarimax_model ts) = Some e ->
  fit_and_forecast self ts periods = (Raise e, self).
Proof.
  intros Hinit. unfold fit_and_forecast, new. fold (sarimax_model ts).
  by rewrite Hinit.
Qed.

(** When it returns, [self.model] is the new model, whatever follows. *)
Lemma sarima_init_ok self (ts : series) periods :
  sarimax_init (sarimax_model ts) = None ->
  snd (fit_and_forecast self ts periods) = mkpredictor (Some (sarimax_model ts)).
Proof.
  intros Hinit. unfold fit_and_forecast, new. fold (sarimax_model ts).
  by rewrite Hinit.
Qed.

(** The result of the block does not depend on the predictor it is called
    on; the predictor it leaves does, when [SARIMAX(..)] raises. *)
Lemma sarima_fit_fresh self1 self2 (ts : series) periods :
  fst (fit_and_forecast self1 ts periods) = fst (fit_and_forecast self2 ts periods).
Proof.
  unfold fit_and_forecast.
  by destruct (new ts (1, 1, 1)%Z (1, 1, 1, 12)%Z false false).
Qed.

Lemma sarima_fit_state self (ts : series) periods :
  snd (fit_and_forecast self ts periods) = self \/
  snd (fit_and_forecast self ts periods) = mkpredictor (Some (sarimax_model ts)).
Proof.
  destruct (sarimax_init (sarimax_model ts)) as [e |] eqn:Hinit.
  - left. by rewrite (sarima_init_raise self ts periods e).
  - right. by apply sarima_init_ok.
Qed.

End sarima_block.

Section sarima_gate.
Import StatsModels PredictorSarima.
Context `{Pandas.Engine} `{SarimaxEngine}.
Implicit Types (self : DemandPredictor) (data : list DemandRecord) (periods : Z).

Lemma sarima_gate_closed self data periods :
  (length data < 12)%nat ->
  (exists e, train_and_predict self data periods = (Failure e, self)) /\
  (Forall valid_month data ->
   train_and_predict self data periods = (Failure insufficient_history, self)).
Proof.
  intros Hlen. unfold train_and_predict, train_and_predict_try.
  rewrite prepare_data_same.
  destruct (Predictor.prepare_data data) as [[ts |] | e] eqn:Hprep.
  - apply prepare_data_Some in Hprep as (Hts & _ & _).
    destruct (Nat.ltb_spec (length ts) 12); [| lia]. eauto.
  - eauto.
  - split; [eauto |]. intros Hvalid.
    destruct data as [| r data]; [done |].
    destruct (prepare_data_valid (r :: data)) as (ts & Hts & _); [done.. |].
    congruence.
Qed.

Lemma sarima_gate_short self data periods (ts : series) :
  prepare_data data = Ok (Some ts) -> (length ts < 12)%nat ->
  train_and_predict self data periods = (Failure insufficient_history, self).
Proof.
  intros Hprep Hlen. unfold train_and_predict, train_and_predict_try.
  rewrite Hprep. by destruct (Nat.ltb_spec (length ts) 12); [| lia].
Qed.

Lemma sarima_gate_open self data periods (ts : series) :
  prepare_data data = Ok (Some ts) -> (12 <= length ts)%nat ->
  train_and_predict self data periods
  = (catch_all (fst (fit_and_forecast self ts periods)),
     snd (fit_and_forecast self ts periods)).
Proof.
  intros Hprep Hlen. unfold train_and_predict, train_and_predict_try.
  rewrite Hprep. destruct (Nat.ltb_spec (length ts) 12); [lia |].
  by destruct (fit_and_forecast self ts periods).
Qed.

Lemma sarima_result_stateless self1 self2 data periods :
  fst (train_and_predict self1 data periods) = fst (train_and_predict self2 data periods).
Proof.
  unfold train_and_predict, train_and_predict_try.
  destruct (prepare_data data) as [[ts |] | e]; try done.
  destruct (length ts <? 12)%nat; [done |].
  pose proof (sarima_fit_fresh self1 self2 ts periods) as Hfresh.
  destruct (fit_and_forecast self1 ts periods), (fit_and_forecast self2 ts periods).
  simpl in *. by rewrite Hfresh.
Qed.

Lemma sarima_handler self data periods (e : string) :
  fst (train_and_predict_try self data periods) = Raise e ->
  fst (train_and_predict self data periods) = Failure (prediction_error e).
Proof.
  unfold train_and_predict.
  destruct (train_and_predict_try self data periods) as [r self']. simpl.
  by intros ->.
Qed.

End sarima_gate.

Lemma catch_all_not_gate (r : result Response) :
  (forall resp, r = Ok resp -> resp <> Failure insufficient_history) ->
  catch_all r <> Failure insufficient_history.
Proof.
  destruct r as [resp | e]; simpl; [eauto |].
  intros _. unfold prediction_error, insufficient_history. simpl. discriminate.
Qed.

(** ** What a successful forecast went through *)

Section prophet_success.
Import ProphetLib Predictor.
Context `{ProphetEngine}.

Lemma prophet_fit_ok_inv (self : DemandPredictor) (df : series) (periods : Z)
    (resp : Response) :
  fst (fit_and_forecast self df periods) = Ok resp ->
  exists m future forecast confidence historical,
    fit prophet_model df = Ok m /\
    make_future_dataframe m periods = Ok future /\
    predict m future = Ok forecast /\
    _calculate_confidence df forecast = Ok confidence /\
    _format_historical df = Ok historical /\
    resp = Success (map format_prediction (Pandas.tail periods forecast))
             historical confidence (length df).
Proof.
  unfold fit_and_forecast. simpl. fold prophet_model.
  destruct (fit prophet_model df) as [m | e] eqn:Hfit; [| done]. simpl.
  intros (future & Hfuture & (forecast & Hforecast &
            (confidence & Hconf & (historical & Hhist & [= <-])%bind_ok)%bind_ok
         )%bind_ok)%bind_ok.
  by exists m, future, forecast, confidence, historical.
Qed.

Lemma prophet_fit_raise (self : DemandPredictor) (df : series) (periods : Z) (e : string) :
  stan_fit prophet_model df = Raise e -> (2 <= length df)%nat ->
  fit_and_forecast self df periods = (Raise e, mkpredictor (Some prophet_model)).
Proof.
  intros Hfit Hlen. unfold fit_and_forecast. simpl. fold prophet_model.
  unfold fit. simpl. destruct (Nat.ltb_spec (length df) 2); [lia |].
  by rewrite Hfit.
Qed.

End prophet_success.

Section sarima_success.
Import StatsModels PredictorSarima.
Context `{SarimaxEngine}.

Lemma sarima_fit_ok_inv (self : DemandPredictor) (ts : series) (periods : Z)
    (resp : Response) :
  fst (fit_and_forecast self ts periods) = Ok resp ->
  exists model_fit fc ci last_date start forecast_dates results historical,
    sarimax_init (sarimax_model ts) = None /\
    sarimax_fit (sarimax_model ts) = Ok model_fit /\
    forecast model_fit periods = Ok fc /\
    conf_int model_fit periods = Ok ci /\
    last_index ts = Ok last_date /\
    Pandas.add_months last_date 1 = Ok start /\
    Pandas.date_range start periods = Ok forecast_dates /\
    mapM (fun '(i, date) => format_prediction fc ci i date)
         (zip (seq 0 (length forecast_dates)) forecast_dates) = Ok results /\
    _format_historical ts = Ok historical /\
    resp = Success results historical (_calculate_confidence ts model_fit) (length ts).
Proof.
  unfold fit_and_forecast, new. fold (sarimax_model ts).
  destruct (sarimax_init (sarimax_model ts)) as [e |] eqn:Hinit; [done |].
  cbn [fst get_model model mbind result_bind].
  intros (model_fit & Hfit & (fc & Hfc & (ci & Hci & (last_date & Hlast &
            (start & Hstart & (dates & Hdates & (results & Hres &
               (historical & Hhist & [= <-])%bind_ok)%bind_ok)%bind_ok)%bind_ok
         )%bind_ok)%bind_ok)%bind_ok)%bind_ok.
  by exists model_fit, fc, ci, last_date, start, dates, results, historical.
Qed.

Lemma sarima_fit_raise (self : DemandPredictor) (ts : series) (periods : Z) (e : string) :
  sarimax_init (sarimax_model ts) = None ->
  sarimax_fit (sarimax_model ts) = Raise e ->
  fit_and_forecast self ts periods = (Raise e, mkpredictor (Some (sarimax_model ts))).
Proof.
  intros Hinit Hfit. unfold fit_and_forecast, new. fold (sarimax_model ts).
  rewrite Hinit. cbn [get_model model mbind result_bind].
  by rewrite Hfit.
Qed.

End sarima_success.

(** ** The claims *)

(** C1. A call with fewer than 12 records (the prepared series has as many
    points as there are records; this covers the empty input), or whose
    prepared series has fewer than 12 points, returns [success = False] in
    both variants.  With a prepared series of exactly 12 points the call is
    the fit-and-forecast block and its result is not the
    insufficient-history failure.  In the Prophet variant [self.model] has
    then been assigned.  In the SARIMA variant it is assigned once
    [SARIMAX(..)] has returned; when [SARIMAX(..)] raises, the call returns
    the failure of the handler and leaves the predictor as it was. *)
Theorem minimum_history_gate
    `{Pandas.Engine} `{ProphetLib.ProphetEngine} `{StatsModels.SarimaxEngine}
    (p : Predictor.DemandPredictor) (s : PredictorSarima.DemandPredictor)
    (data : list DemandRecord) (periods : Z) :
  ((length data < 12)%nat ->
   success (fst (Predictor.train_and_predict p data periods)) = false /\
   success (fst (PredictorSarima.train_and_predict s data periods)) = false) /\
  (forall ts, Predictor.prepare_data data = Ok (Some ts) -> (length ts < 12)%nat ->
   Predictor.train_and_predict p data periods = (Failure insufficient_history, p) /\
   PredictorSarima.train_and_predict s data periods = (Failure insufficient_history, s)) /\
  (forall ts, Predictor.prepare_data data = Ok (Some ts) -> length ts = 12%nat ->
   (Predictor.train_and_predict p data periods
    = (catch_all (fst (Predictor.fit_and_forecast p ts periods)),
       snd (Predictor.fit_and_forecast p ts periods)) /\
    fst (Predictor.train_and_predict p data periods) <> Failure insufficient_history /\
    Predictor.model (snd (Predictor.train_and_predict p data periods)) <> None) /\
   (PredictorSarima.train_and_predict s data periods
    = (catch_all (fst (PredictorSarima.fit_and_forecast s ts periods)),
       snd (PredictorSarima.fit_and_forecast s ts periods)) /\
    fst (PredictorSarima.train_and_predict s data periods) <> Failure insufficient_history /\
    (StatsModels.sarimax_init (sarimax_model ts) = None ->
     PredictorSarima.model (snd (PredictorSarima.train_and_predict s data periods))
     = Some (sarimax_model ts)) /\
    (forall e, StatsModels.sarimax_init (sarimax_model ts) = Some e ->
     PredictorSarima.train_and_predict s data periods
     = (Failure (prediction_error e), s)))).
Proof.
  split; [| split].
  - intros Hlen.
    destruct (prophet_gate_closed p data periods Hlen) as [[e ->] _].
    by destruct (sarima_gate_closed s data periods Hlen) as [[e' ->] _].
  - intros ts Hprep Hlen. split.
    + by apply (prophet_gate_short p data periods ts).
    + by apply (sarima_gate_short s data periods ts).
  - intros ts Hprep Hlen. split.
    + rewrite (prophet_gate_open p data periods ts) by (done || lia).
      split; [done |]. cbn [fst snd]. split.
      * apply catch_all_not_gate. intros resp Hresp.
        apply prophet_fit_ok_inv in Hresp as (? & ? & ? & ? & ? & _ & _ & _ & _ & _ & ->).
        discriminate.
      * exact (prophet_fit_assigns p ts periods).
    + rewrite (sarima_gate_open s data periods ts) by (done || lia).
      split; [done |]. cbn [fst snd]. split; [| split].
      * apply catch_all_not_gate. intros resp Hresp.
        apply sarima_fit_ok_inv in Hresp
          as (? & ? & ? & ? & ? & ? & ? & ? & _ & _ & _ & _ & _ & _ & _ & _ & _ & ->).
        discriminate.
      * intros Hinit. by rewrite (sarima_init_ok s ts periods Hinit).
      * intros e Hinit. by rewrite (sarima_init_raise s ts periods e Hinit).
Qed.

Lemma minimum_history_gate_witness :
  (success (fst (@Predictor.train_and_predict Samples.pandas
                   (Samples.const_prophet (Fin 1) (Fin 0) (Fin 2))
                   Predictor.__init__ Samples.five_months 3)) = false /\
   success (fst (@PredictorSarima.train_and_predict Samples.pandas
                   (Samples.const_sarimax (Fin 1) (Fin 0) (Fin 2) (Raise "no fit"))
                   PredictorSarima.__init__ Samples.five_months 3)) = false) /\
  fst (@Predictor.train_and_predict Samples.pandas
         (Samples.const_prophet (Fin 1) (Fin 0) (Fin 2))
         Predictor.__init__ Samples.flat_year 3) <> Failure insufficient_history /\
  @PredictorSarima.train_and_predict Samples.pandas
    (Samples.const_sarimax (Fin 1) (Fin 0) (Fin 2) (Raise "no fit"))
    PredictorSarima.__init__ Samples.text_year 3
  = (Failure
       (prediction_error
          "Pandas data cast to numpy dtype of object. Check input data with np.asarray(data)."),
     PredictorSarima.__init__).
Proof.
  split; [| split].
  - apply (@minimum_history_gate Samples.pandas
             (Samples.const_prophet (Fin 1) (Fin 0) (Fin 2))
             (Samples.const_sarimax (Fin 1) (Fin 0) (Fin 2) (Raise "no fit"))).
    simpl. lia.
  - eapply (@minimum_history_gate Samples.pandas
              (Samples.const_prophet (Fin 1) (Fin 0) (Fin 2))
              (Samples.const_sarimax (Fin 1) (Fin 0) (Fin 2) (Raise "no fit"))
              Predictor.__init__ PredictorSarima.__init__ Samples.flat_year 3).
    + reflexivity.
    + reflexivity.
  - eapply (@minimum_history_gate Samples.pandas
              (Samples.const_prophet (Fin 1) (Fin 0) (Fin 2))
              (Samples.const_sarimax (Fin 1) (Fin 0) (Fin 2) (Raise "no fit"))
              Predictor.__init__ PredictorSarima.__init__ Samples.text_year 3).
    + reflexivity.
    + reflexivity.
    + reflexivity.
Defined.



Lemma five_months_valid : Forall valid_month Samples.five_months.
Proof. repeat constructor; simpl; lia. Qed.

Lemma flat_year_valid : Forall valid_month Samples.flat_year.
Proof. repeat constructor; simpl; lia. Qed.


(** A [Prophet] object does carry state between uses: fitting one twice
    raises.  The predictor never does so, because it builds a new object in
    every call. *)
Lemma fitted_prophet_cannot_be_refit `{ProphetLib.ProphetEngine}
    (m m' : ProphetLib.Prophet) (df df' : series) :
  ProphetLib.fit m df = Ok m' ->
  ProphetLib.fit m' df'
  = Raise "Prophet object can only be fit once. Instantiate a new object.".
Proof.
  unfold ProphetLib.fit at 1. destruct (ProphetLib.history_dates m); [done |].
  destruct (length df <? 2)%nat; [done |].
  by intros (params & _ & [= <-])%bind_ok.
Qed.

(** C9. The response of [train_and_predict] does not depend on the
    predictor it is called on, that is on the value [self.model] was left
    with by earlier calls: nothing reads the field before it is assigned,
    so the result of the block after the gate is the same for any two
    predictors.  The Prophet variant also leaves the same predictor behind;
    the SARIMA variant does so once [SARIMAX(..)] has returned (when it
    raises, [self.model] keeps its earlier value, which nothing reads).
    (The engines are functions of their arguments in this development.) *)
Theorem no_instance_state_leak
    `{Pandas.Engine} `{ProphetLib.ProphetEngine} `{StatsModels.SarimaxEngine}
    (p1 p2 : Predictor.DemandPredictor) (s1 s2 : PredictorSarima.DemandPredictor)
    (historical_data : list DemandRecord) (periods : Z) :
  fst (Predictor.train_and_predict p1 historical_data periods)
  = fst (Predictor.train_and_predict p2 historical_data periods) /\
  fst (PredictorSarima.train_and_predict s1 historical_data periods)
  = fst (PredictorSarima.train_and_predict s2 historical_data periods) /\
  (forall df, Predictor.fit_and_forecast p1 df periods
              = Predictor.fit_and_forecast p2 df periods) /\
  (forall ts,
     fst (PredictorSarima.fit_and_forecast s1 ts periods)
     = fst (PredictorSarima.fit_and_forecast s2 ts periods) /\
     (StatsModels.sarimax_init (sarimax_model ts) = None ->
      PredictorSarima.fit_and_forecast s1 ts periods
      = PredictorSarima.fit_and_forecast s2 ts periods)).
Proof.
  split; [apply prophet_result_stateless |].
  split; [apply sarima_result_stateless |].
  split; [intros df; apply prophet_fit_fresh |].
  intros ts. split; [apply sarima_fit_fresh |].
  intros Hinit. apply injective_projections; [apply sarima_fit_fresh |].
  by rewrite !sarima_init_ok.
Qed.

(** ** Batches *)

Section prophet_batch.
Import Predictor.
Context `{Pandas.Engine} `{ProphetLib.ProphetEngine}.

Lemma prophet_batch_is_fmap (self q : DemandPredictor)
    (products_data : gmap string (list DemandRecord)) (periods : Z) :
  fst (predict_multiple_products self products_data periods)
  = (fun data => fst (train_and_predict q data periods)) <$> products_data.
Proof.
  unfold predict_multiple_products.
  apply (map_fold_weak_ind
           (fun (acc : gmap string Response * DemandPredictor) m =>
              fst acc = (fun data => fst (train_and_predict q data periods)) <$> m)).
  - by rewrite fmap_empty.
  - intros product data m [results self'] _ IH. simpl in *.
    rewrite fmap_insert, <- IH.
    rewrite (prophet_result_stateless q self').
    by destruct (train_and_predict self' data periods).
Qed.

End prophet_batch.

Section sarima_batch.
Import PredictorSarima.
Context `{Pandas.Engine} `{StatsModels.SarimaxEngine}.

Lemma sarima_batch_is_fmap (self q : DemandPredictor)
    (products_data : gmap string (list DemandRecord)) (periods : Z) :
  fst (predict_multiple_products self products_data periods)
  = (fun data => fst (train_and_predict q data periods)) <$> products_data.
Proof.
  unfold predict_multiple_products.
  apply (map_fold_weak_ind
           (fun (acc : gmap string Response * DemandPredictor) m =>
              fst acc = (fun data => fst (train_and_predict q data periods)) <$> m)).
  - by rewrite fmap_empty.
  - intros product data m [results self'] _ IH. simpl in *.
    rewrite fmap_insert, <- IH.
    rewrite (sarima_result_stateless q self').
    by destruct (train_and_predict self' data periods).
Qed.

End sarima_batch.

(** C7. An exception raised inside [train_and_predict] is returned as
    [{success: False, error: "Error en predicción: " + str(e)}], in
    particular when the engine fails to fit or, in the SARIMA variant, to
    build the model.  Hence the batch over a mapping has exactly the keys of
    the mapping, and the entry of a product is the response of
    [train_and_predict] on that product's own records, whatever the other
    products are and whatever happened to them. *)
Theorem failures_are_values_batch_isolated
    `{Pandas.Engine} `{ProphetLib.ProphetEngine} `{StatsModels.SarimaxEngine}
    (p : Predictor.DemandPredictor) (s : PredictorSarima.DemandPredictor)
    (products_data : gmap string (list DemandRecord)) (periods : Z) :
  (forall data e,
     fst (Predictor.train_and_predict_try p data periods) = Raise e ->
     fst (Predictor.train_and_predict p data periods) = Failure (prediction_error e)) /\
  (forall data e,
     fst (PredictorSarima.train_and_predict_try s data periods) = Raise e ->
     fst (PredictorSarima.train_and_predict s data periods)
     = Failure (prediction_error e)) /\
  (forall data ts e,
     Predictor.prepare_data data = Ok (Some ts) -> (12 <= length ts)%nat ->
     ProphetLib.stan_fit prophet_model ts = Raise e ->
     fst (Predictor.train_and_predict p data periods) = Failure (prediction_error e)) /\
  (forall data ts e,
     PredictorSarima.prepare_data data = Ok (Some ts) -> (12 <= length ts)%nat ->
     (StatsModels.sarimax_init (sarimax_model ts) = Some e \/
      (StatsModels.sarimax_init (sarimax_model ts) = None /\
       StatsModels.sarimax_fit (sarimax_model ts) = Raise e)) ->
     fst (PredictorSarima.train_and_predict s data periods)
     = Failure (prediction_error e)) /\
  (dom (fst (Predictor.predict_multiple_products p products_data periods))
   = dom products_data /\
   size (fst (Predictor.predict_multiple_products p products_data periods))
   = size products_data /\
   forall product data q,
     products_data !! product = Some data ->
     fst (Predictor.predict_multiple_products p products_data periods) !! product
     = Some (fst (Predictor.train_and_predict q data periods))) /\
  (dom (fst (PredictorSarima.predict_multiple_products s products_data periods))
   = dom products_data /\
   size (fst (PredictorSarima.predict_multiple_products s products_data periods))
   = size products_data /\
   forall product data q,
     products_data !! product = Some data ->
     fst (PredictorSarima.predict_multiple_products s products_data periods) !! product
     = Some (fst (PredictorSarima.train_and_predict q data periods))).
Proof.
  split; [intros data e; apply prophet_handler |].
  split; [intros data e; apply sarima_handler |].
  split.
  { intros data ts e Hprep Hlen Hfit.
    rewrite (prophet_gate_open p data periods ts) by done.
    rewrite (prophet_fit_raise p ts periods e) by (done || lia). done. }
  split.
  { intros data ts e Hprep Hlen [Hinit | [Hinit Hfit]].
    - rewrite (sarima_gate_open s data periods ts) by done.
      by rewrite (sarima_init_raise s ts periods e).
    - rewrite (sarima_gate_open s data periods ts) by done.
      by rewrite (sarima_fit_raise s ts periods e). }
  split.
  - rewrite (prophet_batch_is_fmap p p).
    split; [apply dom_fmap_L |]. split; [apply map_size_fmap |].
    intros product data q Hdata.
    rewrite lookup_fmap, Hdata. simpl.
    by rewrite (prophet_result_stateless p q).
  - rewrite (sarima_batch_is_fmap s s).
    split; [apply dom_fmap_L |]. split; [apply map_size_fmap |].
    intros product data q Hdata.
    rewrite lookup_fmap, Hdata. simpl.
    by rewrite (sarima_result_stateless s q).
Qed.

Lemma failures_are_values_batch_isolated_witness :
  fst (@Predictor.predict_multiple_products Samples.pandas
         (Samples.failing_prophet "Optimization failed")
         Predictor.__init__ Samples.two_products 3) !! "TRIGO"
  = Some (Failure insufficient_history) /\
  fst (@Predictor.predict_multiple_products Samples.pandas
         (Samples.failing_prophet "Optimization failed")
         Predictor.__init__ Samples.two_products 3) !! "MAIZ"
  = Some (Failure (prediction_error "Optimization failed")).
Proof.
  pose proof (@failures_are_values_batch_isolated Samples.pandas
                (Samples.failing_prophet "Optimization failed")
                (Samples.failing_sarimax "Optimization failed")
                Predictor.__init__ PredictorSarima.__init__ Samples.two_products 3)
    as (_ & _ & Hfit & _ & (_ & _ & Hentry) & _).
  split.
  - rewrite (Hentry "TRIGO" Samples.five_months Predictor.__init__); reflexivity.
  - rewrite (Hentry "MAIZ" Samples.flat_year Predictor.__init__) by reflexivity.
    apply (f_equal Some). eapply Hfit.
    + reflexivity.
    + simpl. lia.
    + reflexivity.
Defined.

(** ** The prediction routes *)

Section routes_facts.
Import Predictor Routes.
Context `{Pandas.Engine} `{ProphetLib.ProphetEngine} `{Firebase} `{PyStr}.

Lemma foldl_insert_lookup {V} (f : string -> V) (l : list string) (acc : gmap string V)
    (k : string) :
  foldl (fun m product => <[product := f product]> m) acc l !! k
  = if decide (k ∈ l) then Some (f k) else acc !! k.
Proof.
  revert acc. induction l as [| x l IH]; intros acc.
  - reflexivity.
  - cbn [foldl]. rewrite IH.
    destruct (decide (k = x)) as [-> | Hne].
    + rewrite lookup_insert_eq.
      rewrite (decide_True (P := x ∈ x :: l)) by left.
      by case_decide.
    + rewrite lookup_insert_ne by done.
      destruct (decide (k ∈ l)) as [Hin | Hnin].
      * by rewrite decide_True by (by right).
      * rewrite decide_False; [done |].
        by intros [? | ?]%elem_of_cons.
Qed.

Lemma batch_route_fold (products : list string) (acc : gmap string Response)
    (predictor q : DemandPredictor) (periods : Z) :
  fst (foldl (fun (acc : gmap string Response * DemandPredictor) product =>
                let historical_data := get_product_data product in
                let '(prediction, self) :=
                  train_and_predict (snd acc) historical_data periods in
                (<[product := prediction]> (fst acc), self))
             (acc, predictor) products)
  = foldl (fun m product =>
             <[product := fst (train_and_predict q (get_product_data product) periods)]> m)
          acc products.
Proof.
  revert acc predictor. induction products as [| x l IH]; intros acc predictor; simpl.
  - done.
  - rewrite (prophet_result_stateless q predictor).
    destruct (train_and_predict predictor (get_product_data x) periods) as [r self'].
    simpl. apply IH.
Qed.

End routes_facts.

(** C10. A [periods] outside 1..12 is rejected by [GET /predict/<producto>]
    with status 400 before anything else happens (the predictor is left as
    it was).  [GET /predict-all] has no such check: with at least one
    product it answers 200, and the entry of every product is the response
    of [train_and_predict] called with that very [periods]. *)
Theorem periods_checked_on_single_route_only
    `{Pandas.Engine} `{ProphetLib.ProphetEngine} `{Routes.Firebase} `{Routes.PyStr}
    (predictor : Predictor.DemandPredictor) (producto : string) (periods : Z) :
  (periods < 1 \/ 12 < periods)%Z ->
  Routes.predict_product predictor producto (Some periods)
  = (Routes.JsonError "Los períodos deben estar entre 1 y 12", 400%Z, predictor) /\
  (Routes.get_all_products <> [] ->
   exists results predictor',
     Routes.predict_all_products predictor (Some periods)
     = (Routes.JsonPredictions results (size results), 200%Z, predictor') /\
     forall product, product ∈ Routes.get_all_products ->
       results !! product
       = Some (fst (Predictor.train_and_predict predictor
                      (Routes.get_product_data product) periods))).
Proof.
  intros Hout. split.
  - unfold Routes.predict_product. simpl.
    destruct (Z.ltb_spec periods 1); [done |].
    destruct (Z.ltb_spec 12 periods); [done | lia].
  - intros Hne. unfold Routes.predict_all_products. simpl.
    destruct Routes.get_all_products as [| x l] eqn:Hproducts; [done |].
    rewrite <- Hproducts.
    pose proof (batch_route_fold Routes.get_all_products ∅ predictor predictor periods)
      as Hfold.
    destruct (foldl _ (∅, predictor) Routes.get_all_products) as [results predictor'].
    simpl in Hfold. exists results, predictor'. split; [done |].
    intros product Hin. rewrite Hfold, foldl_insert_lookup.
    by rewrite decide_True.
Qed.

Lemma periods_checked_on_single_route_only_witness :
  @Routes.predict_product Samples.pandas (Samples.const_prophet (Fin 1) (Fin 0) (Fin 2))
     Samples.two_product_store Samples.ascii_only Predictor.__init__ "maiz" (Some 13%Z)
  = (Routes.JsonError "Los períodos deben estar entre 1 y 12", 400%Z, Predictor.__init__) /\
  exists results predictor',
    @Routes.predict_all_products Samples.pandas
       (Samples.const_prophet (Fin 1) (Fin 0) (Fin 2))
       Samples.two_product_store Predictor.__init__ (Some 13%Z)
    = (Routes.JsonPredictions results (size results), 200%Z, predictor') /\
    results !! "MAIZ"
    = Some (fst (@Predictor.train_and_predict Samples.pandas
                   (Samples.const_prophet (Fin 1) (Fin 0) (Fin 2))
                   Predictor.__init__ Samples.flat_year 13)).
Proof.
  destruct (@periods_checked_on_single_route_only Samples.pandas
              (Samples.const_prophet (Fin 1) (Fin 0) (Fin 2))
              Samples.two_product_store Samples.ascii_only
              Predictor.__init__ "maiz" 13%Z) as [Hsingle Hbatch]; [lia |].
  split; [exact Hsingle |].
  destruct Hbatch as (results & predictor' & Hall & Hentry); [discriminate |].
  exists results, predictor'. split; [exact Hall |].
  apply (Hentry "MAIZ"). simpl. left.
Defined.

(** ** Successful calls *)

Lemma catch_all_success (r : result Response) (resp : Response) :
  catch_all r = resp -> success resp = true -> r = Ok resp.
Proof. destruct r as [a | e]; simpl; intros <-; [done | discriminate]. Qed.

Lemma prophet_success_inv `{Pandas.Engine} `{ProphetLib.ProphetEngine}
    (p : Predictor.DemandPredictor) (data : list DemandRecord) (periods : Z)
    (resp : Response) :
  fst (Predictor.train_and_predict p data periods) = resp -> success resp = true ->
  exists ts, Predictor.prepare_data data = Ok (Some ts) /\ (12 <= length ts)%nat /\
             fst (Predictor.fit_and_forecast p ts periods) = Ok resp.
Proof.
  unfold Predictor.train_and_predict, Predictor.train_and_predict_try.
  destruct (Predictor.prepare_data data) as [[ts |] | e]; simpl;
    [| by intros <- | by intros <-].
  destruct (Nat.ltb_spec (length ts) 12); simpl; [by intros <- |].
  destruct (Predictor.fit_and_forecast p ts periods) as [r p'] eqn:Hfit. simpl.
  intros Hr Hs. exists ts. split; [done |]. split; [done |].
  rewrite Hfit. by apply catch_all_success.
Qed.

Lemma sarima_success_inv `{Pandas.Engine} `{StatsModels.SarimaxEngine}
    (s : PredictorSarima.DemandPredictor) (data : list DemandRecord) (periods : Z)
    (resp : Response) :
  fst (PredictorSarima.train_and_predict s data periods) = resp -> success resp = true ->
  exists ts, PredictorSarima.prepare_data data = Ok (Some ts) /\ (12 <= length ts)%nat /\
             fst (PredictorSarima.fit_and_forecast s ts periods) = Ok resp.
Proof.
  unfold PredictorSarima.train_and_predict, PredictorSarima.train_and_predict_try.
  destruct (PredictorSarima.prepare_data data) as [[ts |] | e]; simpl;
    [| by intros <- | by intros <-].
  destruct (Nat.ltb_spec (length ts) 12); simpl; [by intros <- |].
  destruct (PredictorSarima.fit_and_forecast s ts periods) as [r s'] eqn:Hfit. simpl.
  intros Hr Hs. exists ts. split; [done |]. split; [done |].
  rewrite Hfit. by apply catch_all_success.
Qed.

(** ** Clamping and rounding of the forecast *)

Lemma rounded_clamp_output (raw : pyfloat) :
  Float.nonneg (rounded_clamp raw) /\ Float.two_decimals (rounded_clamp raw).
Proof. rewrite <- rounded_clamp_spec. apply clamped_output. Qed.

Lemma clamped_and_rounded_intro (yhat lower upper : pyfloat) :
  clamped_and_rounded yhat lower upper
    (mkprediction "" 0 0 (rounded_clamp yhat) (rounded_clamp lower) (rounded_clamp upper)).
Proof.
  split; [done |]. cbn [prediccion limite_inferior limite_superior].
  split; repeat split; apply rounded_clamp_output.
Qed.

Lemma prophet_prediction_clamped (row : ProphetLib.forecast_row) :
  clamped_and_rounded (ProphetLib.yhat row) (ProphetLib.yhat_lower row)
    (ProphetLib.yhat_upper row) (Predictor.format_prediction row).
Proof.
  unfold Predictor.format_prediction. rewrite !rounded_clamp_spec.
  exact (clamped_and_rounded_intro _ _ _).
Qed.

Lemma sarima_prediction_clamped (fc : list pyfloat) (ci : list (pyfloat * pyfloat))
    (i : nat) (d : date) (pr : Prediction) :
  PredictorSarima.format_prediction fc ci i d = Ok pr ->
  exists y lo hi,
    fc !! i = Some y /\ ci !! i = Some (lo, hi) /\ clamped_and_rounded y lo hi pr.
Proof.
  unfold PredictorSarima.format_prediction, Pandas.iloc.
  destruct (fc !! i) as [y |]; [| done].
  destruct (ci !! i) as [[lo hi] |]; [| done].
  cbn [mbind result_bind mret result_ret fst snd]. intros [= <-].
  exists y, lo, hi. split; [done |]. split; [done |].
  rewrite !rounded_clamp_spec. exact (clamped_and_rounded_intro _ _ _).
Qed.

Lemma mapM_ok_lookup {A B} (f : A -> result B) (l : list A) (l' : list B)
    (i : nat) (y : B) :
  mapM f l = Ok l' -> l' !! i = Some y -> exists x, l !! i = Some x /\ f x = Ok y.
Proof.
  intros Hm%mapM_ok_Forall2 Hy.
  destruct (Forall2_lookup_r _ _ _ _ _ Hm Hy) as (x & Hx & Hxy). by exists x.
Qed.

Lemma lookup_zip_seq {A} (l : list A) (i j : nat) (x : A) :
  zip (seq 0 (length l)) l !! i = Some (j, x) -> j = i /\ l !! i = Some x.
Proof.
  intros Hz. apply lookup_zip_with_Some in Hz as (j' & x' & [= <- <-] & Hj & Hx).
  apply lookup_seq in Hj as [-> _]. done.
Qed.

(** C2. In every entry of the predictions of a successful forecast, in
    either variant, the point estimate and the two bounds are each
    [round(max(0, raw), 2)] of the raw output of the model for that entry
    and that field: the forecast row of the entry, with its [yhat],
    [yhat_lower] and [yhat_upper], in the Prophet variant; the forecast and
    the two ends of the confidence interval at the entry's position in the
    SARIMA variant.  Each is thus non-negative whatever the raw value
    (negative, [NaN], infinite) and has two decimals. *)
Theorem forecast_points_clamped_and_rounded
    `{Pandas.Engine} `{ProphetLib.ProphetEngine} `{StatsModels.SarimaxEngine}
    (p : Predictor.DemandPredictor) (s : PredictorSarima.DemandPredictor)
    (data : list DemandRecord) (periods : Z)
    (predictions : list Prediction) (historical : list HistoricalPoint)
    (confidence : Confidence) (total_data_points : nat) :
  (fst (Predictor.train_and_predict p data periods)
   = Success predictions historical confidence total_data_points ->
   exists ts m future forecast,
     Predictor.prepare_data data = Ok (Some ts) /\
     ProphetLib.fit prophet_model ts = Ok m /\
     ProphetLib.make_future_dataframe m periods = Ok future /\
     ProphetLib.predict m future = Ok forecast /\
     Forall2 (fun row pr =>
                clamped_and_rounded (ProphetLib.yhat row) (ProphetLib.yhat_lower row)
                  (ProphetLib.yhat_upper row) pr)
             (Pandas.tail periods forecast) predictions) /\
  (fst (PredictorSarima.train_and_predict s data periods)
   = Success predictions historical confidence total_data_points ->
   exists ts model_fit fc ci,
     PredictorSarima.prepare_data data = Ok (Some ts) /\
     StatsModels.sarimax_fit (sarimax_model ts) = Ok model_fit /\
     StatsModels.forecast model_fit periods = Ok fc /\
     StatsModels.conf_int model_fit periods = Ok ci /\
     forall i pr,
       predictions !! i = Some pr ->
       exists y lo hi,
         fc !! i = Some y /\ ci !! i = Some (lo, hi) /\ clamped_and_rounded y lo hi pr).
Proof.
  split.
  - intros Hp.
    apply prophet_success_inv in Hp as (ts & Hprep & _ & Hfit); [| done].
    apply prophet_fit_ok_inv in Hfit
      as (m & future & forecast & c & h & Hm & Hfuture & Hforecast & _ & _
          & [= -> _ _ _]).
    exists ts, m, future, forecast. repeat (split; [done |]).
    apply Forall2_fmap_r, Forall_Forall2_diag, Forall_forall.
    intros row _. apply prophet_prediction_clamped.
  - intros Hs.
    apply sarima_success_inv in Hs as (ts & Hprep & _ & Hfit); [| done].
    apply sarima_fit_ok_inv in Hfit
      as (fit & fc & ci & d & start & dates & results & h
          & _ & Hm & Hfc & Hci & _ & _ & _ & Hres & _ & [= -> _ _ _]).
    exists ts, fit, fc, ci. repeat (split; [done |]).
    intros i pr Hpr.
    destruct (mapM_ok_lookup _ _ _ i pr Hres Hpr) as ([j date] & Hz & Hf).
    apply lookup_zip_seq in Hz as [-> _].
    by apply sarima_prediction_clamped in Hf.
Qed.

Lemma forecast_points_clamped_and_rounded_witness :
  exists predictions historical confidence total_data_points forecast,
    fst (@Predictor.train_and_predict Samples.pandas
           (Samples.const_prophet (Fin (-5)) NaN PInf)
           Predictor.__init__ Samples.flat_year 3)
    = Success predictions historical confidence total_data_points /\
    length predictions = 3%nat /\
    Forall2 (fun row pr =>
               clamped_and_rounded (ProphetLib.yhat row) (ProphetLib.yhat_lower row)
                 (ProphetLib.yhat_upper row) pr)
            (Pandas.tail 3 forecast) predictions.
Proof.
  eexists _, _, _, _.
  assert (Hcall : fst (@Predictor.train_and_predict Samples.pandas
                         (Samples.const_prophet (Fin (-5)) NaN PInf)
                         Predictor.__init__ Samples.flat_year 3)
                  = Success _ _ _ _) by run.
  destruct (proj1 (@forecast_points_clamped_and_rounded Samples.pandas
                     (Samples.const_prophet (Fin (-5)) NaN PInf)
                     (Samples.failing_sarimax "no fit")
                     Predictor.__init__ PredictorSarima.__init__ Samples.flat_year 3
                     _ _ _ _) Hcall)
    as (ts & m & future & forecast & _ & _ & _ & _ & Hall).
  exists forecast. split; [exact Hcall |]. split; [reflexivity | exact Hall].
Defined.

(** ** The forecast horizon *)

Section horizon_facts.
Local Open Scope Z_scope.

Lemma filter_all {A} (P : A -> Prop) `{forall x, Decision (P x)} (l : list A) :
  Forall P l -> filter P l = l.
Proof.
  induction 1 as [| x l Hx _ IH]; [done |].
  by rewrite filter_cons_True, IH.
Qed.

Lemma mapM_ok_map_proj {A B C} (f : A -> result B) (g : A -> C) (h : B -> C)
    (l : list A) (l' : list B) :
  (forall x y, f x = Ok y -> h y = g x) -> mapM f l = Ok l' -> map h l' = map g l.
Proof.
  intros Hg Hm%mapM_ok_Forall2.
  induction Hm as [| x y l l' Hxy _ IH]; simpl; [done |].
  by rewrite (Hg _ _ Hxy), IH.
Qed.

Lemma month_start_eta (d : date) : day d = 1 -> mkdate (year d) (month d) 1 = d.
Proof. destruct d as [y m dd]. simpl. by intros ->. Qed.

Lemma mapM_ok_map_proj_in {A B C} (f : A -> result B) (g : A -> C) (h : B -> C)
    (l : list A) (l' : list B) :
  (forall x y, x ∈ l -> f x = Ok y -> h y = g x) -> mapM f l = Ok l' ->
  map h l' = map g l.
Proof.
  intros Hg Hm%mapM_ok_Forall2.
  induction Hm as [| x y l l' Hxy _ IH]; simpl; [done |].
  rewrite (Hg x y) by (done || left). f_equal.
  apply IH. intros x' y' Hin. apply Hg. by right.
Qed.

(** The dates [Prophet.fit] keeps: those of the history, without
    repetition. *)
Lemma prophet_fit_history `{ProphetLib.ProphetEngine} (m0 m : ProphetLib.Prophet)
    (df : series) :
  ProphetLib.fit m0 df = Ok m ->
  exists hd params,
    ProphetLib.history_dates m = Some hd /\ ProphetLib.params m = Some params /\
    forall d, d ∈ hd <-> d ∈ map fst df.
Proof.
  unfold ProphetLib.fit. destruct (ProphetLib.history_dates m0); [done |].
  destruct (length df <? 2)%nat; [done |].
  intros (params & _ & [= <-])%bind_ok. simpl.
  eexists _, params. split; [done |]. split; [done |].
  intros d. by rewrite sort_dates_perm, elem_of_remove_dups.
Qed.

(** The latest of the history dates is in the month of the last item of
    the prepared series. *)
Lemma latest_is_last (ts : series) (hd : list date) (last_point : date * pyval)
    (last_date : date) :
  ascending ts -> last ts = Some last_point ->
  (forall d, d ∈ hd <-> d ∈ map fst ts) ->
  Pandas.max_date hd = Some last_date ->
  Pandas.ordinal last_date = Pandas.ordinal (fst last_point).
Proof.
  intros Hasc Hlast Hhd [Hin Hmax]%max_date_spec.
  apply Hhd, list_elem_of_fmap in Hin as (item & -> & Hitem).
  pose proof (ascending_last ts last_point Hasc Hlast item Hitem) as Hle.
  assert (Hge : Pandas.le (fst last_point) (fst item) = true).
  { apply Hmax, Hhd, list_elem_of_fmap. exists last_point.
    split; [done |]. by apply last_Some_elem_of. }
  apply le_ordinal in Hle, Hge. lia.
Qed.

(** The months [make_future_dataframe] adds: those that follow the month
    of the latest history date, whether that date is a month start or
    not. *)
Lemma future_months (last_date : date) (periods : Z) (dates : list date) :
  0 <= periods ->
  Pandas.date_range last_date (periods + 1) = Ok dates ->
  Pandas.head_slice periods (filter (fun d => Pandas.lt last_date d = true) dates)
  = horizon last_date periods.
Proof.
  intros Hperiods ->%date_range_ok.
  replace (Z.to_nat (periods + 1)) with (S (Z.to_nat periods)) by lia.
  unfold Pandas.head_slice. destruct (Z.ltb_spec periods 0); [lia |].
  assert (Hlater : forall k : Z, 1 <= k ->
            Pandas.lt last_date (Pandas.of_ordinal (Pandas.ordinal last_date + k)) = true).
  { intros k Hk. apply lt_spec. rewrite ordinal_of_ordinal. lia. }
  destruct (Z.eqb_spec (day last_date) 1) as [Hday | Hday].
  - cbn [seq map]. rewrite filter_cons_False.
    2: { rewrite not_true_iff_false. apply negb_false_iff, le_spec.
         rewrite ordinal_of_ordinal, day_of_ordinal. lia. }
    rewrite <- fmap_S_seq, <- list_fmap_compose.
    rewrite filter_all.
    + rewrite take_ge by (rewrite length_fmap, length_seq; lia).
      unfold horizon. apply list_fmap_ext. intros _ i _. simpl.
      unfold month_after. f_equal. lia.
    + apply Forall_fmap, Forall_forall. intros i _. simpl.
      replace (Pandas.ordinal last_date + Z.of_nat (S i))
        with (Pandas.ordinal last_date + (Z.of_nat i + 1)) by lia.
      apply Hlater. lia.
  - rewrite filter_all.
    + rewrite seq_S, map_app, take_app_length'
        by (rewrite length_map, length_seq; lia).
      unfold horizon. apply map_ext. intros i.
      unfold month_after. f_equal. lia.
    + apply Forall_forall. intros d Hd.
      apply list_elem_of_In, in_map_iff in Hd as (i & <- & _).
      replace (Pandas.ordinal last_date + 1 + Z.of_nat i)
        with (Pandas.ordinal last_date + (Z.of_nat i + 1)) by lia.
      apply Hlater. lia.
Qed.

Lemma make_future_dataframe_ok (m : ProphetLib.Prophet) (periods : Z)
    (hd future : list date) :
  ProphetLib.history_dates m = Some hd -> 0 <= periods ->
  ProphetLib.make_future_dataframe m periods = Ok future ->
  exists last_date,
    Pandas.max_date hd = Some last_date /\
    future = (hd ++ horizon last_date periods)%list.
Proof.
  intros Hhd Hperiods. unfold ProphetLib.make_future_dataframe. rewrite Hhd.
  destruct (Pandas.max_date hd) as [last_date |]; [| done].
  intros (dates & Hdates & [= <-])%bind_ok.
  exists last_date. split; [done |]. f_equal. by apply future_months.
Qed.

Lemma rows_keep_dates (params : date -> pyfloat * pyfloat * pyfloat) (l : list date) :
  map ProphetLib.ds
      (map (fun d => let '(y, lo, hi) := params d in ProphetLib.mkrow d y lo hi) l) = l.
Proof.
  induction l as [| x l IH]; [done |].
  cbn [map]. rewrite IH. by destruct (params x) as [[y lo] hi].
Qed.

Lemma predict_ok (m : ProphetLib.Prophet) (future : list date)
    (forecast : list ProphetLib.forecast_row) :
  ProphetLib.predict m future = Ok forecast -> map ProphetLib.ds forecast = future.
Proof.
  unfold ProphetLib.predict. destruct (ProphetLib.params m) as [params |]; [| done].
  destruct future as [| d future]; [done |].
  intros [= <-]. apply (rows_keep_dates params (d :: future)).
Qed.

Lemma tail_map_app {A B} (f : A -> B) (rows : list A) (old new : list B) (periods : Z) :
  0 <= periods -> length new = Z.to_nat periods ->
  map f rows = (old ++ new)%list ->
  map f (Pandas.tail periods rows) = new.
Proof.
  intros Hperiods Hnew Hrows. unfold Pandas.tail.
  destruct (Z.ltb_spec periods 0); [lia |].
  rewrite <- skipn_map, Hrows.
  assert (Hlen : length rows = (length old + length new)%nat).
  { by rewrite <- (length_map f), Hrows, length_app. }
  apply drop_app_length'. lia.
Qed.

Lemma horizon_length (d : date) (periods : Z) : length (horizon d periods) = Z.to_nat periods.
Proof. unfold horizon. by rewrite length_map, length_seq. Qed.

Lemma horizon_same_month (d e : date) (periods : Z) :
  Pandas.ordinal d = Pandas.ordinal e -> horizon d periods = horizon e periods.
Proof. intros Hde. unfold horizon, month_after. by rewrite Hde. Qed.

End horizon_facts.

Section horizon_of_a_forecast.
Context `{ProphetLib.ProphetEngine} `{StatsModels.SarimaxEngine}.

Lemma prophet_horizon (p : Predictor.DemandPredictor) (ts : series) (periods : Z)
    (last_point : date * pyval) (predictions : list Prediction)
    (historical : list HistoricalPoint) (confidence : Confidence) (n : nat) :
  (0 <= periods)%Z -> ascending ts -> last ts = Some last_point ->
  fst (Predictor.fit_and_forecast p ts periods)
  = Ok (Success predictions historical confidence n) ->
  map (fun pr => mkdate (p_anio pr) (p_mes pr) 1) predictions
  = horizon (fst last_point) periods /\
  map p_fecha predictions = map Pandas.strftime (horizon (fst last_point) periods).
Proof.
  intros Hperiods Hasc Hlast Hfit.
  apply prophet_fit_ok_inv in Hfit
    as (m & future & forecast & c & h & Hm & Hfuture & Hforecast & _ & _ & [= -> _ _ _]).
  apply prophet_fit_history in Hm as (hd & params & Hhd & _ & Hdates).
  apply (make_future_dataframe_ok m periods hd) in Hfuture
    as (last_date & Hmax & ->); [| done..].
  apply predict_ok in Hforecast.
  rewrite (horizon_same_month last_date (fst last_point)) in Hforecast
    by by eapply latest_is_last.
  assert (Hds : map ProphetLib.ds (Pandas.tail periods forecast)
                = horizon (fst last_point) periods).
  { eapply tail_map_app; [done | apply horizon_length | exact Hforecast]. }
  assert (Hstarts : Forall (fun row => day (ProphetLib.ds row) = 1%Z)
                      (Pandas.tail periods forecast)).
  { apply Forall_forall. intros row Hrow.
    assert (Hin : ProphetLib.ds row ∈ horizon (fst last_point) periods).
    { rewrite <- Hds. apply list_elem_of_fmap. by exists row. }
    unfold horizon in Hin. by apply list_elem_of_fmap in Hin as (i & -> & _). }
  rewrite <- Hds, !map_map. split; [| done].
  apply Forall_fmap_ext_1. eapply Forall_impl; [exact Hstarts |].
  intros row Hday. by apply month_start_eta.
Qed.

(** The dates of the SARIMA forecast, from the last timestamp of the
    series: the months after its month when it is a month start, the
    months after the next month when it is a later day. *)
Lemma sarima_dates (s : PredictorSarima.DemandPredictor) (ts : series) (periods : Z)
    (last_point : date * pyval) (predictions : list Prediction)
    (historical : list HistoricalPoint) (confidence : Confidence) (n : nat) :
  last ts = Some last_point ->
  fst (PredictorSarima.fit_and_forecast s ts periods)
  = Ok (Success predictions historical confidence n) ->
  exists dates,
    map (fun pr => mkdate (p_anio pr) (p_mes pr) 1) predictions = dates /\
    map p_fecha predictions = map Pandas.strftime dates /\
    (day (fst last_point) = 1%Z -> dates = horizon (fst last_point) periods) /\
    ((1 < day (fst last_point))%Z ->
     dates = horizon (month_after (fst last_point) 1) periods).
Proof.
  intros Hlast Hfit.
  apply sarima_fit_ok_inv in Hfit
    as (fit & fc & ci & last_date & start & dates & results & h
        & _ & _ & _ & _ & Hlastidx & Hstart & Hdates & Hres & _ & [= -> _ _ _]).
  unfold PredictorSarima.last_index in Hlastidx. rewrite Hlast in Hlastidx.
  injection Hlastidx as <-.
  apply date_range_ok in Hdates.
  assert (Hzip : map snd (zip (seq 0 (length dates)) dates) = dates).
  { apply snd_zip. by rewrite length_seq. }
  assert (Hstarts : Forall (fun d => day d = 1%Z) dates).
  { rewrite Hdates. apply Forall_forall. intros d Hd.
    apply list_elem_of_In, in_map_iff in Hd as (i & <- & _). done. }
  exists dates. split; [| split; [| split]].
  - etrans; [| exact Hzip].
    eapply mapM_ok_map_proj_in; [| exact Hres].
    intros [i d] pr Hin. unfold PredictorSarima.format_prediction.
    intros (y & _ & (c & _ & [= <-])%bind_ok)%bind_ok. simpl.
    assert (Hd : d ∈ dates).
    { rewrite <- Hzip. apply list_elem_of_fmap. by exists (i, d). }
    rewrite Forall_forall in Hstarts. by apply month_start_eta, Hstarts.
  - etrans; [| exact (f_equal (map Pandas.strftime) Hzip)]. rewrite map_map.
    eapply mapM_ok_map_proj; [| exact Hres].
    intros [i d] pr. unfold PredictorSarima.format_prediction.
    by intros (y & _ & (c & _ & [= <-])%bind_ok)%bind_ok.
  - intros Hday. rewrite Hdates.
    apply add_months_ok in Hstart as ->; [| done].
    rewrite ordinal_of_ordinal, day_of_ordinal. simpl.
    unfold horizon, month_after. apply map_ext. intros i. f_equal. lia.
  - intros Hday. rewrite Hdates.
    apply add_months_day in Hstart as [Hord Hlate]; [| done].
    destruct (Z.eqb_spec (day start) 1); [lia |]. rewrite Hord.
    unfold horizon, month_after. rewrite ordinal_of_ordinal.
    apply map_ext. intros i. f_equal. lia.
Qed.

End horizon_of_a_forecast.

(** C3 is not what the code does for a negative [periods], which
    [GET /predict-all] passes on unchecked: with [periods = -1] the Prophet
    variant succeeds on twelve months of 2020 and returns eleven
    "predictions", labelled with the historical months February to
    December 2020, where [forecast.tail(periods)] was to extract the future
    rows only. *)
Lemma negative_horizon_returns_history :
  exists predictions historical confidence total_data_points,
    fst (@Predictor.train_and_predict Samples.pandas
           (Samples.const_prophet (Fin 1) (Fin 0) (Fin 2))
           Predictor.__init__ Samples.flat_year (-1))
    = Success predictions historical confidence total_data_points /\
    length predictions = 11%nat /\
    labels predictions
    = [(2020, 2); (2020, 3); (2020, 4); (2020, 5); (2020, 6); (2020, 7);
       (2020, 8); (2020, 9); (2020, 10); (2020, 11); (2020, 12)]%Z.
Proof.
  eexists _, _, _, _. split; [run |]. split; reflexivity.
Qed.

(** ** The confidence scorers *)

Section scorer_facts.
Local Open Scope R_scope.

Lemma level_of_clamped (v : R) :
  (if Float.gt (Fin v) (Fin 70) then Alta
   else if Float.gt (Fin v) (Fin 40) then Media else Baja) = level_of v.
Proof. unfold level_of. simpl. by destruct (Rlt_dec 70 v), (Rlt_dec 40 v). Qed.

Lemma graded_intro (v : R) (m : option R) :
  0 <= v <= 100 -> graded v (mkconfidence (Fin (Float.round2 v)) (level_of v) m).
Proof.
  intros Hv. unfold graded. simpl.
  pose proof (round2_range v Hv) as Hr.
  pose proof (round2_le_grid v 7000) as Hle70.
  pose proof (round2_ge_grid v 7000) as Hge70.
  pose proof (round2_le_grid v 4000) as Hle40.
  pose proof (round2_ge_grid v 4000) as Hge40.
  repeat split; try done; try lra; unfold level_of;
    destruct (Rlt_dec 70 v), (Rlt_dec 40 v); try done; intros; lra.
Qed.

Lemma default_graded : graded 50 PredictorSarima.default_confidence.
Proof.
  assert (H50 : Float.round2 50 = 50).
  { replace 50 with (IZR 5000 / 100) by lra. apply round2_grid. }
  assert (Hlevel : level_of 50 = Media).
  { unfold level_of. destruct (Rlt_dec 70 50), (Rlt_dec 40 50); try done; lra. }
  unfold PredictorSarima.default_confidence. rewrite <- H50 at 2. rewrite <- Hlevel.
  apply graded_intro. lra.
Qed.

(** The value the Prophet variant scores from. *)
Lemma prophet_score_from_clamp (historical_df : series)
    (forecast_df : list ProphetLib.forecast_row) (y : list R) :
  Pandas.numeric_values (map snd historical_df) = Ok y ->
  exists v,
    dispersion_confidence y = Fin v /\
    0 <= v <= 100 /\
    Predictor._calculate_confidence historical_df forecast_df
    = Ok (mkconfidence (Fin (Float.round2 v)) (level_of v) None).
Proof.
  intros Hy. unfold Predictor._calculate_confidence. rewrite Hy.
  cbn [mbind result_bind mret result_ret].
  fold (dispersion_confidence y). unfold dispersion_confidence at 1.
  destruct (clamp_range
              (Float.mul (Fin 100)
                 (Float.sub (Fin 1) (Float.div (Pandas.std y) (Pandas.mean y)))))
    as (v & Hv & Hrange).
  exists v. split; [exact Hv |]. split; [done |].
  unfold dispersion_confidence. rewrite Hv.
  by rewrite level_of_clamped.
Qed.

Lemma prophet_score_eq (historical_df : series)
    (forecast_df : list ProphetLib.forecast_row) (y : list R) (sd mu : R) :
  Pandas.numeric_values (map snd historical_df) = Ok y ->
  Pandas.std y = Fin sd -> Pandas.mean y = Fin mu -> mu <> 0 ->
  Predictor._calculate_confidence historical_df forecast_df
  = Ok (mkconfidence
          (Fin (Float.round2 (Rmax 0 (Rmin 100 (100 * (1 - sd / mu))))))
          (level_of (Rmax 0 (Rmin 100 (100 * (1 - sd / mu))))) None).
Proof.
  intros Hy Hsd Hmu Hne.
  destruct (prophet_score_from_clamp historical_df forecast_df y Hy) as (v & Hv & _ & ->).
  unfold dispersion_confidence in Hv.
  rewrite Hsd, Hmu in Hv. unfold Float.div in Hv.
  destruct (Req_EM_T mu 0); [done |].
  cbn [Float.sub Float.opp Float.add Float.mul] in Hv.
  rewrite clamp_finite in Hv. injection Hv as <-. done.
Qed.

(** The value the SARIMA variant scores from, when nothing raises. *)
Lemma sarima_score_from_clamp (ts : series) (model_fit : StatsModels.SARIMAXResults)
    (predictions : list pyfloat) (values : list R) (a : R) :
  StatsModels.fittedvalues model_fit = Ok predictions ->
  StatsModels.mean_absolute_error (drop 1 (map snd ts)) (drop 1 predictions) = Ok a ->
  Pandas.numeric_values (map snd ts) = Ok values ->
  exists v,
    error_confidence a values = Fin v /\
    0 <= v <= 100 /\
    PredictorSarima._calculate_confidence ts model_fit
    = mkconfidence (Fin (Float.round2 v)) (level_of v) (Some (Float.round2 a)).
Proof.
  intros Hfitted Hmae Hvalues.
  unfold PredictorSarima._calculate_confidence, PredictorSarima._calculate_confidence_try.
  rewrite Hfitted. cbn [mbind result_bind mret result_ret].
  rewrite Hmae. cbn [mbind result_bind mret result_ret].
  rewrite Hvalues. cbn [mbind result_bind mret result_ret].
  fold (error_confidence a values). unfold error_confidence at 1.
  match goal with
  | |- context [Float.max (Fin 0) (Float.min (Fin 100) ?x)] =>
      destruct (clamp_range x) as (v & Hv & Hrange)
  end.
  exists v. split; [exact Hv |]. split; [done |].
  unfold error_confidence. rewrite Hv.
  cbn [Float.round]. by rewrite level_of_clamped.
Qed.

Lemma sarima_score_eq (ts : series) (model_fit : StatsModels.SARIMAXResults)
    (predictions : list pyfloat) (values : list R) (a mu : R) :
  StatsModels.fittedvalues model_fit = Ok predictions ->
  StatsModels.mean_absolute_error (drop 1 (map snd ts)) (drop 1 predictions) = Ok a ->
  Pandas.numeric_values (map snd ts) = Ok values ->
  Pandas.mean values = Fin mu -> 0 < mu ->
  PredictorSarima._calculate_confidence ts model_fit
  = mkconfidence
      (Fin (Float.round2 (Rmax 0 (Rmin 100 (100 * (1 - a / mu))))))
      (level_of (Rmax 0 (Rmin 100 (100 * (1 - a / mu)))))
      (Some (Float.round2 a)).
Proof.
  intros Hfitted Hmae Hvalues Hmean Hmu.
  destruct (sarima_score_from_clamp ts model_fit predictions values a
              Hfitted Hmae Hvalues) as (v & Hv & _ & ->).
  unfold error_confidence in Hv.
  rewrite Hmean, (proj2 (gt_fin mu 0) Hmu) in Hv.
  unfold Float.div in Hv. destruct (Req_EM_T mu 0); [lra |].
  cbn [Float.sub Float.opp Float.add Float.mul] in Hv.
  rewrite clamp_finite in Hv. injection Hv as <-. done.
Qed.

End scorer_facts.

Section scorer_examples.
Local Open Scope R_scope.

Lemma Rsum_replicate (n : nat) (x : R) : Pandas.Rsum (replicate n x) = INR n * x.
Proof.
  induction n as [| n IH]; [simpl; lra |].
  cbn [replicate Pandas.Rsum foldr]. fold (Pandas.Rsum (replicate n x)).
  rewrite IH, S_INR. lra.
Qed.

(** The score of twelve demands of 100 whose fitted values are all [f],
    below 100. *)
Lemma constant_fit_score (f : R) (fitted : result (list pyfloat)) :
  fitted = Ok (replicate 12 (Fin f)) -> f < 100 ->
  PredictorSarima._calculate_confidence
    (Samples.year_2020 (Samples.numbers (replicate 12 100)))
    (Samples.const_results (Fin 100) (Fin 90) (Fin 110) fitted)
  = mkconfidence
      (Fin (Float.round2 (Rmax 0 (Rmin 100 (100 * (1 - (100 - f) / 100))))))
      (level_of (Rmax 0 (Rmin 100 (100 * (1 - (100 - f) / 100)))))
      (Some (Float.round2 (100 - f))).
Proof.
  intros -> Hf.
  apply (sarima_score_eq _ _ (replicate 12 (Fin f)) (replicate 12 100) (100 - f) 100).
  - reflexivity.
  - unfold StatsModels.mean_absolute_error. cbn -[Rabs Rminus Rdiv INR Pandas.Rsum].
    f_equal.
    change (Pandas.Rsum (replicate 11 (Rabs (f - 100))) / INR 11 = 100 - f).
    rewrite Rsum_replicate, Rabs_left by lra.
    replace (INR 11) with 11 by (simpl; lra). lra.
  - reflexivity.
  - unfold Pandas.mean. cbn [replicate]. f_equal.
    change (Pandas.Rsum (replicate 12 100) / INR 12 = 100).
    rewrite Rsum_replicate. replace (INR 12) with 12 by (simpl; lra). lra.
  - lra.
Qed.

Lemma near_70_score :
  PredictorSarima._calculate_confidence
    (Samples.year_2020 (Samples.numbers (replicate 12 100))) Samples.near_70_fit
  = mkconfidence (Fin 70) Alta (Some 30).
Proof.
  unfold Samples.near_70_fit.
  rewrite (constant_fit_score (70004 / 1000)) by (done || lra).
  assert (Hv : Rmax 0 (Rmin 100 (100 * (1 - (100 - 70004 / 1000) / 100))) = 70004 / 1000).
  { unfold Rmax, Rmin.
    destruct (Rle_dec 100 (100 * (1 - (100 - 70004 / 1000) / 100))); [lra |].
    destruct (Rle_dec 0 (100 * (1 - (100 - 70004 / 1000) / 100))); lra. }
  rewrite Hv.
  rewrite (round2_near (70004 / 1000) 7000) by lra.
  rewrite (round2_near (100 - 70004 / 1000) 3000) by lra.
  f_equal.
  - f_equal. lra.
  - unfold level_of. destruct (Rlt_dec 70 (70004 / 1000)); [done | lra].
  - f_equal. lra.
Qed.

(** At a confidence value of exactly 70 the level is [Media]. *)
Lemma exactly_70_score :
  PredictorSarima._calculate_confidence
    (Samples.year_2020 (Samples.numbers (replicate 12 100))) Samples.exactly_70_fit
  = mkconfidence (Fin 70) Media (Some 30).
Proof.
  unfold Samples.exactly_70_fit.
  rewrite (constant_fit_score 70) by (done || lra).
  assert (Hv : Rmax 0 (Rmin 100 (100 * (1 - (100 - 70) / 100))) = 70).
  { unfold Rmax, Rmin.
    destruct (Rle_dec 100 (100 * (1 - (100 - 70) / 100))); [lra |].
    destruct (Rle_dec 0 (100 * (1 - (100 - 70) / 100))); lra. }
  rewrite Hv.
  rewrite (round2_near 70 7000) by lra.
  rewrite (round2_near (100 - 70) 3000) by lra.
  f_equal.
  - f_equal. lra.
  - unfold level_of. destruct (Rlt_dec 70 70); [lra |].
    destruct (Rlt_dec 40 70); [done | lra].
  - f_equal. lra.
Qed.

End scorer_examples.

Section dispersion_facts.
Local Open Scope R_scope.

Lemma constant_is_replicate (x : R) (y : list R) :
  Forall (eq x) y -> y = replicate (length y) x.
Proof. induction 1 as [| z y <- _ IH]; simpl; [done | by rewrite <- IH]. Qed.

Lemma var_replicate (n : nat) (x : R) : (1 <= n)%nat -> Pandas.var (replicate n x) = 0.
Proof.
  intros Hn. unfold Pandas.var.
  rewrite length_replicate, Rsum_replicate.
  assert (Hpos : 0 < INR n) by (apply lt_0_INR; lia).
  replace (INR n * x / INR n) with x by (field; lra).
  change (map (fun x0 : R => (x0 - x) * (x0 - x)) (replicate n x))
    with ((fun x0 : R => (x0 - x) * (x0 - x)) <$> replicate n x).
  rewrite fmap_replicate, Rsum_replicate.
  unfold Rdiv. ring.
Qed.

(** The clamp of an undefined variability ([NaN]) is 100. *)
Lemma clamp_of_nan :
  Float.max (Fin 0) (Float.min (Fin 100) (Float.mul (Fin 100) (Float.sub (Fin 1) NaN)))
  = Fin 100.
Proof.
  unfold Float.max, Float.min, Float.lt. simpl.
  destruct (Rlt_dec 0 100); [done | lra].
Qed.

(** The clamp of an infinite variability is 0. *)
Lemma clamp_of_infinite :
  Float.max (Fin 0) (Float.min (Fin 100) (Float.mul (Fin 100) (Float.sub (Fin 1) PInf)))
  = Fin 0.
Proof.
  unfold Float.max, Float.min, Float.lt. simpl. unfold Float.signed_inf.
  destruct (Rlt_dec 0 (- (100))); [lra |].
  destruct (Rlt_dec (- (100)) 0); [done | lra].
Qed.

Lemma clamp_100 : Rmax 0 (Rmin 100 100) = 100.
Proof.
  unfold Rmax, Rmin. destruct (Rle_dec 100 100); [| lra].
  destruct (Rle_dec 0 100); lra.
Qed.

(** The clamp for a series without variance, whatever its constant. *)
Lemma clamp_of_constant (y : list R) (x : R) :
  Forall (eq x) y ->
  Float.max (Fin 0)
    (Float.min (Fin 100)
       (Float.mul (Fin 100)
          (Float.sub (Fin 1) (Float.div (Pandas.std y) (Pandas.mean y))))) = Fin 100.
Proof.
  intros Hy. rewrite (constant_is_replicate x y Hy).
  destruct (length y) as [| [| n]].
  - apply clamp_of_nan.
  - apply clamp_of_nan.
  - assert (Hstd : Pandas.std (replicate (S (S n)) x) = Fin 0).
    { change (Fin (sqrt (Pandas.var (replicate (S (S n)) x))) = Fin 0).
      rewrite var_replicate by lia. by rewrite sqrt_0. }
    assert (Hmean : exists mu, Pandas.mean (replicate (S (S n)) x) = Fin mu).
    { by eexists. }
    destruct Hmean as [mu Hmean]. rewrite Hstd, Hmean. unfold Float.div.
    destruct (Req_EM_T mu 0).
    + unfold Float.signed_inf.
      destruct (Rlt_dec 0 0); [lra |]. apply clamp_of_nan.
    + cbn [Float.sub Float.opp Float.add Float.mul].
      rewrite clamp_finite.
      replace (100 * (1 + - (0 / mu))) with 100 by (unfold Rdiv; ring).
      by rewrite clamp_100.
Qed.

Lemma uneven_year_stats :
  Pandas.numeric_values (map snd Samples.uneven_year)
  = Ok [6; 0; 6; 0; 5; 1; 3; 3; 3; 3; 3; 3] /\
  Pandas.std [6; 0; 6; 0; 5; 1; 3; 3; 3; 3; 3; 3] = Fin 2 /\
  Pandas.mean [6; 0; 6; 0; 5; 1; 3; 3; 3; 3; 3; 3] = Fin 3.
Proof.
  split; [reflexivity |]. split.
  - change (Fin (sqrt (Pandas.var [6; 0; 6; 0; 5; 1; 3; 3; 3; 3; 3; 3])) = Fin 2).
    f_equal. replace (Pandas.var _) with (2 * 2).
    + apply sqrt_square. lra.
    + unfold Pandas.var. cbn [Pandas.Rsum foldr map length].
      replace (INR 12) with 12 by (simpl; lra). lra.
  - unfold Pandas.mean. f_equal. cbn [Pandas.Rsum foldr length].
    replace (INR 12) with 12 by (simpl; lra). lra.
Qed.

End dispersion_facts.

(** C4, as stated, fails: the level is computed from the confidence value
    before it is rounded.  A mean absolute error of 29.996 on a mean demand
    of 100 gives the value 70.004: the reported score is 70.0, within
    (40, 70], and the level is [Alta], not [Media]. *)
Lemma level_follows_the_unrounded_value :
  exists c s,
    PredictorSarima._calculate_confidence
      (Samples.year_2020 (Samples.numbers (replicate 12 100%R))) Samples.near_70_fit = c /\
    score c = Fin s /\ (40 < s <= 70)%R /\ level c <> Media.
Proof.
  exists (mkconfidence (Fin 70) Alta (Some 30%R)), 70%R.
  split; [apply near_70_score |]. simpl.
  split; [done |]. split; [lra | discriminate].
Qed.

(** C4, amended.  Each scorer computes a confidence value [v], the clamp
    to [[0, 100]] of [100 * (1 - std / mean)] (dispersion scorer) or of
    [100 * (1 - mae / mean)] (error scorer); the score it reports is [v]
    rounded to two decimals, in [[0, 100]], and the level is the step
    function of [v] itself: [Alta] for [v > 70], [Media] for
    [40 < v <= 70], [Baja] for [v <= 40].  On the reported score this gives
    [Alta] above 70, [Media] strictly between 40 and 70 and [Baja] below
    40.  The error scorer answers its default, the score 50 with the level
    [Media], when its computation raises. *)
Theorem confidence_score_and_level :
  (forall historical_df forecast_df c,
     Predictor._calculate_confidence historical_df forecast_df = Ok c ->
     exists y v,
       Pandas.numeric_values (map snd historical_df) = Ok y /\
       dispersion_confidence y = Fin v /\ graded v c) /\
  (forall ts model_fit,
     (exists predictions a values v,
        StatsModels.fittedvalues model_fit = Ok predictions /\
        StatsModels.mean_absolute_error (drop 1 (map snd ts)) (drop 1 predictions)
        = Ok a /\
        Pandas.numeric_values (map snd ts) = Ok values /\
        error_confidence a values = Fin v /\
        graded v (PredictorSarima._calculate_confidence ts model_fit)) \/
     ((exists e, PredictorSarima._calculate_confidence_try ts model_fit = Raise e) /\
      PredictorSarima._calculate_confidence ts model_fit
      = PredictorSarima.default_confidence /\
      graded 50 PredictorSarima.default_confidence)).
Proof.
  split.
  - intros historical_df forecast_df c Hc.
    destruct (Pandas.numeric_values (map snd historical_df)) as [y | e] eqn:Hy.
    + destruct (prophet_score_from_clamp historical_df forecast_df y Hy)
        as (v & Hv & Hrange & Hscore).
      rewrite Hscore in Hc. injection Hc as <-.
      exists y, v. split; [done |]. split; [done |]. by apply graded_intro.
    + unfold Predictor._calculate_confidence in Hc. by rewrite Hy in Hc.
  - intros ts model_fit.
    destruct (PredictorSarima._calculate_confidence_try ts model_fit) as [c | e] eqn:Htry.
    + left. pose proof Htry as Hinv.
      unfold PredictorSarima._calculate_confidence_try in Hinv.
      apply bind_ok in Hinv
        as (predictions & Hfitted & (a & Hmae & (values & Hvalues & _)%bind_ok)%bind_ok).
      destruct (sarima_score_from_clamp ts model_fit predictions values a
                  Hfitted Hmae Hvalues) as (v & Hv & Hrange & ->).
      exists predictions, a, values, v. repeat (split; [done |]).
      by apply graded_intro.
    + right. split; [by exists e |]. split; [| apply default_graded].
      unfold PredictorSarima._calculate_confidence. by rewrite Htry.
Qed.

Lemma confidence_score_and_level_witness :
  exists v,
    error_confidence 30 (replicate 12 100%R) = Fin v /\
    graded v (mkconfidence (Fin 70) Media (Some 30%R)).
Proof.
  destruct (proj2 confidence_score_and_level
              (Samples.year_2020 (Samples.numbers (replicate 12 100%R)))
              Samples.exactly_70_fit)
    as [(predictions & a & values & v & Hfitted & Hmae & Hvalues & Hv & Hgraded)
       | [[e Hraise] _]].
  - exists v. rewrite exactly_70_score in Hgraded. split; [| exact Hgraded].
    injection Hfitted as <-. injection Hvalues as <-.
    rewrite <- Hv. f_equal.
    unfold StatsModels.mean_absolute_error in Hmae.
    cbn -[Rabs Rminus Rdiv INR Pandas.Rsum] in Hmae.
    injection Hmae as <-.
    change (30 = Pandas.Rsum (replicate 11 (Rabs (70 - 100))) / INR 11)%R.
    rewrite Rsum_replicate, Rabs_left by lra.
    replace (INR 11) with 11%R by (simpl; lra). lra.
  - exfalso.
    pose proof exactly_70_score as Hscore.
    unfold PredictorSarima._calculate_confidence in Hscore.
    rewrite Hraise in Hscore. injection Hscore as Hfifty _. lra.
Defined.

(** C5, as stated, fails: the score is the clamp rounded to two decimals.
    For twelve demands with standard deviation 2 and mean 3 the clamp is
    100/3 and the score is 33.33. *)
Lemma dispersion_score_is_rounded :
  exists c,
    Predictor._calculate_confidence Samples.uneven_year [] = Ok c /\
    score c = Fin (3333 / 100)%R /\
    score c <> Fin (Rmax 0 (Rmin 100 (100 * (1 - 2 / 3))))%R.
Proof.
  destruct uneven_year_stats as (Hy & Hsd & Hmu).
  rewrite (prophet_score_eq _ _ _ 2 3 Hy Hsd Hmu) by lra.
  eexists. split; [reflexivity |]. simpl.
  assert (Hv : (Rmax 0 (Rmin 100 (100 * (1 - 2 / 3))) = 100 / 3)%R).
  { unfold Rmax, Rmin.
    destruct (Rle_dec 100 (100 * (1 - 2 / 3))); [lra |].
    destruct (Rle_dec 0 (100 * (1 - 2 / 3))); lra. }
  rewrite Hv, (round2_near (100 / 3) 3333) by lra.
  split; [done |]. intros [= Hfalse]. lra.
Qed.

(** C5, amended.  On a numeric history the dispersion scorer reports
    [round(clamp(100 * (1 - stdev / mean), 0, 100), 2)], with the level of
    the clamped value (for a zero mean and a non-zero deviation the
    variability is infinite and the score is 0); a history without variance
    gets the score 100 and the level [Alta] (also when its constant is 0,
    where the variability is undefined). *)
Theorem dispersion_score (historical_df : series)
    (forecast_df : list ProphetLib.forecast_row) (y : list R) :
  Pandas.numeric_values (map snd historical_df) = Ok y ->
  (forall sd mu : R,
     Pandas.std y = Fin sd -> Pandas.mean y = Fin mu -> mu <> 0%R ->
     exists c,
       Predictor._calculate_confidence historical_df forecast_df = Ok c /\
       score c = Fin (Float.round2 (Rmax 0 (Rmin 100 (100 * (1 - sd / mu)))))%R /\
       level c = level_of (Rmax 0 (Rmin 100 (100 * (1 - sd / mu))))%R) /\
  (forall sd : R,
     Pandas.std y = Fin sd -> Pandas.mean y = Fin 0 -> (0 < sd)%R ->
     exists c,
       Predictor._calculate_confidence historical_df forecast_df = Ok c /\
       score c = Fin 0 /\ level c = Baja) /\
  (forall x : R,
     Forall (eq x) y ->
     exists c,
       Predictor._calculate_confidence historical_df forecast_df = Ok c /\
       score c = Fin 100 /\ level c = Alta).
Proof.
  intros Hy. split; [| split].
  - intros sd mu Hsd Hmu Hne.
    rewrite (prophet_score_eq _ _ _ sd mu Hy Hsd Hmu Hne). by eexists.
  - intros sd Hsd Hmu Hpos.
    destruct (prophet_score_from_clamp historical_df forecast_df y Hy)
      as (v & Hv & _ & ->).
    unfold dispersion_confidence in Hv.
    rewrite Hsd, Hmu in Hv. unfold Float.div, Float.signed_inf in Hv.
    destruct (Req_EM_T 0 0); [| done].
    destruct (Rlt_dec 0 sd); [| done].
    rewrite clamp_of_infinite in Hv. injection Hv as <-.
    eexists. split; [reflexivity |]. simpl. split.
    + f_equal. replace 0%R with (IZR 0 / 100)%R at 1 by lra.
      rewrite round2_grid. lra.
    + unfold level_of. destruct (Rlt_dec 70 0); [lra |].
      destruct (Rlt_dec 40 0); [lra | done].
  - intros x Hx.
    destruct (prophet_score_from_clamp historical_df forecast_df y Hy)
      as (v & Hv & _ & ->).
    unfold dispersion_confidence in Hv.
    rewrite (clamp_of_constant y x Hx) in Hv. injection Hv as <-.
    eexists. split; [reflexivity |]. simpl. split.
    + f_equal. replace 100%R with (IZR 10000 / 100)%R at 1 by lra.
      rewrite round2_grid. lra.
    + unfold level_of. destruct (Rlt_dec 70 100); [done | lra].
Qed.

Lemma dispersion_score_witness :
  exists c,
    Predictor._calculate_confidence
      (Samples.year_2020 (Samples.numbers (replicate 12 100%R))) [] = Ok c /\
    score c = Fin 100 /\ level c = Alta.
Proof.
  apply (proj2 (proj2 (dispersion_score
                         (Samples.year_2020 (Samples.numbers (replicate 12 100%R))) []
                         (replicate 12 100%R) eq_refl)) 100%R).
  repeat constructor.
Defined.

(** ** Failures while scoring *)

Section scoring_failures.
Import StatsModels.

Lemma sarima_scorer_fallback (ts : series) (model_fit : SARIMAXResults) (e : string) :
  PredictorSarima._calculate_confidence_try ts model_fit = Raise e ->
  PredictorSarima._calculate_confidence ts model_fit = mkconfidence (Fin 50) Media (Some 0%R).
Proof. unfold PredictorSarima._calculate_confidence. by intros ->. Qed.

(** A forecast of the SARIMA variant succeeds all the same when the fitted
    values cannot be computed; its confidence is then the default. *)
Lemma sarima_forecast_survives_scoring `{E : SarimaxEngine}
    (s : PredictorSarima.DemandPredictor) (ts : series) (periods : Z) (e : string)
    (predictions : list Prediction) (historical : list HistoricalPoint)
    (confidence : Confidence) (n : nat) :
  fst (PredictorSarima.fit_and_forecast s ts periods)
  = Ok (Success predictions historical confidence n) ->
  fst (@PredictorSarima.fit_and_forecast (with_failing_fittedvalues E e) s ts periods)
  = Ok (Success predictions historical (mkconfidence (Fin 50) Media (Some 0%R)) n).
Proof.
  intros Hfit.
  apply sarima_fit_ok_inv in Hfit
    as (model_fit & fc & ci & last_date & start & dates & results & h
        & Hinit & Hm & Hfc & Hci & Hlast & Hstart & Hdates & Hres & Hh & [= -> -> _ ->]).
  unfold PredictorSarima.fit_and_forecast, new. fold (sarimax_model ts).
  cbn [sarimax_init with_failing_fittedvalues]. rewrite Hinit.
  cbn [fst PredictorSarima.get_model PredictorSarima.model mbind result_bind].
  cbn [sarimax_fit with_failing_fittedvalues]. rewrite Hm.
  cbn [mbind result_bind mret result_ret forecast conf_int].
  rewrite Hfc. cbn [mbind result_bind]. rewrite Hci. cbn [mbind result_bind].
  rewrite Hlast. cbn [mbind result_bind]. rewrite Hstart. cbn [mbind result_bind].
  rewrite Hdates. cbn [mbind result_bind]. rewrite Hres. cbn [mbind result_bind].
  rewrite Hh. reflexivity.
Qed.

End scoring_failures.

(** C6, as stated, fails for the Prophet variant, whose scorer has no
    handler: for twelve months whose demand was stored as text, fitting and
    forecasting succeed, the scorer raises, and [train_and_predict] returns
    the failure of its own handler instead of a forecast with the default
    confidence. *)
Lemma prophet_scoring_failure_surfaces :
  exists ts m future forecast e,
    @Predictor.prepare_data Samples.pandas Samples.text_year = Ok (Some ts) /\
    @ProphetLib.fit (Samples.const_prophet (Fin 1) (Fin 0) (Fin 2)) prophet_model ts
    = Ok m /\
    ProphetLib.make_future_dataframe m 3 = Ok future /\
    ProphetLib.predict m future = Ok forecast /\
    Predictor._calculate_confidence ts forecast = Raise e /\
    fst (@Predictor.train_and_predict Samples.pandas
           (Samples.const_prophet (Fin 1) (Fin 0) (Fin 2))
           Predictor.__init__ Samples.text_year 3)
    = Failure (prediction_error e).
Proof.
  eexists _, _, _, _, _.
  split; [run |]. split; [run |]. split; [run |]. split; [run |]. split; run.
Qed.

(** C6, amended.  In the SARIMA variant an exception raised while scoring
    stays in the scorer, which returns [{score: 50, level: Media, mae: 0}];
    a forecast that succeeds still succeeds, with that confidence, when the
    fitted values cannot be computed.  In the Prophet variant the scorer
    has no fallback: an exception it raises is returned by
    [train_and_predict] as a failure. *)
Theorem scoring_failure_handling
    {PD : Pandas.Engine} {PE : ProphetLib.ProphetEngine} {SE : StatsModels.SarimaxEngine}
    (p : Predictor.DemandPredictor) (s : PredictorSarima.DemandPredictor)
    (data : list DemandRecord) (periods : Z) :
  (forall ts model_fit e,
     PredictorSarima._calculate_confidence_try ts model_fit = Raise e ->
     PredictorSarima._calculate_confidence ts model_fit
     = mkconfidence (Fin 50) Media (Some 0%R)) /\
  (forall e predictions historical confidence n,
     fst (PredictorSarima.train_and_predict s data periods)
     = Success predictions historical confidence n ->
     fst (@PredictorSarima.train_and_predict PD
            (with_failing_fittedvalues SE e) s data periods)
     = Success predictions historical (mkconfidence (Fin 50) Media (Some 0%R)) n) /\
  (forall ts m future forecast e,
     Predictor.prepare_data data = Ok (Some ts) -> (12 <= length ts)%nat ->
     ProphetLib.fit prophet_model ts = Ok m ->
     ProphetLib.make_future_dataframe m periods = Ok future ->
     ProphetLib.predict m future = Ok forecast ->
     Predictor._calculate_confidence ts forecast = Raise e ->
     fst (Predictor.train_and_predict p data periods) = Failure (prediction_error e)).
Proof.
  split; [apply sarima_scorer_fallback |]. split.
  - intros e predictions historical confidence n Hsuccess.
    apply sarima_success_inv in Hsuccess as (ts & Hprep & Hlen & Hfit); [| done].
    rewrite (@sarima_gate_open PD (with_failing_fittedvalues SE e) s data periods ts
               Hprep Hlen). cbn [fst].
    by rewrite (sarima_forecast_survives_scoring s ts periods e _ _ _ _ Hfit).
  - intros ts m future forecast e Hprep Hlen Hm Hfuture Hforecast Hscore.
    rewrite (prophet_gate_open p data periods ts Hprep Hlen). cbn [fst].
    unfold Predictor.fit_and_forecast.
    cbn [Predictor.get_model Predictor.model mbind result_bind].
    fold prophet_model. rewrite Hm.
    cbn [fst Predictor.get_model Predictor.model mbind result_bind].
    rewrite Hfuture. cbn [mbind result_bind].
    rewrite Hforecast. cbn [mbind result_bind].
    by rewrite Hscore.
Qed.

Lemma scoring_failure_handling_witness :
  PredictorSarima._calculate_confidence
    (Samples.year_2020 (Samples.numbers (replicate 12 100%R)))
    (Samples.const_results (Fin 100) (Fin 90) (Fin 110) (Raise "no fitted values"))
  = mkconfidence (Fin 50) Media (Some 0%R) /\
  fst (@Predictor.train_and_predict Samples.pandas
         (Samples.const_prophet (Fin 1) (Fin 0) (Fin 2))
         Predictor.__init__ Samples.text_year 3)
  = Failure (prediction_error "unsupported operand type(s) for -: 'float' and 'str'").
Proof.
  pose proof (@scoring_failure_handling Samples.pandas
                (Samples.const_prophet (Fin 1) (Fin 0) (Fin 2))
                (Samples.failing_sarimax "no fit")
                Predictor.__init__ PredictorSarima.__init__ Samples.text_year 3)
    as (Hscorer & _ & Hprophet).
  split.
  - by apply (Hscorer _ _ "no fitted values").
  - eapply Hprophet; run.
Defined.

(** * Further properties *)

(** ** The normalizer and the responses of the predictors *)

Section normalizer_rows.
Context `{Pandas.Engine}.

Lemma prepare_data_demands (data : list DemandRecord) (ts : series) :
  Predictor.prepare_data data = Ok (Some ts) -> map snd ts ≡ₚ map demanda data.
Proof.
  intros (_ & ds & _ & Hlen & ->)%prepare_data_inv.
  change (map snd ?l) with (snd <$> l). rewrite sort_by_date_perm.
  apply reflexive_eq, snd_zip. rewrite length_map. lia.
Qed.

Lemma prepare_data_rows (data : list DemandRecord) (ts : series) :
  Forall valid_month data -> Predictor.prepare_data data = Ok (Some ts) ->
  ts ≡ₚ map (fun r => (month_start r, demanda r)) data.
Proof.
  intros Hvalid Hprep.
  destruct (prepare_data_valid data Hvalid) as (ts' & Hprep' & _ & ->).
  { by apply prepare_data_Some in Hprep as (_ & ? & _). }
  rewrite Hprep in Hprep'. injection Hprep' as ->. apply sort_by_date_perm.
Qed.

(** The timestamps of valid months are month starts. *)
Lemma prepared_month_starts (data : list DemandRecord) (ts : series) :
  Forall valid_month data -> Predictor.prepare_data data = Ok (Some ts) ->
  Forall (fun row => day (fst row) = 1%Z) ts.
Proof.
  intros Hvalid Hprep. rewrite (prepare_data_rows data ts Hvalid Hprep).
  apply Forall_fmap, Forall_forall. by intros r _.
Qed.

End normalizer_rows.

(** X1. When [prepare_data] returns a series, in either variant, the series
    is in ascending order of its timestamps and has one row for each record
    it was given, with the demands of the records: nothing is dropped and
    records of the same month are not merged.  For records with valid
    months the rows are the first days of these months with the demands. *)
Theorem prepared_series_sorted_records `{Pandas.Engine}
    (data : list DemandRecord) (ts : series) :
  Predictor.prepare_data data = Ok (Some ts) ->
  PredictorSarima.prepare_data data = Ok (Some ts) /\
  ascending ts /\
  length ts = length data /\
  map snd ts ≡ₚ map demanda data /\
  (Forall valid_month data ->
   ts ≡ₚ map (fun r => (mkdate (anio r) (mes r) 1, demanda r)) data).
Proof.
  intros Hprep. split; [by rewrite prepare_data_same |].
  destruct (prepare_data_Some data ts Hprep) as (Hlen & _ & Hasc).
  split; [done |]. split; [done |]. split; [by apply prepare_data_demands |].
  intros Hvalid. by apply prepare_data_rows.
Qed.

Lemma prepared_series_sorted_records_witness :
  exists ts,
    @Predictor.prepare_data Samples.pandas
      [mkrecord "MAIZ" 2021 1 (Number 7); mkrecord "MAIZ" 2020 3 (Number 4);
       mkrecord "MAIZ" 2020 3 (Number 5)] = Ok (Some ts) /\
    ascending ts /\ length ts = 3%nat.
Proof.
  eexists. split; [run |].
  destruct (@prepared_series_sorted_records Samples.pandas
              [mkrecord "MAIZ" 2021 1 (Number 7); mkrecord "MAIZ" 2020 3 (Number 4);
               mkrecord "MAIZ" 2020 3 (Number 5)] _ eq_refl) as (_ & Hasc & Hlen & _).
  split; [exact Hasc | exact Hlen].
Defined.



(** X3. For records with valid dates, the insufficient-history failure is
    returned exactly when there are fewer than 12 records, in either
    variant: records are counted, not distinct months. *)
Theorem insufficient_history_iff
    `{Pandas.Engine} `{ProphetLib.ProphetEngine} `{StatsModels.SarimaxEngine}
    (p : Predictor.DemandPredictor) (s : PredictorSarima.DemandPredictor)
    (data : list DemandRecord) (periods : Z) :
  Forall valid_month data ->
  (fst (Predictor.train_and_predict p data periods) = Failure insufficient_history
   <-> (length data < 12)%nat) /\
  (fst (PredictorSarima.train_and_predict s data periods) = Failure insufficient_history
   <-> (length data < 12)%nat).
Proof.
  intros Hvalid.
  destruct (Nat.lt_ge_cases (length data) 12) as [Hlt | Hge].
  - rewrite (proj2 (prophet_gate_closed p data periods Hlt) Hvalid).
    rewrite (proj2 (sarima_gate_closed s data periods Hlt) Hvalid). done.
  - destruct (prepare_data_valid data Hvalid) as (ts & Hprep & Hlen & _).
    { intros ->. simpl in Hge. lia. }
    split; (split; [| lia]); intros Hfail; exfalso.
    + rewrite (prophet_gate_open p data periods ts) in Hfail by (done || lia).
      cbn [fst] in Hfail. revert Hfail. apply catch_all_not_gate.
      intros resp Hresp.
      apply prophet_fit_ok_inv in Hresp as (? & ? & ? & ? & ? & _ & _ & _ & _ & _ & ->).
      discriminate.
    + rewrite (sarima_gate_open s data periods ts) in Hfail by (done || lia).
      cbn [fst] in Hfail. revert Hfail. apply catch_all_not_gate.
      intros resp Hresp.
      apply sarima_fit_ok_inv in Hresp
        as (? & ? & ? & ? & ? & ? & ? & ? & _ & _ & _ & _ & _ & _ & _ & _ & _ & ->).
      discriminate.
Qed.

Lemma insufficient_history_iff_witness :
  fst (@Predictor.train_and_predict Samples.pandas
         (Samples.failing_prophet "Optimization failed")
         Predictor.__init__ Samples.five_months 3) = Failure insufficient_history
  <-> (length Samples.five_months < 12)%nat.
Proof.
  apply (@insufficient_history_iff Samples.pandas
           (Samples.failing_prophet "Optimization failed")
           (Samples.failing_sarimax "Optimization failed")
           Predictor.__init__ PredictorSarima.__init__ Samples.five_months 3).
  exact five_months_valid.
Defined.

Lemma format_historical_echoes (ts : series) (historical : list HistoricalPoint) :
  Predictor._format_historical ts = Ok historical -> Forall2 echoes ts historical.
Proof.
  intros Hh%mapM_ok_Forall2.
  eapply Forall2_impl; [exact Hh |]. simpl.
  intros [d v] h (r & Hr & [= <-])%bind_ok. simpl.
  destruct v as [x | t]; [| done]. injection Hr as <-.
  repeat split. by exists x.
Qed.

Lemma format_historical_same :
  PredictorSarima._format_historical = Predictor._format_historical.
Proof. reflexivity. Qed.

(** X4. In a successful response of either variant, [historical] is the
    prepared series entry by entry, in ascending order of date, each demand
    rounded to two decimals; [total_data_points] is the number of records
    given, which is at least 12. *)
Theorem historical_echoes_the_series
    `{Pandas.Engine} `{ProphetLib.ProphetEngine} `{StatsModels.SarimaxEngine}
    (p : Predictor.DemandPredictor) (s : PredictorSarima.DemandPredictor)
    (data : list DemandRecord) (periods : Z)
    (predictions : list Prediction) (historical : list HistoricalPoint)
    (confidence : Confidence) (total_data_points : nat) :
  fst (Predictor.train_and_predict p data periods)
  = Success predictions historical confidence total_data_points \/
  fst (PredictorSarima.train_and_predict s data periods)
  = Success predictions historical confidence total_data_points ->
  exists ts,
    Predictor.prepare_data data = Ok (Some ts) /\ ascending ts /\
    Forall2 echoes ts historical /\
    total_data_points = length data /\ length historical = length data /\
    (12 <= total_data_points)%nat.
Proof.
  intros [Hp | Hs].
  - apply prophet_success_inv in Hp as (ts & Hprep & Hlen & Hfit); [| done].
    apply prophet_fit_ok_inv in Hfit
      as (m & future & forecast & c & h & _ & _ & _ & _ & Hh & [= _ -> _ ->]).
    destruct (prepare_data_Some data ts Hprep) as (Hts & _ & Hasc).
    apply format_historical_echoes in Hh.
    exists ts. repeat split; try done; try lia.
    by rewrite <- (Forall2_length _ _ _ Hh).
  - apply sarima_success_inv in Hs as (ts & Hprep & Hlen & Hfit); [| done].
    rewrite prepare_data_same in Hprep.
    apply sarima_fit_ok_inv in Hfit
      as (fit & fc & ci & d & start & dates & results & h
          & _ & _ & _ & _ & _ & _ & _ & _ & Hh & [= _ -> _ ->]).
    destruct (prepare_data_Some data ts Hprep) as (Hts & _ & Hasc).
    rewrite format_historical_same in Hh. apply format_historical_echoes in Hh.
    exists ts. repeat split; try done; try lia.
    by rewrite <- (Forall2_length _ _ _ Hh).
Qed.

Lemma historical_echoes_the_series_witness :
  exists predictions historical confidence,
    fst (@Predictor.train_and_predict Samples.pandas
           (Samples.const_prophet (Fin 1) (Fin 0) (Fin 2))
           Predictor.__init__ Samples.flat_year 3)
    = Success predictions historical confidence 12 /\
    length historical = 12%nat.
Proof.
  eexists _, _, _.
  assert (Hcall : fst (@Predictor.train_and_predict Samples.pandas
                         (Samples.const_prophet (Fin 1) (Fin 0) (Fin 2))
                         Predictor.__init__ Samples.flat_year 3)
                  = Success _ _ _ 12) by run.
  split; [exact Hcall |].
  destruct (@historical_echoes_the_series Samples.pandas
              (Samples.const_prophet (Fin 1) (Fin 0) (Fin 2))
              (Samples.failing_sarimax "no fit")
              Predictor.__init__ PredictorSarima.__init__ Samples.flat_year 3
              _ _ _ _ (or_introl Hcall)) as (ts & _ & _ & _ & _ & Hlen & _).
  exact Hlen.
Defined.

(** X5. A history in which some demand is a string never gives a successful
    forecast, in either variant and whatever the engines do: the rounding
    of the historical values raises at the latest. *)
Theorem text_demand_never_succeeds
    `{Pandas.Engine} `{ProphetLib.ProphetEngine} `{StatsModels.SarimaxEngine}
    (p : Predictor.DemandPredictor) (s : PredictorSarima.DemandPredictor)
    (data : list DemandRecord) (periods : Z) :
  Exists (fun r => exists t, demanda r = Text t) data ->
  success (fst (Predictor.train_and_predict p data periods)) = false /\
  success (fst (PredictorSarima.train_and_predict s data periods)) = false.
Proof.
  intros Htext.
  assert (Hno : forall ts historical,
             Predictor.prepare_data data = Ok (Some ts) ->
             Predictor._format_historical ts = Ok historical -> False).
  { intros ts historical Hprep Hh.
    apply format_historical_echoes in Hh. apply prepare_data_demands in Hprep.
    apply Exists_exists in Htext as (r & Hr & t & Ht).
    assert (Hin : Text t ∈ map snd ts).
    { rewrite Hprep. apply list_elem_of_fmap. exists r. split; [by rewrite Ht |].
      first [done | by apply list_elem_of_In]. }
    apply list_elem_of_fmap in Hin as ([d v] & Hv & Hin). simpl in Hv. subst v.
    apply list_elem_of_lookup in Hin as [i Hi].
    destruct (Forall2_lookup_l _ _ _ _ _ Hh Hi) as (h & _ & _ & _ & _ & x & Hx & _).
    discriminate. }
  split.
  - destruct (success (fst (Predictor.train_and_predict p data periods))) eqn:Hs; [| done].
    exfalso.
    apply (prophet_success_inv p data periods _ eq_refl) in Hs as (ts & Hprep & _ & Hfit).
    apply prophet_fit_ok_inv in Hfit
      as (? & ? & ? & ? & h & _ & _ & _ & _ & Hh & _).
    by eapply Hno.
  - destruct (success (fst (PredictorSarima.train_and_predict s data periods))) eqn:Hs;
      [| done].
    exfalso.
    apply (sarima_success_inv s data periods _ eq_refl) in Hs as (ts & Hprep & _ & Hfit).
    rewrite prepare_data_same in Hprep.
    apply sarima_fit_ok_inv in Hfit
      as (? & ? & ? & ? & ? & ? & ? & h & _ & _ & _ & _ & _ & _ & _ & _ & Hh & _).
    rewrite format_historical_same in Hh. by eapply Hno.
Qed.

Lemma text_demand_never_succeeds_witness :
  success (fst (@Predictor.train_and_predict Samples.pandas
                  (Samples.const_prophet (Fin 1) (Fin 0) (Fin 2))
                  Predictor.__init__ Samples.text_year 3)) = false.
Proof.
  apply (@text_demand_never_succeeds Samples.pandas
           (Samples.const_prophet (Fin 1) (Fin 0) (Fin 2))
           (Samples.const_sarimax (Fin 1) (Fin 0) (Fin 2) (Raise "no fitted values"))
           Predictor.__init__ PredictorSarima.__init__ Samples.text_year 3).
  apply Exists_cons_hd. by exists "100".
Defined.

(** X6. For a horizon [periods >= 0] and records with valid months, a
    successful forecast of either variant has exactly [periods] entries,
    and their labels (year, month and the text ["YYYY-MM"]) are the
    consecutive calendar months that start with the month after the last
    point of the prepared series. *)
Theorem horizon_length_and_months
    `{Pandas.Engine} `{ProphetLib.ProphetEngine} `{StatsModels.SarimaxEngine}
    (p : Predictor.DemandPredictor) (s : PredictorSarima.DemandPredictor)
    (data : list DemandRecord) (periods : Z) (ts : series) (last_point : date * pyval)
    (predictions : list Prediction) (historical : list HistoricalPoint)
    (confidence : Confidence) (total_data_points : nat) :
  (0 <= periods)%Z -> Forall valid_month data ->
  Predictor.prepare_data data = Ok (Some ts) -> last ts = Some last_point ->
  fst (Predictor.train_and_predict p data periods)
  = Success predictions historical confidence total_data_points \/
  fst (PredictorSarima.train_and_predict s data periods)
  = Success predictions historical confidence total_data_points ->
  length predictions = Z.to_nat periods /\
  labels predictions
  = map (fun d => (year d, month d)) (horizon (fst last_point) periods) /\
  map p_fecha predictions = map Pandas.strftime (horizon (fst last_point) periods).
Proof.
  intros Hperiods Hvalid Hprep Hlast Hsuccess.
  assert (Hcore :
    map (fun pr => mkdate (p_anio pr) (p_mes pr) 1) predictions
    = horizon (fst last_point) periods /\
    map p_fecha predictions = map Pandas.strftime (horizon (fst last_point) periods)).
  { destruct Hsuccess as [Hp | Hs].
    - apply prophet_success_inv in Hp as (ts' & Hprep' & _ & Hfit); [| done].
      rewrite Hprep in Hprep'. injection Hprep' as <-.
      eapply prophet_horizon; [done | | done | exact Hfit].
      by apply prepare_data_Some in Hprep as (_ & _ & Hasc).
    - apply sarima_success_inv in Hs as (ts' & Hprep' & _ & Hfit); [| done].
      rewrite prepare_data_same, Hprep in Hprep'. injection Hprep' as <-.
      destruct (sarima_dates s ts periods last_point _ _ _ _ Hlast Hfit)
        as (dates & Hdates & Hfecha & Hstart & _).
      assert (Hday : day (fst last_point) = 1%Z).
      { pose proof (prepared_month_starts data ts Hvalid Hprep) as Hstarts.
        rewrite Forall_forall in Hstarts. apply Hstarts.
        by apply last_Some_elem_of. }
      rewrite <- (Hstart Hday). by rewrite <- Hdates in Hfecha |- *. }
  destruct Hcore as [Hdates Hfecha]. split; [| split; [| done]].
  - by rewrite <- (length_map (fun pr => mkdate (p_anio pr) (p_mes pr) 1)),
      Hdates, horizon_length.
  - rewrite <- Hdates, map_map. done.
Qed.

Lemma horizon_length_and_months_witness :
  exists predictions historical confidence total_data_points,
    fst (@Predictor.train_and_predict Samples.pandas
           (Samples.const_prophet (Fin 1) (Fin 0) (Fin 2))
           Predictor.__init__ Samples.flat_year 3)
    = Success predictions historical confidence total_data_points /\
    length predictions = 3%nat /\
    labels predictions = [(2021, 1); (2021, 2); (2021, 3)]%Z /\
    map p_fecha predictions = ["2021-01"; "2021-02"; "2021-03"].
Proof.
  eexists _, _, _, _.
  assert (Hcall : fst (@Predictor.train_and_predict Samples.pandas
                         (Samples.const_prophet (Fin 1) (Fin 0) (Fin 2))
                         Predictor.__init__ Samples.flat_year 3)
                  = Success _ _ _ _) by run.
  split; [exact Hcall |].
  eapply (@horizon_length_and_months Samples.pandas
            (Samples.const_prophet (Fin 1) (Fin 0) (Fin 2))
            (Samples.failing_sarimax "no fit")
            Predictor.__init__ PredictorSarima.__init__ Samples.flat_year 3
            _ (mkdate 2020 12 1, Number 100%R)).
  - lia.
  - exact flat_year_valid.
  - run.
  - reflexivity.
  - left. exact Hcall.
Defined.

(** X7. The SARIMA variant starts its forecast from the last timestamp plus
    one month, moved on to a month start.  When that timestamp is a later
    day of its month (a year written with two digits is read day first),
    the forecast months of a success start two months after the month of
    the last point: the month that follows it is skipped. *)
Theorem sarima_skips_a_month_after_a_later_day
    `{Pandas.Engine} `{StatsModels.SarimaxEngine}
    (s : PredictorSarima.DemandPredictor) (data : list DemandRecord) (periods : Z)
    (ts : series) (last_point : date * pyval)
    (predictions : list Prediction) (historical : list HistoricalPoint)
    (confidence : Confidence) (total_data_points : nat) :
  PredictorSarima.prepare_data data = Ok (Some ts) -> last ts = Some last_point ->
  (1 < day (fst last_point))%Z ->
  fst (PredictorSarima.train_and_predict s data periods)
  = Success predictions historical confidence total_data_points ->
  labels predictions
  = map (fun d => (year d, month d))
        (horizon (month_after (fst last_point) 1) periods).
Proof.
  intros Hprep Hlast Hday Hs.
  apply sarima_success_inv in Hs as (ts' & Hprep' & _ & Hfit); [| done].
  rewrite Hprep in Hprep'. injection Hprep' as <-.
  destruct (sarima_dates s ts periods last_point _ _ _ _ Hlast Hfit)
    as (dates & Hdates & _ & _ & Hlate).
  rewrite <- (Hlate Hday), <- Hdates, map_map. done.
Qed.

Lemma sarima_skips_a_month_after_a_later_day_witness :
  exists predictions historical confidence total_data_points,
    fst (@PredictorSarima.train_and_predict Samples.day_first
           (Samples.const_sarimax (Fin 1) (Fin 0) (Fin 2) (Raise "no fitted values"))
           PredictorSarima.__init__ Samples.short_year 3)
    = Success predictions historical confidence total_data_points /\
    labels predictions = [(2002, 2); (2002, 3); (2002, 4)]%Z.
Proof.
  eexists _, _, _, _.
  assert (Hcall : fst (@PredictorSarima.train_and_predict Samples.day_first
                         (Samples.const_sarimax (Fin 1) (Fin 0) (Fin 2)
                            (Raise "no fitted values"))
                         PredictorSarima.__init__ Samples.short_year 3)
                  = Success _ _ _ _) by run.
  split; [exact Hcall |].
  eapply (@sarima_skips_a_month_after_a_later_day Samples.day_first
            (Samples.const_sarimax (Fin 1) (Fin 0) (Fin 2) (Raise "no fitted values"))
            PredictorSarima.__init__ Samples.short_year 3
            _ (mkdate 2001 12 20, Number 100%R)).
  - run.
  - reflexivity.
  - simpl. lia.
  - exact Hcall.
Defined.

(** ** The scorers at their edges *)

Section scorer_edges.
Import StatsModels.
Local Open Scope R_scope.

Lemma level_of_0 : level_of 0 = Baja.
Proof.
  unfold level_of. destruct (Rlt_dec 70 0); [lra |]. destruct (Rlt_dec 40 0); [lra | done].
Qed.

Lemma level_of_100 : level_of 100 = Alta.
Proof. unfold level_of. destruct (Rlt_dec 70 100); [done | lra]. Qed.

Lemma round2_0 : Float.round2 0 = 0.
Proof. replace 0 with (IZR 0 / 100) at 1 by lra. rewrite round2_grid. lra. Qed.

Lemma round2_100 : Float.round2 100 = 100.
Proof. replace 100 with (IZR 10000 / 100) at 1 by lra. rewrite round2_grid. lra. Qed.

Lemma clamp_low (x : R) : x <= 0 -> Rmax 0 (Rmin 100 x) = 0.
Proof.
  intros Hx. unfold Rmax, Rmin.
  destruct (Rle_dec 100 x); [lra |]. destruct (Rle_dec 0 x); lra.
Qed.

Lemma clamp_high (x : R) : 100 <= x -> Rmax 0 (Rmin 100 x) = 100.
Proof.
  intros Hx. unfold Rmax, Rmin.
  destruct (Rle_dec 100 x); [| lra]. destruct (Rle_dec 0 100); lra.
Qed.

Lemma Rsum_nonneg (l : list R) : Forall (fun x => 0 <= x) l -> 0 <= Pandas.Rsum l.
Proof.
  induction 1 as [| x l Hx _ IH]; simpl; [lra |].
  fold (Pandas.Rsum l). lra.
Qed.

Lemma absolute_errors_nonneg (l pred : list R) :
  Forall (fun x => 0 <= x) (zip_with (fun t p => Rabs (p - t)) l pred).
Proof.
  revert pred. induction l as [| x l IH]; intros pred; [constructor |].
  destruct pred as [| q pred]; simpl; constructor; [apply Rabs_pos | apply IH].
Qed.

(** What [mean_absolute_error] returns is not negative. *)
Lemma mean_absolute_error_nonneg (y_true : list pyval) (y_pred : list pyfloat) (a : R) :
  mean_absolute_error y_true y_pred = Ok a -> 0 <= a.
Proof.
  unfold mean_absolute_error. destruct (negb _); [done |].
  intros (tv & _ & Hrest)%bind_ok.
  destruct tv as [| t tv]; [done |].
  destruct (mapM finite y_pred) as [pred |]; [| done].
  injection Hrest as <-.
  apply Rmult_le_pos.
  - apply Rsum_nonneg. apply (absolute_errors_nonneg (t :: tv) pred).
  - apply Rlt_le, Rinv_0_lt_compat.
    change (0 < INR (S (length tv))). apply lt_0_INR. lia.
Qed.

End scorer_edges.

(** X8. SARIMA scorer, history whose mean demand is not positive: the
    relative error counts as 1, so the score is 0 and the level [Baja],
    whatever the fit (the reported [mae] is still that of the fit). *)
Theorem sarima_score_without_positive_mean (ts : series)
    (model_fit : StatsModels.SARIMAXResults) (predictions : list pyfloat)
    (values : list R) (a mu : R) :
  StatsModels.fittedvalues model_fit = Ok predictions ->
  StatsModels.mean_absolute_error (drop 1 (map snd ts)) (drop 1 predictions) = Ok a ->
  Pandas.numeric_values (map snd ts) = Ok values ->
  Pandas.mean values = Fin mu -> (mu <= 0)%R ->
  PredictorSarima._calculate_confidence ts model_fit
  = mkconfidence (Fin 0) Baja (Some (Float.round2 a)).
Proof.
  intros Hfitted Hmae Hvalues Hmean Hmu.
  unfold PredictorSarima._calculate_confidence, PredictorSarima._calculate_confidence_try.
  rewrite Hfitted. cbn [mbind result_bind mret result_ret].
  rewrite Hmae. cbn [mbind result_bind mret result_ret].
  rewrite Hvalues. cbn [mbind result_bind mret result_ret].
  rewrite Hmean.
  assert (Hgt : Float.gt (Fin mu) (Fin 0) = false).
  { simpl. destruct (Rlt_dec 0 mu); [lra | done]. }
  rewrite Hgt. cbn [Float.sub Float.opp Float.add Float.mul].
  rewrite clamp_finite, clamp_low by lra.
  cbn [Float.round]. by rewrite level_of_clamped, round2_0, level_of_0.
Qed.

Lemma sarima_score_without_positive_mean_witness :
  PredictorSarima._calculate_confidence
    (Samples.year_2020 (Samples.numbers [0; 0; 0]%R))
    (Samples.const_results (Fin 1) (Fin 0) (Fin 2) (Ok [Fin 1; Fin 1; Fin 1]))
  = mkconfidence (Fin 0) Baja (Some (Float.round2 ((1 + (1 + 0)) / INR 2)%R)).
Proof.
  apply (sarima_score_without_positive_mean _ _ [Fin 1; Fin 1; Fin 1] [0; 0; 0]%R _ 0%R).
  - reflexivity.
  - unfold StatsModels.mean_absolute_error. cbn -[Rabs Rminus Rdiv INR Rplus].
    f_equal. rewrite !Rminus_0_r, Rabs_R1. reflexivity.
  - reflexivity.
  - unfold Pandas.mean. f_equal. cbn -[Rdiv INR]. unfold Rdiv. ring.
  - lra.
Defined.

Section fitted_values.
Import StatsModels.
Local Open Scope R_scope.

Lemma mapM_drop {A B} (f : A -> result B) (n : nat) (l : list A) (l' : list B) :
  mapM f l = Ok l' -> mapM f (drop n l) = Ok (drop n l').
Proof.
  rewrite !mapM_ok_Forall2. apply Forall2_drop.
Qed.

Lemma finite_of_numbers (l : list R) : mapM finite (map Fin l) = Some l.
Proof. apply mapM_Some. induction l; constructor; done. Qed.

Lemma no_absolute_error (l : list R) :
  Pandas.Rsum (zip_with (fun t p => Rabs (p - t)) l l) = 0.
Proof.
  induction l as [| x l IH]; [done |].
  cbn [zip_with Pandas.Rsum foldr]. fold (Pandas.Rsum (zip_with (fun t p => Rabs (p - t)) l l)).
  rewrite IH, Rminus_diag, Rabs_R0. lra.
Qed.

Lemma numeric_values_length (col : list pyval) (values : list R) :
  Pandas.numeric_values col = Ok values -> length values = length col.
Proof. apply mapM_ok_length. Qed.

Lemma exact_fit_error (col : list pyval) (values : list R) :
  Pandas.numeric_values col = Ok values -> (2 <= length values)%nat ->
  mean_absolute_error (drop 1 col) (map Fin (drop 1 values)) = Ok 0.
Proof.
  intros Hvalues Hlen. unfold mean_absolute_error.
  pose proof (numeric_values_length col values Hvalues) as Hcol.
  rewrite length_map, !length_drop, Hcol, Nat.eqb_refl. cbn [negb].
  unfold Pandas.numeric_values in *. rewrite (mapM_drop _ 1 col values Hvalues).
  cbn [mbind result_bind]. rewrite finite_of_numbers.
  destruct (drop 1 values) as [| v rest] eqn:Hdrop.
  - apply (f_equal length) in Hdrop. rewrite length_drop in Hdrop. simpl in Hdrop. lia.
  - rewrite no_absolute_error. f_equal. unfold Rdiv. ring.
Qed.

End fitted_values.

(** X9. SARIMA scorer, positive mean demand: fitted values that reproduce
    the history from the second point on give the score 100, the level
    [Alta] and a [mae] of 0, whatever the first fitted value is (the first
    point is left out of the error). *)
Theorem sarima_score_of_exact_fit (ts : series) (model_fit : StatsModels.SARIMAXResults)
    (values : list R) (first : pyfloat) (mu : R) :
  Pandas.numeric_values (map snd ts) = Ok values -> (2 <= length values)%nat ->
  StatsModels.fittedvalues model_fit = Ok (first :: map Fin (drop 1 values)) ->
  Pandas.mean values = Fin mu -> (0 < mu)%R ->
  PredictorSarima._calculate_confidence ts model_fit
  = mkconfidence (Fin 100) Alta (Some 0%R).
Proof.
  intros Hvalues Hlen Hfitted Hmean Hmu.
  rewrite (sarima_score_eq ts model_fit _ values 0 mu Hfitted); try done.
  - replace (100 * (1 - 0 / mu))%R with 100%R by (unfold Rdiv; ring).
    by rewrite clamp_100, round2_100, round2_0, level_of_100.
  - by apply exact_fit_error.
Qed.

Lemma sarima_score_of_exact_fit_witness :
  PredictorSarima._calculate_confidence
    (Samples.year_2020 (Samples.numbers [10; 20; 30]%R))
    (Samples.const_results (Fin 1) (Fin 0) (Fin 2) (Ok [NaN; Fin 20; Fin 30]))
  = mkconfidence (Fin 100) Alta (Some 0%R).
Proof.
  apply (sarima_score_of_exact_fit _ _ [10; 20; 30]%R NaN ((10 + (20 + (30 + 0))) / INR 3)%R).
  - reflexivity.
  - simpl. lia.
  - reflexivity.
  - reflexivity.
  - replace (INR 3) with 3%R by (simpl; lra). lra.
Defined.

(** X10. SARIMA scorer: fitted values whose number differs from that of the
    history, or that hold a [NaN] or an infinity after the first one, make
    the error computation raise; the result is the default
    [{score: 50, level: Media, mae: 0}]. *)
Theorem sarima_default_on_unusable_fitted_values (ts : series)
    (model_fit : StatsModels.SARIMAXResults) (predictions : list pyfloat) :
  StatsModels.fittedvalues model_fit = Ok predictions ->
  length predictions <> length ts \/
  Exists (fun x => StatsModels.finite x = None) (drop 1 predictions) ->
  PredictorSarima._calculate_confidence ts model_fit
  = mkconfidence (Fin 50) Media (Some 0%R).
Proof.
  intros Hfitted Hbad.
  assert (Hraise : exists e,
             StatsModels.mean_absolute_error (drop 1 (map snd ts)) (drop 1 predictions)
             = Raise e).
  { unfold StatsModels.mean_absolute_error.
    destruct (Nat.eqb_spec (length (drop 1 (map snd ts))) (length (drop 1 predictions)))
      as [Heq | Hne]; [| by eexists].
    cbn [negb].
    destruct (Pandas.numeric_values (drop 1 (map snd ts))) as [tv | e] eqn:Htv;
      [| by eexists].
    cbn [mbind result_bind].
    destruct tv as [| t tv]; [by eexists |].
    destruct (mapM StatsModels.finite (drop 1 predictions)) as [pred |] eqn:Hpred;
      [| by eexists].
    exfalso. apply numeric_values_length in Htv.
    rewrite !length_drop, length_map in Heq.
    rewrite length_drop, length_map in Htv. simpl in Htv.
    destruct Hbad as [Hlen | Hnan]; [lia |].
    apply mapM_Some in Hpred.
    apply Exists_exists in Hnan as (x & Hx & Hnone).
    apply list_elem_of_lookup in Hx as [i Hi].
    destruct (Forall2_lookup_l _ _ _ _ _ Hpred Hi) as (y & _ & Hy). congruence. }
  destruct Hraise as [e He].
  apply (sarima_scorer_fallback ts model_fit e).
  unfold PredictorSarima._calculate_confidence_try.
  rewrite Hfitted. cbn [mbind result_bind]. by rewrite He.
Qed.

Lemma sarima_default_on_unusable_fitted_values_witness :
  PredictorSarima._calculate_confidence
    (Samples.year_2020 (Samples.numbers [10; 20; 30]%R))
    (Samples.const_results (Fin 1) (Fin 0) (Fin 2) (Ok [Fin 10; NaN; Fin 30]))
  = mkconfidence (Fin 50) Media (Some 0%R).
Proof.
  apply (sarima_default_on_unusable_fitted_values _ _ [Fin 10; NaN; Fin 30]).
  - reflexivity.
  - right. apply Exists_cons_hd. reflexivity.
Defined.

(** X11. Dispersion scorer, history with a negative mean: the variability
    is not positive, the clamp saturates, and the score is 100 with the
    level [Alta], whatever the spread of the history. *)
Theorem dispersion_score_negative_mean (historical_df : series)
    (forecast_df : list ProphetLib.forecast_row) (y : list R) (sd mu : R) :
  Pandas.numeric_values (map snd historical_df) = Ok y ->
  Pandas.std y = Fin sd -> Pandas.mean y = Fin mu -> (mu < 0)%R ->
  Predictor._calculate_confidence historical_df forecast_df
  = Ok (mkconfidence (Fin 100) Alta None).
Proof.
  intros Hy Hsd Hmu Hneg.
  assert (Hpos : (0 <= sd)%R).
  { destruct y as [| a [| b l]]; try done. injection Hsd as <-. apply sqrt_pos. }
  rewrite (prophet_score_eq _ _ y sd mu Hy Hsd Hmu) by lra.
  assert (Hinv : (/ mu < 0)%R) by by apply Rinv_lt_0_compat.
  rewrite clamp_high by (unfold Rdiv; nra).
  by rewrite round2_100, level_of_100.
Qed.

Lemma dispersion_score_negative_mean_witness :
  Predictor._calculate_confidence (Samples.year_2020 (Samples.numbers [-1; -3]%R)) []
  = Ok (mkconfidence (Fin 100) Alta None).
Proof.
  eapply (dispersion_score_negative_mean _ _ [-1; -3]%R).
  - reflexivity.
  - reflexivity.
  - reflexivity.
  - cbn [Pandas.Rsum foldr length]. replace (INR 2) with 2%R by (simpl; lra). lra.
Defined.

(** X12. Dispersion scorer, history with a positive mean: once the standard
    deviation reaches the mean, the score is 0 and the level [Baja]. *)
Theorem dispersion_score_wide_spread (historical_df : series)
    (forecast_df : list ProphetLib.forecast_row) (y : list R) (sd mu : R) :
  Pandas.numeric_values (map snd historical_df) = Ok y ->
  Pandas.std y = Fin sd -> Pandas.mean y = Fin mu -> (0 < mu <= sd)%R ->
  Predictor._calculate_confidence historical_df forecast_df
  = Ok (mkconfidence (Fin 0) Baja None).
Proof.
  intros Hy Hsd Hmu [Hpos Hle].
  rewrite (prophet_score_eq _ _ y sd mu Hy Hsd Hmu) by lra.
  assert (Hinv : (0 < / mu)%R) by by apply Rinv_0_lt_compat.
  assert (Hone : (mu * / mu = 1)%R) by (apply Rinv_r; lra).
  rewrite clamp_low by (unfold Rdiv; nra).
  by rewrite round2_0, level_of_0.
Qed.

Lemma dispersion_score_wide_spread_witness :
  Predictor._calculate_confidence (Samples.year_2020 (Samples.numbers [0; 4]%R)) []
  = Ok (mkconfidence (Fin 0) Baja None).
Proof.
  eapply (dispersion_score_wide_spread _ _ [0; 4]%R).
  - reflexivity.
  - reflexivity.
  - reflexivity.
  - assert (Hvar : Pandas.var [0; 4]%R = 8%R).
    { unfold Pandas.var. cbn [Pandas.Rsum foldr map length].
      replace (INR 2) with 2%R by (simpl; lra). field. }
    rewrite Hvar. cbn [Pandas.Rsum foldr length].
    replace (INR 2) with 2%R by (simpl; lra).
    split; [lra |].
    replace ((0 + (4 + 0)) / 2)%R with (sqrt (2 * 2)) by (rewrite sqrt_square; lra).
    apply sqrt_le_1_alt. lra.
Defined.

(** ** The prediction routes on stored data *)

(** X13. When [GET /predict/<producto>] answers with a prediction, the
    status is 200, the product is named in upper case, [periods] (3 when
    the query gives none) lies in 1..12 and the body holds exactly [periods]
    predictions; the history it reports has the length of the product's
    stored records, at least 12. *)
Theorem single_route_prediction
    `{Pandas.Engine} `{ProphetLib.ProphetEngine} `{Routes.Firebase} `{Routes.PyStr}
    (predictor predictor' : Predictor.DemandPredictor) (producto : string)
    (arg : option Z) (name : string) (prediccion : list Prediction)
    (historico : list HistoricalPoint) (confianza : Confidence)
    (total_meses_historicos : nat) (status : Z) :
  Routes.predict_product predictor producto arg
  = (Routes.JsonPrediction name prediccion historico confianza total_meses_historicos,
     status, predictor') ->
  status = 200%Z /\ name = Routes.upper producto /\
  (1 <= default 3%Z arg <= 12)%Z /\
  length prediccion = Z.to_nat (default 3%Z arg) /\
  total_meses_historicos = length (Routes.get_product_data (Routes.upper producto)) /\
  length historico = total_meses_historicos /\
  (12 <= total_meses_historicos)%nat.
Proof.
  unfold Routes.predict_product, Routes.FORECAST_PERIODS.
  destruct (Z.ltb_spec (default 3%Z arg) 1) as [? | Hlo]; [done |].
  destruct (Z.ltb_spec 12 (default 3%Z arg)) as [? | Hhi]; [done |]. cbn [orb].
  destruct (Routes.get_product_data (Routes.upper producto)) as [| r data] eqn:Hdata;
    [done |].
  destruct (Predictor.train_and_predict predictor (r :: data) (default 3%Z arg))
    as [resp p'] eqn:Hcall.
  destruct resp as [preds hist conf n | e]; [| done].
  intros [= <- <- <- <- <- <- <-].
  assert (Hresp : fst (Predictor.train_and_predict predictor (r :: data) (default 3%Z arg))
                  = Success preds hist conf n) by by rewrite Hcall.
  pose proof Hresp as Hinv.
  apply prophet_success_inv in Hinv as (ts & Hprep & Hlen & Hfit); [| done].
  destruct (prepare_data_Some _ _ Hprep) as (Hts & _ & Hasc).
  destruct (last ts) as [last_point |] eqn:Hlast.
  2: { apply last_None in Hlast. subst ts. simpl in Hlen. lia. }
  destruct (prophet_horizon predictor ts (default 3%Z arg) last_point preds hist conf n)
    as [Hdates _]; [lia | done.. |].
  apply prophet_fit_ok_inv in Hfit
    as (? & ? & ? & ? & h & _ & _ & _ & _ & Hh & [= _ -> _ ->]).
  apply format_historical_echoes, Forall2_length in Hh.
  repeat split; try done; try lia.
  by rewrite <- (length_map (fun pr => mkdate (p_anio pr) (p_mes pr) 1)), Hdates,
    horizon_length.
Qed.

Lemma single_route_prediction_witness :
  exists prediccion historico confianza,
    @Routes.predict_product Samples.pandas (Samples.const_prophet (Fin 1) (Fin 0) (Fin 2))
      Samples.two_product_store Samples.ascii_only Predictor.__init__ "MAIZ" None
    = (Routes.JsonPrediction "MAIZ" prediccion historico confianza 12, 200%Z,
       Predictor.mkpredictor
         (Predictor.model
            (snd (@Predictor.train_and_predict Samples.pandas
                    (Samples.const_prophet (Fin 1) (Fin 0) (Fin 2))
                    Predictor.__init__ Samples.flat_year 3)))) /\
    length prediccion = 3%nat.
Proof.
  eexists _, _, _.
  assert (Hcall :
    @Routes.predict_product Samples.pandas (Samples.const_prophet (Fin 1) (Fin 0) (Fin 2))
      Samples.two_product_store Samples.ascii_only Predictor.__init__ "MAIZ" None
    = (Routes.JsonPrediction "MAIZ" _ _ _ 12, 200%Z,
       Predictor.mkpredictor
         (Predictor.model
            (snd (@Predictor.train_and_predict Samples.pandas
                    (Samples.const_prophet (Fin 1) (Fin 0) (Fin 2))
                    Predictor.__init__ Samples.flat_year 3))))) by run.
  split; [exact Hcall |].
  destruct (@single_route_prediction Samples.pandas
              (Samples.const_prophet (Fin 1) (Fin 0) (Fin 2))
              Samples.two_product_store Samples.ascii_only
              Predictor.__init__ _ "MAIZ" None _ _ _ _ _ _ Hcall)
    as (_ & _ & _ & Hlen & _).
  exact Hlen.
Defined.

(** X14. [GET /predict/<producto>] with a [periods] of 1..12: when the store
    has no record of the product (looked up in upper case) the answer is
    404 and names the product as it was typed; when it has fewer than 12
    records, with valid dates, the answer is 400 with the insufficient-
    history message.  The predictor is untouched in both cases. *)
Theorem single_route_without_enough_data
    `{Pandas.Engine} `{ProphetLib.ProphetEngine} `{Routes.Firebase} `{Routes.PyStr}
    (predictor : Predictor.DemandPredictor) (producto : string) (periods : Z) :
  (1 <= periods <= 12)%Z ->
  (Routes.get_product_data (Routes.upper producto) = [] ->
   Routes.predict_product predictor producto (Some periods)
   = (Routes.JsonError ("No se encontraron datos para el producto: " +:+ producto),
      404%Z, predictor)) /\
  (Routes.get_product_data (Routes.upper producto) <> [] ->
   (length (Routes.get_product_data (Routes.upper producto)) < 12)%nat ->
   Forall valid_month (Routes.get_product_data (Routes.upper producto)) ->
   Routes.predict_product predictor producto (Some periods)
   = (Routes.JsonError insufficient_history, 400%Z, predictor)).
Proof.
  intros [Hlo Hhi]. unfold Routes.predict_product.
  change (default Routes.FORECAST_PERIODS (Some periods)) with periods.
  destruct (Z.ltb_spec periods 1); [lia |].
  destruct (Z.ltb_spec 12 periods); [lia |]. cbn [orb].
  split.
  - by intros ->.
  - intros Hne Hlen Hvalid.
    destruct (Routes.get_product_data (Routes.upper producto)) as [| r data] eqn:Hdata;
      [done |].
    by rewrite (proj2 (prophet_gate_closed predictor (r :: data) periods Hlen) Hvalid).
Qed.

Lemma single_route_without_enough_data_witness :
  @Routes.predict_product Samples.pandas (Samples.const_prophet (Fin 1) (Fin 0) (Fin 2))
    Samples.two_product_store Samples.ascii_only Predictor.__init__ "ARROZ" (Some 3%Z)
  = (Routes.JsonError "No se encontraron datos para el producto: ARROZ", 404%Z,
     Predictor.__init__) /\
  @Routes.predict_product Samples.pandas (Samples.const_prophet (Fin 1) (Fin 0) (Fin 2))
    Samples.two_product_store Samples.ascii_only Predictor.__init__ "TRIGO" (Some 3%Z)
  = (Routes.JsonError insufficient_history, 400%Z, Predictor.__init__).
Proof.
  split.
  - apply (@single_route_without_enough_data Samples.pandas
             (Samples.const_prophet (Fin 1) (Fin 0) (Fin 2))
             Samples.two_product_store Samples.ascii_only
             Predictor.__init__ "ARROZ" 3%Z); [lia | reflexivity].
  - apply (@single_route_without_enough_data Samples.pandas
             (Samples.const_prophet (Fin 1) (Fin 0) (Fin 2))
             Samples.two_product_store Samples.ascii_only
             Predictor.__init__ "TRIGO" 3%Z).
    + lia.
    + discriminate.
    + simpl. lia.
    + exact five_months_valid.
Defined.



(** ** The store *)

Section store_facts.
Import FirebaseService.
Local Open Scope Z_scope.

Lemma key_le_spec (x y : DemandRecord) : key_le x y = true <-> not_after x y.
Proof.
  unfold key_le, not_after.
  rewrite orb_true_iff, andb_true_iff, Z.ltb_lt, Z.eqb_eq, Z.leb_le. tauto.
Qed.

Lemma key_le_false (x y : DemandRecord) :
  key_le x y = false -> not_after y x /\ ~ (anio x = anio y /\ mes x = mes y).
Proof.
  unfold key_le, not_after.
  rewrite orb_false_iff, andb_false_iff, Z.ltb_ge, Z.eqb_neq, Z.leb_gt. lia.
Qed.

Lemma not_after_trans (x y z : DemandRecord) :
  not_after x y -> not_after y z -> not_after x z.
Proof. unfold not_after. lia. Qed.

Lemma insert_by_key_perm (x : DemandRecord) (l : list DemandRecord) :
  insert_by_key x l ≡ₚ x :: l.
Proof.
  induction l as [| y l IH]; simpl; [done |].
  destruct (key_le x y); [done |]. by rewrite IH, Permutation_swap.
Qed.

Lemma sort_by_key_perm (l : list DemandRecord) : sort_by_key l ≡ₚ l.
Proof.
  induction l as [| x l IH]; simpl; [done |].
  by rewrite insert_by_key_perm, IH.
Qed.

Lemma insert_by_key_sorted (x : DemandRecord) (l : list DemandRecord) :
  StronglySorted not_after l -> StronglySorted not_after (insert_by_key x l).
Proof.
  induction 1 as [| y l Hl IH Hy]; simpl.
  - repeat constructor.
  - destruct (key_le x y) eqn:Hxy.
    + apply key_le_spec in Hxy. constructor; [by constructor |].
      constructor; [done |].
      eapply Forall_impl; [exact Hy |]. intros z. by apply not_after_trans.
    + apply key_le_false in Hxy as [Hyx _]. constructor; [done |].
      rewrite insert_by_key_perm. by constructor.
Qed.

Lemma sort_by_key_sorted (l : list DemandRecord) :
  StronglySorted not_after (sort_by_key l).
Proof.
  induction l as [| x l IH]; simpl; [constructor |].
  by apply insert_by_key_sorted.
Qed.

Lemma of_month_insert (y m : Z) (x : DemandRecord) (l : list DemandRecord) :
  of_month y m (insert_by_key x l) = of_month y m (x :: l).
Proof.
  unfold of_month. induction l as [| z l IH]; simpl; [done |].
  destruct (key_le x z) eqn:Hxz; [done |].
  apply key_le_false in Hxz as [_ Hne].
  rewrite (filter_cons _ z), IH, !filter_cons.
  repeat case_decide; try done. lia.
Qed.

Lemma of_month_sort (y m : Z) (l : list DemandRecord) :
  of_month y m (sort_by_key l) = of_month y m l.
Proof.
  induction l as [| x l IH]; simpl; [done |].
  rewrite of_month_insert. unfold of_month in *. by rewrite !filter_cons, IH.
Qed.

Lemma ascii_compare_N (a b : Ascii.ascii) :
  Ascii.compare a b = N.compare (Ascii.N_of_ascii a) (Ascii.N_of_ascii b).
Proof. reflexivity. Qed.

Lemma string_compare_trans (s1 s2 s3 : string) :
  String.compare s1 s2 <> Gt -> String.compare s2 s3 <> Gt ->
  String.compare s1 s3 <> Gt.
Proof.
  revert s2 s3. induction s1 as [| a s1 IH]; intros [| b s2] [| d s3]; simpl; try done.
  rewrite !ascii_compare_N.
  destruct (N.compare_spec (Ascii.N_of_ascii a) (Ascii.N_of_ascii b)) as [Hab | Hab | Hab];
    destruct (N.compare_spec (Ascii.N_of_ascii b) (Ascii.N_of_ascii d)) as [Hbd | Hbd | Hbd];
    destruct (N.compare_spec (Ascii.N_of_ascii a) (Ascii.N_of_ascii d)) as [Had | Had | Had];
    try done; try lia; eauto.
Qed.

Lemma string_leb_trans (s1 s2 s3 : string) :
  String.leb s1 s2 = true -> String.leb s2 s3 = true -> String.leb s1 s3 = true.
Proof.
  unfold String.leb. intros H12 H23.
  pose proof (string_compare_trans s1 s2 s3) as Htrans.
  destruct (String.compare s1 s2), (String.compare s2 s3), (String.compare s1 s3);
    try done; exfalso; by apply Htrans.
Qed.

Lemma insert_string_perm (x : string) (l : list string) : insert_string x l ≡ₚ x :: l.
Proof.
  induction l as [| y l IH]; simpl; [done |].
  destruct (String.leb x y); [done |]. by rewrite IH, Permutation_swap.
Qed.

Lemma sorted_perm (l : list string) : sorted l ≡ₚ l.
Proof.
  induction l as [| x l IH]; simpl; [done |].
  by rewrite insert_string_perm, IH.
Qed.

Lemma insert_string_sorted (x : string) (l : list string) :
  StronglySorted (fun a b => String.leb a b = true) l ->
  StronglySorted (fun a b => String.leb a b = true) (insert_string x l).
Proof.
  induction 1 as [| y l Hl IH Hy]; simpl.
  - repeat constructor.
  - destruct (String.leb x y) eqn:Hxy.
    + constructor; [by constructor |]. constructor; [done |].
      eapply Forall_impl; [exact Hy |]. intros z. by apply string_leb_trans.
    + constructor; [done |]. rewrite insert_string_perm. constructor; [| done].
      by destruct (String.leb_total x y) as [Hle | Hle]; [rewrite Hle in Hxy |].
Qed.

Lemma sorted_sorted (l : list string) :
  StronglySorted (fun a b => String.leb a b = true) (sorted l).
Proof.
  induction l as [| x l IH]; simpl; [constructor |].
  by apply insert_string_sorted.
Qed.


Lemma names_spec (docs : list DemandRecord) (p : string) :
  p ∈ names docs <-> exists doc, doc ∈ docs /\ producto doc = p.
Proof.
  unfold names. rewrite elem_of_list_to_set.
  change (map producto docs) with (producto <$> docs).
  rewrite list_elem_of_fmap. split.
  - intros (doc & -> & Hin). by exists doc.
  - intros (doc & Hin & <-). by exists doc.
Qed.

End store_facts.

Section store_reads.
Import FirebaseService.

Lemma get_product_data_ok `{Backend} (db : Firestore) (product : string)
    (docs : list DemandRecord) :
  stream db = Ok docs ->
  get_product_data db product = sort_by_key (of_product product docs).
Proof. unfold get_product_data. by intros ->. Qed.

Lemma get_all_products_ok `{Backend} (db : Firestore) (docs : list DemandRecord) :
  stream db = Ok docs ->
  get_all_products db = sorted (remove_dups (map producto docs)).
Proof. unfold get_all_products. by intros ->. Qed.

Lemma reads_of_unreachable `{Backend} (db : Firestore) (e : string) :
  stream_fault = Some e ->
  get_all_products db = [] /\ forall product, get_product_data db product = [].
Proof.
  intros He. unfold get_all_products, get_product_data, stream. by rewrite He.
Qed.

Lemma get_all_products_names `{Backend} (db : Firestore) (docs : list DemandRecord)
    (p : string) :
  stream db = Ok docs -> p ∈ get_all_products db <-> p ∈ names docs.
Proof.
  intros Hdocs. rewrite (get_all_products_ok db docs Hdocs), sorted_perm.
  rewrite elem_of_remove_dups. unfold names. by rewrite elem_of_list_to_set.
Qed.

Lemma get_all_products_NoDup `{Backend} (db : Firestore) : NoDup (get_all_products db).
Proof.
  unfold get_all_products. destruct (stream db); [| constructor].
  rewrite sorted_perm. apply NoDup_remove_dups.
Qed.

Lemma get_all_products_size `{Backend} (db : Firestore) (docs : list DemandRecord) :
  stream db = Ok docs -> length (get_all_products db) = size (names docs).
Proof.
  intros Hdocs. rewrite (get_all_products_ok db docs Hdocs), sorted_perm.
  unfold names.
  rewrite <- (size_list_to_set (C := gset string)) by apply NoDup_remove_dups.
  f_equal. apply set_eq. intros p. by rewrite !elem_of_list_to_set, elem_of_remove_dups.
Qed.

End store_reads.

(** X16. When the backend answers, [get_product_data] returns the stored
    documents of the product, each of them once for each time it is
    stored and no other, ordered by year and then by month. *)
Theorem product_data_sorted_selection `{FirebaseService.Backend}
    (db : FirebaseService.Firestore) (product : string) (docs : list DemandRecord) :
  FirebaseService.stream db = Ok docs ->
  FirebaseService.get_product_data db product ≡ₚ of_product product docs /\
  Forall (fun doc => producto doc = product) (FirebaseService.get_product_data db product) /\
  StronglySorted not_after (FirebaseService.get_product_data db product).
Proof.
  intros Hdocs. rewrite (get_product_data_ok db product docs Hdocs).
  split; [apply sort_by_key_perm |]. split; [| apply sort_by_key_sorted].
  rewrite sort_by_key_perm. unfold of_product. apply Forall_forall.
  intros doc Hin. by apply list_elem_of_filter in Hin as [? _].
Qed.

Lemma product_data_sorted_selection_witness :
  @FirebaseService.get_product_data StoreSamples.reliable StoreSamples.small_store "MAIZ"
  = [StoreSamples.record "MAIZ" 2020 3 4; StoreSamples.record "MAIZ" 2020 12 5] /\
  StronglySorted not_after
    (@FirebaseService.get_product_data StoreSamples.reliable StoreSamples.small_store "MAIZ").
Proof.
  split; [reflexivity |].
  apply (@product_data_sorted_selection StoreSamples.reliable StoreSamples.small_store
           "MAIZ" (FirebaseService.demandas StoreSamples.small_store)).
  reflexivity.
Defined.

(** X17. The sort of [get_product_data] is stable: the documents a product
    has for one and the same month (a month uploaded twice, say) come back
    in the order in which the backend streamed them. *)
Theorem same_month_keeps_stream_order `{FirebaseService.Backend}
    (db : FirebaseService.Firestore) (product : string) (docs : list DemandRecord)
    (y m : Z) :
  FirebaseService.stream db = Ok docs ->
  of_month y m (FirebaseService.get_product_data db product)
  = of_month y m (of_product product docs).
Proof.
  intros Hdocs. rewrite (get_product_data_ok db product docs Hdocs).
  apply of_month_sort.
Qed.

Lemma same_month_keeps_stream_order_witness :
  of_month 2020 3
    (@FirebaseService.get_product_data StoreSamples.reliable StoreSamples.repeated_store
       "MAIZ")
  = [StoreSamples.record "MAIZ" 2020 3 4; StoreSamples.record "MAIZ" 2020 3 9].
Proof.
  rewrite (@same_month_keeps_stream_order StoreSamples.reliable
             StoreSamples.repeated_store "MAIZ"
             (FirebaseService.demandas StoreSamples.repeated_store) 2020 3 eq_refl).
  reflexivity.
Defined.

(** X18. When the backend answers, [get_all_products] lists exactly the
    product names that occur in the stored documents, each of them once,
    in the ascending order of strings. *)
Theorem all_products_distinct_sorted `{FirebaseService.Backend}
    (db : FirebaseService.Firestore) (docs : list DemandRecord) :
  FirebaseService.stream db = Ok docs ->
  (forall p, p ∈ FirebaseService.get_all_products db <-> p ∈ names docs) /\
  NoDup (FirebaseService.get_all_products db) /\
  length (FirebaseService.get_all_products db) = size (names docs) /\
  StronglySorted (fun a b => String.leb a b = true) (FirebaseService.get_all_products db).
Proof.
  intros Hdocs. split; [intros p; by apply get_all_products_names |].
  split; [apply get_all_products_NoDup |].
  split; [by apply get_all_products_size |].
  rewrite (get_all_products_ok db docs Hdocs). apply sorted_sorted.
Qed.

Lemma all_products_distinct_sorted_witness :
  @FirebaseService.get_all_products StoreSamples.reliable StoreSamples.small_store
  = ["MAIZ"; "TRIGO"] /\
  NoDup (@FirebaseService.get_all_products StoreSamples.reliable StoreSamples.small_store).
Proof.
  split; [reflexivity |].
  apply (@all_products_distinct_sorted StoreSamples.reliable StoreSamples.small_store
           (FirebaseService.demandas StoreSamples.small_store)).
  reflexivity.
Defined.



(** ** The routes over the store *)



(** X21. A backend whose [stream()] raises is not told apart from an empty
    store: the reads of the service return empty lists, so [GET /products]
    answers 200 with no product, [GET /data/<producto>] and
    [GET /predict/<producto>] answer 404 as for an unknown product and
    [GET /predict-all] answers 404 as if nothing had been uploaded; none of
    them reports the exception. *)
Theorem unreachable_store_looks_empty `{FirebaseService.Backend}
    `{Pandas.Engine} `{ProphetLib.ProphetEngine} `{Routes.PyStr}
    (db : FirebaseService.Firestore)
    (predictor : Predictor.DemandPredictor) (producto : string) (periods : Z)
    (arg : option Z) (e : string) :
  FirebaseService.stream_fault = Some e ->
  (1 <= periods <= 12)%Z ->
  DataRoutes.get_products db = (DataRoutes.JsonProducts [] 0, 200%Z) /\
  DataRoutes.get_product_data db producto
  = (DataRoutes.JsonError ("No se encontraron datos para: " +:+ producto), 404%Z) /\
  @Routes.predict_product _ _ (DataRoutes.firebase db) _ predictor producto (Some periods)
  = (Routes.JsonError ("No se encontraron datos para el producto: " +:+ producto),
     404%Z, predictor) /\
  @Routes.predict_all_products _ _ (DataRoutes.firebase db) predictor arg
  = (Routes.JsonError "No hay productos disponibles. Sube datos primero.", 404%Z,
     predictor).
Proof.
  intros He [Hlo Hhi].
  destruct (reads_of_unreachable db e He) as [Hall Hone].
  repeat split.
  - unfold DataRoutes.get_products. by rewrite Hall.
  - unfold DataRoutes.get_product_data. by rewrite Hone.
  - unfold Routes.predict_product, DataRoutes.firebase. cbn [Routes.get_product_data].
    change (default Routes.FORECAST_PERIODS (Some periods)) with periods.
    destruct (Z.ltb_spec periods 1); [lia |].
    destruct (Z.ltb_spec 12 periods); [lia |]. cbn [orb].
    by rewrite Hone.
  - unfold Routes.predict_all_products, DataRoutes.firebase. cbn [Routes.get_all_products].
    by rewrite Hall.
Qed.

Lemma unreachable_store_looks_empty_witness :
  @DataRoutes.get_products (StoreSamples.unreachable "Deadline Exceeded")
    StoreSamples.year_store
  = (DataRoutes.JsonProducts [] 0, 200%Z) /\
  @Routes.predict_product Samples.pandas (Samples.const_prophet (Fin 1) (Fin 0) (Fin 2))
    (@DataRoutes.firebase (StoreSamples.unreachable "Deadline Exceeded")
       StoreSamples.year_store)
    Samples.ascii_only Predictor.__init__ "MAIZ" (Some 3%Z)
  = (Routes.JsonError "No se encontraron datos para el producto: MAIZ", 404%Z,
     Predictor.__init__).
Proof.
  destruct (@unreachable_store_looks_empty (StoreSamples.unreachable "Deadline Exceeded")
              Samples.pandas (Samples.const_prophet (Fin 1) (Fin 0) (Fin 2)) Samples.ascii_only
              StoreSamples.year_store Predictor.__init__ "MAIZ" 3%Z None
              "Deadline Exceeded" eq_refl)
    as (Hproducts & _ & Hpredict & _); [lia |].
  by split.
Defined.

(** X22. [GET /data/<producto>] looks the product up under its upper-case
    name.  When the backend streams no document of that name the answer is
    404 and quotes the name as it was typed; otherwise it is 200 with the
    upper-case name, the documents of that name ordered by year and month,
    and their number. *)
Theorem data_route `{FirebaseService.Backend} `{Routes.PyStr}
    (db : FirebaseService.Firestore) (producto : string) (docs : list DemandRecord) :
  FirebaseService.stream db = Ok docs ->
  (of_product (Routes.upper producto) docs = [] ->
   DataRoutes.get_product_data db producto
   = (DataRoutes.JsonError ("No se encontraron datos para: " +:+ producto), 404%Z)) /\
  (of_product (Routes.upper producto) docs <> [] ->
   exists data,
     DataRoutes.get_product_data db producto
     = (DataRoutes.JsonData (Routes.upper producto) data
          (length (of_product (Routes.upper producto) docs)), 200%Z) /\
     data ≡ₚ of_product (Routes.upper producto) docs /\
     StronglySorted not_after data).
Proof.
  intros Hdocs. unfold DataRoutes.get_product_data.
  rewrite (get_product_data_ok db _ docs Hdocs).
  pose proof (sort_by_key_perm (of_product (Routes.upper producto) docs)) as Hperm.
  pose proof (sort_by_key_sorted (of_product (Routes.upper producto) docs)) as Hsorted.
  destruct (FirebaseService.sort_by_key (of_product (Routes.upper producto) docs))
    as [| doc data] eqn:Hdata.
  - apply Permutation_nil_l in Hperm. split; [done |]. by intros [].
  - split.
    + intros Hnone. rewrite Hnone in Hperm. by apply Permutation_nil_r in Hperm.
    + intros _. exists (doc :: data). by rewrite <- Hperm.
Qed.

Lemma data_route_witness :
  @DataRoutes.get_product_data StoreSamples.reliable Samples.ascii_only
    StoreSamples.small_store "MAIZ"
  = (DataRoutes.JsonData "MAIZ"
       [StoreSamples.record "MAIZ" 2020 3 4; StoreSamples.record "MAIZ" 2020 12 5] 2,
     200%Z) /\
  @DataRoutes.get_product_data StoreSamples.reliable Samples.ascii_only
    StoreSamples.small_store "ARROZ"
  = (DataRoutes.JsonError "No se encontraron datos para: ARROZ", 404%Z).
Proof.
  split; [reflexivity |].
  apply (@data_route StoreSamples.reliable Samples.ascii_only StoreSamples.small_store
           "ARROZ" (FirebaseService.demandas StoreSamples.small_store));
    reflexivity.
Defined.

Lemma valid_months_order (x y : DemandRecord) :
  valid_month x -> valid_month y ->
  Pandas.le (month_start x) (month_start y) = true -> not_after x y.
Proof.
  intros [Hx _] [Hy _] Hle. apply le_spec in Hle.
  unfold Pandas.ordinal, month_start, not_after in *. simpl in Hle. lia.
Qed.

(** X23. A prediction of [GET /predict/<producto>] over the store, when the
    documents stored under the upper-case name have valid months: the
    history it counts is every such document, and the forecast months are
    the [periods] months that follow the latest month among those
    documents, in whatever order they were uploaded or streamed. *)
Theorem forecast_follows_latest_stored_month `{FirebaseService.Backend}
    `{Pandas.Engine} `{ProphetLib.ProphetEngine} `{Routes.PyStr}
    (db : FirebaseService.Firestore)
    (docs : list DemandRecord) (predictor predictor' : Predictor.DemandPredictor)
    (producto : string) (arg : option Z) (name : string) (prediccion : list Prediction)
    (historico : list HistoricalPoint) (confianza : Confidence)
    (total_meses_historicos : nat) (status : Z) :
  FirebaseService.stream db = Ok docs ->
  Forall valid_month (of_product (Routes.upper producto) docs) ->
  @Routes.predict_product _ _ (DataRoutes.firebase db) _ predictor producto arg
  = (Routes.JsonPrediction name prediccion historico confianza total_meses_historicos,
     status, predictor') ->
  total_meses_historicos = length (of_product (Routes.upper producto) docs) /\
  exists latest,
    latest ∈ of_product (Routes.upper producto) docs /\
    Forall (fun doc => not_after doc latest) (of_product (Routes.upper producto) docs) /\
    labels prediccion
    = map (fun d => (year d, month d))
          (horizon (mkdate (anio latest) (mes latest) 1) (default 3%Z arg)).
Proof.
  intros Hdocs Hmonths.
  unfold Routes.predict_product, Routes.FORECAST_PERIODS, DataRoutes.firebase.
  cbn [Routes.get_product_data].
  destruct (Z.ltb_spec (default 3%Z arg) 1) as [? | Hlo]; [done |].
  destruct (Z.ltb_spec 12 (default 3%Z arg)) as [? | Hhi]; [done |]. cbn [orb].
  pose proof (get_product_data_ok db (Routes.upper producto) docs Hdocs) as Hsel.
  pose proof (sort_by_key_perm (of_product (Routes.upper producto) docs)) as Hperm.
  rewrite <- Hsel in Hperm. clear Hsel.
  rewrite <- Hperm in Hmonths.
  destruct (FirebaseService.get_product_data db (Routes.upper producto))
    as [| r data] eqn:Hdata; [done |].
  destruct (Predictor.train_and_predict predictor (r :: data) (default 3%Z arg))
    as [resp p'] eqn:Hcall.
  destruct resp as [preds hist conf n | e']; [| done].
  intros [= <- <- <- <- <- <- <-].
  assert (Hresp : fst (Predictor.train_and_predict predictor (r :: data) (default 3%Z arg))
                  = Success preds hist conf n) by by rewrite Hcall.
  apply prophet_success_inv in Hresp as (ts & Hprep & Hlen & Hfit); [| done].
  destruct (prepare_data_Some _ _ Hprep) as (Hts & _ & Hasc).
  pose proof (prepare_data_rows _ _ Hmonths Hprep) as Hrows.
  destruct (last ts) as [last_point |] eqn:Hlast.
  2: { apply last_None in Hlast. subst ts. simpl in Hlen. lia. }
  destruct (prophet_horizon predictor ts (default 3%Z arg) last_point preds hist conf n)
    as [Hdates _]; [lia | done.. |].
  split.
  - apply prophet_fit_ok_inv in Hfit
      as (? & ? & ? & ? & h & _ & _ & _ & _ & _ & [= _ _ _ ->]).
    by rewrite Hts, Hperm.
  - assert (Hin : last_point ∈ ts) by (by apply last_Some_elem_of).
    rewrite Hrows in Hin.
    change (map ?f ?l) with (f <$> l) in Hin.
    apply list_elem_of_fmap in Hin as (latest & Hpoint & Hlatest).
    exists latest. split; [by rewrite <- Hperm |]. split.
    + rewrite <- Hperm. apply Forall_forall. intros doc Hdoc.
      apply valid_months_order.
      * by eapply Forall_forall in Hmonths.
      * by eapply Forall_forall in Hmonths.
      * pose proof (ascending_last ts last_point Hasc Hlast
                      (month_start doc, demanda doc)) as Hle.
        rewrite Hpoint in Hle. apply Hle. rewrite Hrows.
        change (map ?f ?l) with (f <$> l). apply list_elem_of_fmap. by exists doc.
    + change (mkdate (anio latest) (mes latest) 1) with (month_start latest).
      replace (month_start latest) with (fst last_point) by by rewrite Hpoint.
      rewrite <- Hdates. unfold labels. by rewrite map_map.
Qed.

Lemma forecast_follows_latest_stored_month_witness :
  exists prediccion historico confianza predictor' latest,
    @Routes.predict_product Samples.pandas (Samples.const_prophet (Fin 1) (Fin 0) (Fin 2))
      (@DataRoutes.firebase StoreSamples.reliable StoreSamples.mixed_store)
      Samples.ascii_only Predictor.__init__ "MAIZ" None
    = (Routes.JsonPrediction "MAIZ" prediccion historico confianza 12, 200%Z, predictor') /\
    latest ∈ of_product "MAIZ" (FirebaseService.demandas StoreSamples.mixed_store) /\
    labels prediccion
    = map (fun d => (year d, month d))
          (horizon (mkdate (anio latest) (mes latest) 1) 3).
Proof.
  eexists _, _, _, _.
  assert (Hcall :
    @Routes.predict_product Samples.pandas (Samples.const_prophet (Fin 1) (Fin 0) (Fin 2))
      (@DataRoutes.firebase StoreSamples.reliable StoreSamples.mixed_store)
      Samples.ascii_only Predictor.__init__ "MAIZ" None
    = (Routes.JsonPrediction "MAIZ" _ _ _ 12, 200%Z, _)) by run.
  assert (Hvalid : Forall valid_month
                     (of_product "MAIZ" (FirebaseService.demandas StoreSamples.mixed_store))).
  { change (of_product "MAIZ" (FirebaseService.demandas StoreSamples.mixed_store))
      with (reverse Samples.flat_year).
    apply Forall_reverse, flat_year_valid. }
  destruct (@forecast_follows_latest_stored_month StoreSamples.reliable Samples.pandas
              (Samples.const_prophet (Fin 1) (Fin 0) (Fin 2)) Samples.ascii_only
              StoreSamples.mixed_store
              (FirebaseService.demandas StoreSamples.mixed_store)
              Predictor.__init__ _ "MAIZ" None _ _ _ _ _ _ eq_refl Hvalid Hcall)
    as (_ & latest & Hin & _ & Hmonths).
  exists latest. split; [exact Hcall |]. split; [exact Hin | exact Hmonths].
Defined.

(** X24. [GET /predict-all] over the store, when the backend streams at
    least one document: the answer is 200, it has one entry for each
    product name that occurs in the stored documents and no other,
    [total_productos] is the number of these names, and the entry of a
    product is the forecast made from the documents [get_product_data]
    returns for it. *)
Theorem batch_route_covers_the_store `{FirebaseService.Backend}
    `{Pandas.Engine} `{ProphetLib.ProphetEngine} (db : FirebaseService.Firestore)
    (docs : list DemandRecord) (predictor : Predictor.DemandPredictor) (arg : option Z) :
  FirebaseService.stream db = Ok docs ->
  docs <> [] ->
  exists results predictor',
    @Routes.predict_all_products _ _ (DataRoutes.firebase db) predictor arg
    = (Routes.JsonPredictions results (size (names docs)), 200%Z, predictor') /\
    dom results = names docs /\
    forall product,
      product ∈ names docs ->
      results !! product
      = Some (fst (Predictor.train_and_predict predictor
                     (FirebaseService.get_product_data db product) (default 3%Z arg))).
Proof.
  intros Hdocs Hne. unfold Routes.predict_all_products.
  pose proof (get_all_products_size db docs Hdocs) as Hsize.
  pose proof (get_all_products_names db docs) as Hnames.
  pose proof (get_all_products_NoDup db) as Hnodup.
  change (@Routes.get_all_products (DataRoutes.firebase db))
    with (FirebaseService.get_all_products db).
  destruct (FirebaseService.get_all_products db) as [| x l] eqn:Hproducts.
  { destruct docs as [| doc docs]; [done |].
    assert (Hin : producto doc ∈ names (doc :: docs)).
    { apply names_spec. exists doc. split; [left | done]. }
    apply Hnames in Hin; [| done]. by apply elem_of_nil in Hin. }
  pose proof (@batch_route_fold _ _ (DataRoutes.firebase db) (x :: l) ∅ predictor predictor
                (default Routes.FORECAST_PERIODS arg)) as Hfold.
  destruct (foldl _ (∅, predictor) (x :: l)) as [results predictor'].
  cbn [fst] in Hfold. exists results, predictor'.
  assert (Hlookup : forall product,
            results !! product
            = if decide (product ∈ x :: l)
              then Some (fst (Predictor.train_and_predict predictor
                                (FirebaseService.get_product_data db product)
                                (default 3%Z arg)))
              else None).
  { intros product. rewrite Hfold, foldl_insert_lookup.
    destruct (decide (product ∈ x :: l)); [done | apply lookup_empty]. }
  assert (Hdom : dom results = names docs).
  { apply set_eq. intros product. rewrite elem_of_dom, Hlookup, <- (Hnames product Hdocs).
    destruct (decide (product ∈ x :: l)) as [Hin | Hout].
    - split; [done | by eexists].
    - split; [by intros [? ?] | done]. }
  split; [| split; [done |]].
  - by rewrite <- Hdom, size_dom.
  - intros product Hin. apply (Hnames product Hdocs) in Hin.
    rewrite Hlookup. by destruct (decide (product ∈ x :: l)).
Qed.

Lemma batch_route_covers_the_store_witness :
  exists results predictor',
    @Routes.predict_all_products Samples.pandas (Samples.const_prophet (Fin 1) (Fin 0) (Fin 2))
      (@DataRoutes.firebase StoreSamples.reliable StoreSamples.mixed_store)
      Predictor.__init__ None
    = (Routes.JsonPredictions results
         (size (names (FirebaseService.demandas StoreSamples.mixed_store))), 200%Z,
       predictor') /\
    dom results = names (FirebaseService.demandas StoreSamples.mixed_store).
Proof.
  destruct (@batch_route_covers_the_store StoreSamples.reliable Samples.pandas
              (Samples.const_prophet (Fin 1) (Fin 0) (Fin 2))
              StoreSamples.mixed_store
              (FirebaseService.demandas StoreSamples.mixed_store)
              Predictor.__init__ None eq_refl)
    as (results & predictor' & Hcall & Hdom & _); [discriminate |].
  exists results, predictor'. split; [exact Hcall | exact Hdom].
Defined.
